(** * Last-mile assignment engine: a shallow embedding and its properties

    The TypeScript sources are embedded module by module, a class becoming
    a module of that name:
    - [Js]                 the JavaScript containers and idioms the code
                           relies on (insertion-ordered [Map] and [Set],
                           [Math.round], [||] on numbers);
    - [Optimizers]         src/algorithms/optimizers.ts, with one module per
                           solver class;
    - [Location] ... [AssignmentEngineConfig]
                           src/types/index.ts, one module per interface;
    - [Geo]                src/utils/geospatial.ts;
    - [CandidateGenerator] src/core/candidate-generation.ts;
    - [BatchOptimizer]     src/algorithms/batching.ts;
    - [ETAModel]           src/models/eta-model.ts;
    - [Scorer]             src/core/scoring.ts;
    - [ReassignmentEngine] src/services/reassignment-engine.ts;
    - [SurgeHandler]       src/services/surge-handler.ts;
    - [Config]             src/config (defaults and the configuration
                           builder);
    - [AssignmentEngine]   src/engine/assignment-engine.ts.
    [Scenarios] holds the notions the statements are phrased with and the
    concrete inputs they are evaluated at; the modules named [...Facts]
    hold the lemmas and theorems.

    Numbers.  A JavaScript [number] is modelled as a rational ([Q]): the
    arithmetic is exact, [Infinity] is written out where the code uses it
    (an [option], or the extended numbers of the auction solver), and
    [NaN] is not represented in [Q].  A division by zero, which JavaScript
    answers with [Infinity] or [NaN], is 0 in [Q]: a statement that reaches
    a division assumes its divisor is not 0.  The code computes in double
    precision; where a statement turns on a comparison that rounding can
    tip, it keeps a margin from the threshold.  Instants ([Date]) are
    integer milliseconds ([Z]).  Great-circle distance, the local-time hour
    of an instant, [Math.exp] and [Math.random] are parameters
    ([Platform]); the wall clock is an argument of the functions that read
    it.

    Objects.  A [Record<string, number>] is modelled by its own properties
    (a [gmap]).  Reading a name that is not an own property but that every
    object inherits from [Object.prototype] gives a function in the code;
    [Js.inherited] recognises these names, and a statement about such a
    read assumes the name is not one of them. *)

From Stdlib Require Import QArith Qround Qabs Lqa Lia ZArith List Bool.
From stdpp Require Import gmap strings list pretty.
Import ListNotations.

(** ** JavaScript containers and number idioms *)
Module Js.

(** [a < b] on numbers. *)
Definition Qltb (a b : Q) : bool := negb (Qle_bool b a).

(** [Math.max(a, b)] and [Math.min(a, b)]. *)
Definition Qmax (a b : Q) : Q := if Qltb a b then b else a.
Definition Qmin (a b : Q) : Q := if Qltb b a then b else a.

(** [Math.round(x)]: the integer nearest to [x], halves going up. *)
Definition round (x : Q) : Z := Qfloor (x + (1 # 2))%Q.

(** [new Date(x)] keeps the integer part of a millisecond count. *)
Definition toDate (x : Q) : Z :=
  if Qle_bool 0 x then Qfloor x else Qceiling x.

(** [x || d] on an optional number: [undefined] and [0] are falsy. *)
Definition orElse (x : option Q) (d : Q) : Q :=
  match x with
  | Some v => if Qeq_bool v 0%Q then d else v
  | None => d
  end.

(** An optional string used as a condition: the empty string is falsy. *)
Definition truthy (s : option string) : option string :=
  match s with
  | Some ""%string => None
  | other => other
  end.

(** The property names every object inherits from [Object.prototype]:
    for a plain object [o] without an own property of that name, [o[name]]
    is a function (the prototype itself for [__proto__]), not
    [undefined]. *)
Definition Object_prototype : list string :=
  [ "constructor"; "__defineGetter__"; "__defineSetter__"; "hasOwnProperty";
    "__lookupGetter__"; "__lookupSetter__"; "isPrototypeOf";
    "propertyIsEnumerable"; "toString"; "valueOf"; "__proto__";
    "toLocaleString" ]%string.

Definition inherited (name : string) : bool :=
  existsb (String.eqb name) Object_prototype.

(** A JavaScript [Map<string, V>]: entries in insertion order. *)
Section JsMap.
Context {V : Type}.

Fixpoint get (k : string) (m : list (string * V)) : option V :=
  match m with
  | [] => None
  | (k', v) :: r => if String.eqb k k' then Some v else get k r
  end.

Definition has (k : string) (m : list (string * V)) : bool :=
  match get k m with Some _ => true | None => false end.

(** [m.set(k, v)]: an existing key keeps its position. *)
Fixpoint set (k : string) (v : V) (m : list (string * V)) : list (string * V) :=
  match m with
  | [] => [(k, v)]
  | (k', v') :: r =>
      if String.eqb k k' then (k, v) :: r else (k', v') :: set k v r
  end.

Definition values (m : list (string * V)) : list V := map snd m.
Definition keys (m : list (string * V)) : list string := map fst m.
End JsMap.

(** A JavaScript [Set<string>], in insertion order. *)
Definition includes (x : string) (s : list string) : bool :=
  existsb (String.eqb x) s.

Definition add (x : string) (s : list string) : list string :=
  if includes x s then s else s ++ [x].

(** [Array.from(new Set(xs))]: first occurrences, in order. *)
Definition dedup (xs : list string) : list string :=
  fold_left (fun s x => add x s) xs [].

(** [xs.indexOf(x)], [None] standing for [-1]. *)
Fixpoint indexOf (x : string) (xs : list string) : option nat :=
  match xs with
  | [] => None
  | y :: r => if String.eqb x y then Some 0%nat
              else option_map S (indexOf x r)
  end.

End Js.

(** ** src/algorithms/optimizers.ts *)
Module Optimizers.
Import Js.

Record AssignmentMatrix := {
  orders : list string;
  riders : list string;
  costMatrix : list (list Q);
}.

Inductive Algorithm := hungarian | auction | greedy.

Record OptimizationResult := {
  assignments : list (string * string);   (* Map orderId -> riderId *)
  totalCost : Q;
  algorithm : Algorithm;
}.

(** The infeasibility sentinel, [1e10]; the exact solver also uses this
    value as its [infinity]. *)
Definition sentinel : Q := 10000000000.

(** [costs[i][j]], [None] when the entry does not exist. *)
Definition cell (costs : list (list Q)) (i j : nat) : option Q :=
  match nth_error costs i with
  | Some row => nth_error row j
  | None => None
  end.

(** [mapM] for [option], used to build arrays entry by entry. *)
Fixpoint collect {A B} (f : A -> option B) (l : list A) : option (list B) :=
  match l with
  | [] => Some []
  | x :: r =>
      match f x, collect f r with
      | Some y, Some ys => Some (y :: ys)
      | _, _ => None
      end
  end.

(** Array reads at an index that is in range. *)
Definition qat (l : list Q) (i : nat) : Q := nth i l 0%Q.
Definition nat_at (l : list nat) (i : nat) : nat := nth i l 0%nat.

(** The output loop shared by the exact and the auction solver: keep the
    pairs whose rider index is a real rider. *)
Definition emit (mx : AssignmentMatrix) (m : nat)
    (acc : option (list (string * string) * Q))
    (pr : nat * option nat) : option (list (string * string) * Q) :=
  match acc, pr with
  | None, _ => None
  | Some a, (_, None) => Some a
  | Some (asg, tot), (orderIdx, Some riderIdx) =>
      if (riderIdx <? m)%nat then
        match nth_error (orders mx) orderIdx, nth_error (riders mx) riderIdx,
              cell (costMatrix mx) orderIdx riderIdx with
        | Some o, Some r, Some c => Some (set o r asg, (tot + c)%Q)
        | _, _, _ => None
        end
      else Some (asg, tot)
  end.

(** A matrix with [n] rows of [m] entries each. *)
Definition wellFormed (mx : AssignmentMatrix) : bool :=
  (length (costMatrix mx) =? length (orders mx))%nat
  && forallb (fun row => (length row =? length (riders mx))%nat)
             (costMatrix mx).

(** *** HungarianOptimizer *)
Module HungarianOptimizer.

(** [padCostMatrix]: a [maxDim] square, the sentinel outside [n] x [m].
    An entry missing from [costs] makes the result undefined. *)
Definition padCostMatrix (costs : list (list Q)) (n m maxDim : nat)
  : option (list (list Q)) :=
  collect (fun i =>
    collect (fun j =>
      if (i <? n)%nat && (j <? m)%nat then cell costs i j
      else Some sentinel) (seq 0 maxDim)) (seq 0 maxDim).

(** The arrays of [hungarianAlgorithm]; all have [n + 1] entries. *)
Record Potentials := {
  u : list Q;
  v : list Q;
  p : list nat;
  way : list nat;
}.

(** The body of the first inner [for] (lines 78-90), at column [j]. *)
Definition scanColumn (costs : list (list Q)) (uu vv : list Q)
    (used : list bool) (i0 j0 : nat)
    (acc : list Q * list nat * Q * nat) (j : nat)
  : list Q * list nat * Q * nat :=
  let '(minv, wy, delta, j1) := acc in
  if nth j used false then acc
  else
    let cur := (qat (nth (i0 - 1) costs []) (j - 1)
                - qat uu i0 - qat vv j)%Q in
    let '(minv, wy) :=
      if Qltb cur (qat minv j)
      then (<[j := cur]> minv, <[j := j0]> wy)
      else (minv, wy) in
    if Qltb (qat minv j) delta
    then (minv, wy, qat minv j, j)
    else (minv, wy, delta, j1).

(** The body of the second inner [for] (lines 92-99), at column [j]. *)
Definition shiftColumn (pp : list nat) (used : list bool) (delta : Q)
    (acc : list Q * list Q * list Q) (j : nat)
  : list Q * list Q * list Q :=
  let '(uu, vv, minv) := acc in
  if nth j used false
  then (<[nat_at pp j := (qat uu (nat_at pp j) + delta)%Q]> uu,
        <[j := (qat vv j - delta)%Q]> vv, minv)
  else (uu, vv, <[j := (qat minv j - delta)%Q]> minv).

(** The first [do ... while (p[j0] !== 0)] loop.  Row [i0 = 0] would read
    [costs[-1]], which throws; the result is then undefined. *)
Fixpoint search (fuel n : nat) (costs : list (list Q))
    (uu vv : list Q) (pp wy : list nat) (minv : list Q)
    (used : list bool) (j0 : nat)
  : option (list Q * list Q * list nat * nat) :=
  match fuel with
  | O => None
  | S fuel' =>
      let used := <[j0 := true]> used in
      let i0 := nat_at pp j0 in
      match i0 with
      | O => None
      | S _ =>
          let '(minv, wy, delta, j1) :=
            fold_left (scanColumn costs uu vv used i0 j0) (seq 1 n)
                      (minv, wy, sentinel, 0%nat) in
          let '(uu, vv, minv) :=
            fold_left (shiftColumn pp used delta) (seq 0 (n + 1))
                      (uu, vv, minv) in
          if (nat_at pp j1 =? 0)%nat then Some (uu, vv, wy, j1)
          else search fuel' n costs uu vv pp wy minv used j1
      end
  end.

(** The second [do ... while (j0)] loop: flip the matching along [way]. *)
Fixpoint augment (fuel : nat) (wy pp : list nat) (j0 : nat)
  : option (list nat) :=
  match fuel with
  | O => None
  | S fuel' =>
      let j1 := nat_at wy j0 in
      let pp := <[j0 := nat_at pp j1]> pp in
      if (j1 =? 0)%nat then Some pp else augment fuel' wy pp j1
  end.

(** One iteration of the outer [for] (row [i]). *)
Definition addRow (fuel n : nat) (costs : list (list Q))
    (st : option Potentials) (i : nat) : option Potentials :=
  match st with
  | None => None
  | Some st =>
      let pp := <[0%nat := i]> (p st) in
      match search fuel n costs (u st) (v st) pp (way st)
                   (repeat sentinel (n + 1)) (repeat false (n + 1)) 0%nat with
      | None => None
      | Some (uu, vv, wy, j0) =>
          match augment fuel wy pp j0 with
          | None => None
          | Some pp => Some {| u := uu; v := vv; p := pp; way := wy |}
          end
      end
  end.

(** [result[p[j] - 1] = j - 1]; index [-1] is not an array element. *)
Definition writeResult (pp : list nat) (res : list (option nat)) (j : nat)
  : list (option nat) :=
  match nat_at pp j with
  | O => res
  | S r => <[r := Some (j - 1)%nat]> res
  end.

(** [hungarianAlgorithm]: for each row the assigned column, [None] where
    the array keeps a hole.  [fuel] bounds each of the two inner loops. *)
Definition hungarianAlgorithm (fuel : nat) (costs : list (list Q))
  : option (list (option nat)) :=
  let n := length costs in
  let init := {| u := repeat 0%Q (n + 1); v := repeat 0%Q (n + 1);
                 p := repeat 0%nat (n + 1); way := repeat 0%nat (n + 1) |} in
  match fold_left (addRow fuel n costs) (seq 1 n) (Some init) with
  | None => None
  | Some st => Some (fold_left (writeResult (p st)) (seq 1 n) (repeat None n))
  end.

Definition optimize (fuel : nat) (mx : AssignmentMatrix)
  : option OptimizationResult :=
  let n := length (orders mx) in
  let m := length (riders mx) in
  let maxDim := Nat.max n m in
  match padCostMatrix (costMatrix mx) n m maxDim with
  | None => None
  | Some paddedCosts =>
      match hungarianAlgorithm fuel paddedCosts with
      | None => None
      | Some assignment =>
          match fold_left (emit mx m)
                  (combine (seq 0 n) (firstn n assignment)) (Some ([], 0%Q)) with
          | None => None
          | Some (asg, tot) =>
              Some {| assignments := asg; totalCost := tot;
                      algorithm := hungarian |}
          end
      end
  end.

End HungarianOptimizer.

(** *** AuctionOptimizer *)
Module AuctionOptimizer.

(** The auction solver starts from [-Infinity] and can bid [Infinity]:
    its numbers are extended. *)
Inductive num := NaN | NegInf | Fin (q : Q) | PosInf.

Definition nneg (a : num) : num :=
  match a with
  | NaN => NaN | NegInf => PosInf | PosInf => NegInf | Fin q => Fin (- q)%Q
  end.

Definition nadd (a b : num) : num :=
  match a, b with
  | NaN, _ | _, NaN => NaN
  | PosInf, NegInf | NegInf, PosInf => NaN
  | PosInf, _ | _, PosInf => PosInf
  | NegInf, _ | _, NegInf => NegInf
  | Fin x, Fin y => Fin (Qred (x + y))
  end.

Definition nsub (a b : num) : num := nadd a (nneg b).

(** [a > b]. *)
Definition ngtb (a b : num) : bool :=
  match a, b with
  | NaN, _ | _, NaN => false
  | PosInf, PosInf => false
  | PosInf, _ => true
  | _, PosInf => false
  | NegInf, _ => false
  | Fin _, NegInf => true
  | Fin x, Fin y => Qltb y x
  end.

(** [Math.max(a, b)]. *)
Definition nmax (a b : num) : num :=
  match a, b with
  | NaN, _ | _, NaN => NaN
  | _, _ => if ngtb b a then b else a
  end.

Definition num_at (l : list num) (i : nat) : num := nth i l NaN.

Definition epsilon : Q := 1 # 100.
Definition maxIterations : nat := 1000.

(** [costMatrix[orderIdx][riderIdx]] used as a number: a missing entry is
    [undefined], which arithmetic turns into [NaN]. *)
Definition costAt (row : list Q) (riderIdx : nat) : num :=
  match nth_error row riderIdx with
  | Some c => Fin c
  | None => NaN
  end.

(** [-costMatrix[orderIdx][riderIdx] - prices[riderIdx]]. *)
Definition value (row : list Q) (prices : list num) (riderIdx : nat) : num :=
  nsub (nneg (costAt row riderIdx)) (num_at prices riderIdx).

(** Lines 137-161: the bid of one unassigned order. *)
Definition placeBid (costs : list (list Q)) (m : nat) (prices : list num)
    (bids : list (nat * (nat * num))) (orderIdx : nat)
  : list (nat * (nat * num)) :=
  let row := nth orderIdx costs [] in
  let '(bestRider, bestValue) :=
    fold_left (fun (acc : nat * num) riderIdx =>
                 let val := value row prices riderIdx in
                 if ngtb val (snd acc) then (riderIdx, val) else acc)
              (seq 0 m) (0%nat, NegInf) in
  let secondBestValue :=
    fold_left (fun acc riderIdx =>
                 if (riderIdx =? bestRider)%nat then acc
                 else nmax acc (value row prices riderIdx))
              (seq 0 m) NegInf in
  let bidAmount :=
    nadd (nsub (nneg (costAt row bestRider)) secondBestValue)
         (Fin epsilon) in
  let write :=
    (fix write (bs : list (nat * (nat * num))) :=
       match bs with
       | [] => [(bestRider, (orderIdx, bidAmount))]
       | (r, ob) :: rest =>
           if (r =? bestRider)%nat then (r, (orderIdx, bidAmount)) :: rest
           else (r, ob) :: write rest
       end) in
  match List.find (fun b => (fst b =? bestRider)%nat) bids with
  | None => write bids
  | Some (_, (_, currentBid)) =>
      if ngtb bidAmount currentBid then write bids else bids
  end.

(** The first order holding [riderIdx], if any. *)
Definition holder (assigned : list (option nat)) (riderIdx : nat)
  : option nat :=
  option_map fst
    (List.find (fun ia => match snd ia with
                          | Some r => (r =? riderIdx)%nat
                          | None => false
                          end)
               (combine (seq 0 (length assigned)) assigned)).

(** Lines 165-175: one winning bid is applied. *)
Definition award (st : list nat * list (option nat) * list num)
    (b : nat * (nat * num)) : list nat * list (option nat) * list num :=
  let '(unassigned, assigned, prices) := st in
  let '(riderIdx, (orderIdx, bid)) := b in
  let unassigned :=
    match holder assigned riderIdx with
    | Some i => if existsb (Nat.eqb i) unassigned then unassigned
                else unassigned ++ [i]
    | None => unassigned
    end in
  (unassigned, <[orderIdx := Some riderIdx]> assigned,
   <[riderIdx := nadd (num_at prices riderIdx) bid]> prices).

(** The [while] loop, at most [iterations] rounds. *)
Fixpoint rounds (iterations : nat) (costs : list (list Q)) (m : nat)
    (unassigned : list nat) (assigned : list (option nat))
    (prices : list num) : list (option nat) :=
  match iterations, unassigned with
  | O, _ | _, [] => assigned
  | S k, _ =>
      let bids := fold_left (placeBid costs m prices) unassigned [] in
      let '(unassigned, assigned, prices) :=
        fold_left award bids ([], assigned, prices) in
      rounds k costs m unassigned assigned prices
  end.

(** [None] stands for a matrix that is not well formed (a missing row makes
    the solver throw).  With no rider at all every bid is [NaN] and nothing
    is emitted. *)
Definition optimize (mx : AssignmentMatrix)
  : option OptimizationResult :=
  let n := length (orders mx) in
  let m := length (riders mx) in
  if negb (wellFormed mx) then None
  else
    let assigned :=
      rounds maxIterations (costMatrix mx) m (seq 0 n)
             (repeat None n) (repeat (Fin 0) m) in
    match fold_left (emit mx m) (combine (seq 0 n) assigned)
                    (Some ([], 0%Q)) with
    | None => None
    | Some (asg, tot) =>
        Some {| assignments := asg; totalCost := tot; algorithm := auction |}
    end.

End AuctionOptimizer.

(** *** GreedyOptimizer *)
Module GreedyOptimizer.

(** Lines 210-218: the cheapest rider of a row; [None] is [Infinity]. *)
Definition cheapest (row : list Q) (m : nat) : nat * option Q :=
  fold_left (fun (acc : nat * option Q) riderIdx =>
               let c := qat row riderIdx in
               match snd acc with
               | None => (riderIdx, Some c)
               | Some best => if Qltb c best then (riderIdx, Some c) else acc
               end)
            (seq 0 m) (0%nat, None).

(** Lines 209-223: every order is given its cheapest rider. *)
Definition assignCheapest (mx : AssignmentMatrix) (m : nat)
    (acc : option (list (string * string) * Q)) (orderIdx : nat)
  : option (list (string * string) * Q) :=
  match acc with
  | None => None
  | Some (asg, tot) =>
      match cheapest (nth orderIdx (costMatrix mx) []) m with
      | (bestRider, Some bestCost) =>
          match nth_error (orders mx) orderIdx,
                nth_error (riders mx) bestRider with
          | Some o, Some r => Some (set o r asg, (tot + bestCost)%Q)
          | _, _ => None
          end
      | (_, None) => None   (* no rider: the id is [undefined], the total
                               [Infinity]; outside the model *)
      end
  end.

Definition optimize (mx : AssignmentMatrix)
  : option OptimizationResult :=
  let n := length (orders mx) in
  let m := length (riders mx) in
  if negb (wellFormed mx) then None
  else
    match fold_left (assignCheapest mx m) (seq 0 n) (Some ([], 0%Q)) with
    | None => None
    | Some (asg, tot) =>
        Some {| assignments := asg; totalCost := tot; algorithm := greedy |}
    end.

End GreedyOptimizer.

(** *** AdaptiveOptimizer

    The [catch] clauses are entered only when a solver throws, which a
    well-formed matrix never causes; they are not modelled. *)
Module AdaptiveOptimizer.

Definition optimize (fuel : nat) (mx : AssignmentMatrix)
    (hungarianThreshold : Q) : option OptimizationResult :=
  let problemSize :=
    inject_Z (Z.of_nat (length (orders mx) * length (riders mx))) in
  if Qle_bool problemSize hungarianThreshold
  then HungarianOptimizer.optimize fuel mx
  else if Qle_bool problemSize 50000
  then AuctionOptimizer.optimize mx
  else GreedyOptimizer.optimize mx.

End AdaptiveOptimizer.

End Optimizers.

(** ** src/types/index.ts

    One module per interface, so that fields keep their names.  Fields that
    no modelled function reads (addresses, store and customer ids, creation
    time, delivery windows) are left out. *)
Module Location.
Record t := { lat : Q; lng : Q }.
End Location.

Module VehicleRequirement.
Inductive t := any | bike | car | van | refrigerated.
Definition eqb (a b : t) : bool :=
  match a, b with
  | any, any | bike, bike | car, car | van, van
  | refrigerated, refrigerated => true
  | _, _ => false
  end.
End VehicleRequirement.

Module VehicleType.
Inductive t := bike | car | van.
(** [rider.vehicle.type === requirement]: both are string literals. *)
Definition matches (a : t) (r : VehicleRequirement.t) : bool :=
  match a, r with
  | bike, VehicleRequirement.bike
  | car, VehicleRequirement.car
  | van, VehicleRequirement.van => true
  | _, _ => false
  end.
End VehicleType.

Module VehicleCapability.
Inductive t := standard | fragile | cold_chain.
Definition eqb (a b : t) : bool :=
  match a, b with
  | standard, standard | fragile, fragile | cold_chain, cold_chain => true
  | _, _ => false
  end.
(** [capabilities.includes(c)]. *)
Definition includes (c : t) (l : list t) : bool := existsb (eqb c) l.
End VehicleCapability.

Module OrderStatus.
Inductive t := pending_assignment | assigned | picked_up | delivered | cancelled.
Definition eqb (a b : t) : bool :=
  match a, b with
  | pending_assignment, pending_assignment | assigned, assigned
  | picked_up, picked_up | delivered, delivered | cancelled, cancelled => true
  | _, _ => false
  end.
End OrderStatus.

Module OrderPriority.
Inductive t := normal | high | critical.
Definition eqb (a b : t) : bool :=
  match a, b with
  | normal, normal | high, high | critical, critical => true
  | _, _ => false
  end.
End OrderPriority.

Module RiderStatus.
Inductive t := active | on_delivery | break | offline.
Definition eqb (a b : t) : bool :=
  match a, b with
  | active, active | on_delivery, on_delivery | break, break
  | offline, offline => true
  | _, _ => false
  end.
End RiderStatus.

Module OrderPickup.
Record t := { location : Location.t; estimatedPickupWaitMinutes : Q }.
End OrderPickup.

Module OrderDelivery.
Record t := { location : Location.t }.
End OrderDelivery.

Module OrderPayload.
Record t := {
  weightKg : Q;
  volumeLiters : Q;
  itemCount : Q;
  requiresColdChain : bool;
  fragile : bool;
  vehicleRequirement : VehicleRequirement.t;
}.
End OrderPayload.

Module Order.
Record t := {
  orderId : string;
  status : OrderStatus.t;
  slaDeadline : Z;
  pickup : OrderPickup.t;
  delivery : OrderDelivery.t;
  payload : OrderPayload.t;
  priority : OrderPriority.t;
  assignmentAttempts : Z;
  assignedRiderId : option string;
}.
End Order.

Module Vehicle.
Record t := {
  type : VehicleType.t;
  maxWeightKg : Q;
  maxVolumeLiters : Q;
  maxItems : Q;
  capabilities : list VehicleCapability.t;
}.
End Vehicle.

Module RiderShift.
Record t := {
  startTime : Z;
  endTime : Z;
  continuousDrivingMinutes : Q;
  totalShiftDrivingMinutes : Q;
}.
End RiderShift.

Module RiderLoad.
Record t := { weightKg : Q; volumeLiters : Q; itemCount : Q }.
End RiderLoad.

Module RiderPerformance.
Record t := {
  zoneFamiliarityScores : gmap string Q;     (* Record<string, number> *)
  avgDeliverySuccessRate : Q;
  avgSpeedMultiplier : Q;
  totalDeliveries : Q;
}.
End RiderPerformance.

Module StopType.
Inductive t := pickup | delivery.
End StopType.

Module RouteStop.
Record t := {
  type : StopType.t;
  orderId : string;
  location : Location.t;
  sequenceIndex : nat;
}.
End RouteStop.

Module Rider.
Record t := {
  riderId : string;
  status : RiderStatus.t;
  location : Location.t;
  vehicle : Vehicle.t;
  shift : RiderShift.t;
  currentAssignments : list string;
  currentRoute : list RouteStop.t;
  load : RiderLoad.t;
  performance : RiderPerformance.t;
}.
End Rider.

Module Assignment.
Record t := {
  orderId : string;
  riderId : string;
  assignedAt : Z;
  estimatedDeliveryAt : Z;
}.
End Assignment.

Module CandidateGenerationResult.
Record t := {
  orderId : string;
  candidateRiderIds : list string;
  failureReason : option string;
}.
End CandidateGenerationResult.

Module ScoringResult.
Record t := { orderId : string; riderId : string; cost : Q }.
End ScoringResult.

Module AssignmentDecision.
Record t := { orderId : string; riderId : string; sequenceIndex : nat }.
End AssignmentDecision.

Module Metrics.
Record t := {
  avgCost : Q;
  totalSlaSlackMinutes : Q;
  riderUtilization : list (string * Q);
}.
End Metrics.

Module AssignmentCycleResult.
Record t := {
  cycleId : Z * Z;                      (* cycle_<epoch ms>_<counter> *)
  timestamp : Z;
  decisions : list AssignmentDecision.t;
  successCount : Z;
  failureCount : Z;
  metrics : Metrics.t;
}.
End AssignmentCycleResult.

Module TriggerType.
Inductive t :=
  rider_offline | eta_spike | high_priority_arrival | rider_rejection
| order_modification | new_rider_online.
End TriggerType.

Module ReassignmentTrigger.
Record t := {
  type : TriggerType.t;
  affectedOrderIds : list string;
  affectedRiderIds : list string;
  reason : string;
  timestamp : Z;
}.
End ReassignmentTrigger.

Module ETAEstimate.
Record t := {
  origin : Location.t;
  destination : Location.t;
  departureTime : Z;
  estimatedDurationMinutes : Q;
  confidence : Q;
  baseTime : Z;
  trafficMultiplier : Q;
  riderSpeedMultiplier : Q;
  serviceTimeMinutes : Q;
}.
End ETAEstimate.

Module ScoringWeights.
Record t := {
  w1_time : Q;
  w2_slaRisk : Q;
  w3_distance : Q;
  w4_batchDisruption : Q;
  w5_workload : Q;
  w6_affinity : Q;
}.
End ScoringWeights.

Module CandidateGenerationConfig.
Record t := {
  initialRadiusKm : Q;
  expandedRadiusKm : Q;
  maxRadiusKm : Q;
  radiusExpansionMinutesThreshold : Q;
}.
End CandidateGenerationConfig.

Module BatchingConfig.
Record t := {
  maxBatchSize : VehicleType.t -> Q;     (* Record<VehicleType, number> *)
  maxBatchDurationMinutes : Q;
  twoOptIterationLimit : Q;
}.
End BatchingConfig.

Module ReassignmentConfig.
Record t := {
  maxReassignmentAttempts : Q;
  suppressionRadiusMeters : Q;
  triggerEtaSpikeMinutes : Q;
  triggerHighPrioritySlaCutoffMinutes : Q;
}.
End ReassignmentConfig.

Module SurgeConfig.
Record t := {
  softSurgeRatio : Q;
  hardSurgeRatio : Q;
  crisisRatio : Q;
  prepositionLookbackMinutes : Q;
  batchSizeIncrement : Q;
  radiusExpansionFactor : Q;
}.
End SurgeConfig.

Module ETAConfig.
Record t := {
  trafficApiRefreshSeconds : Q;
  riderModelRetrainCron : string;
  serviceTimeDefaults : gmap string Q;   (* Record<string, number> *)
  etaCacheMinutes : Q;
}.
End ETAConfig.

Module FatigueConfig.
Record t := {
  maxContinuousDrivingMinutes : Q;
  mandatoryBreakMinutes : Q;
  maxShiftDrivingMinutes : Q;
}.
End FatigueConfig.

Module SLAConfig.
Record t := {
  nearBreachThresholdMinutes : Q;
  breachEscalationAlertThresholdPct : Q;
  slaRiskSigmoidScale : Q;
}.
End SLAConfig.

Module AssignmentEngineConfig.
Record t := {
  cycleIntervalSeconds : Q;
  maxOrdersPerCycle : Q;
  maxRidersPerAssignment : Q;
  optimizerTimeoutSeconds : Q;
  hungarianThreshold : Q;
  weights : ScoringWeights.t;
  candidateGeneration : CandidateGenerationConfig.t;
  batching : BatchingConfig.t;
  reassignment : ReassignmentConfig.t;
  surge : SurgeConfig.t;
  eta : ETAConfig.t;
  fatigue : FatigueConfig.t;
  sla : SLAConfig.t;
}.
End AssignmentEngineConfig.

(** ** src/utils/geospatial.ts

    [haversineDistance] is floating-point trigonometry; the development is
    parametric in it, and in the other functions of the JavaScript runtime
    that have no rational counterpart: [getHours] is the local-time hour of
    an instant, [Math_exp] is [Math.exp], and [Math_random k] is the value
    of the [k]-th call of [Math.random]. *)
Class Platform := {
  haversineDistance : Location.t -> Location.t -> Q;
  getHours : Z -> Z;
  Math_exp : Q -> Q;
  Math_random : nat -> Q;
}.

Module Geo.

(** The answer of [findNearestLocation]. *)
Record Nearest := {
  location : Location.t;
  index : nat;
  distance : Q;
}.

Section Primitives.
Context `{Platform}.

Definition estimateTravelTime (origin destination : Location.t)
    (averageSpeedKmh trafficFactor : Q) : Z :=
  let distanceKm := haversineDistance origin destination in
  let baseTimeMinutes := (distanceKm / averageSpeedKmh * 60)%Q in
  let withTraffic := (baseTimeMinutes * trafficFactor)%Q in
  Js.round withTraffic.

Definition findRidersWithinRadius (targetLocation : Location.t)
    (riderLocations : list (string * Location.t)) (radiusKm : Q)
  : list string :=
  map fst
    (List.filter (fun rl => Qle_bool (haversineDistance targetLocation (snd rl))
                                     radiusKm)
                 riderLocations).

Definition calculateRouteTotalDistance (locations : list Location.t) : Q :=
  match locations with
  | [] => 0%Q
  | _ :: rest =>
      fold_left Qplus
        (map (fun ab => haversineDistance (fst ab) (snd ab))
             (combine locations rest)) 0%Q
  end.

Definition calculateZoneProximity (loc1 loc2 : Location.t)
    (zoneRadiusKm : Q) : Q :=
  let distance := haversineDistance loc1 loc2 in
  if Js.Qltb zoneRadiusKm distance then 0%Q
  else (1 - distance / zoneRadiusKm)%Q.

(** [calculateCenterOfMass]: [None] when it throws. *)
Definition calculateCenterOfMass (locations : list Location.t)
  : option Location.t :=
  if (length locations =? 0)%nat then None
  else
    let count := inject_Z (Z.of_nat (length locations)) in
    let avgLat :=
      (fold_left (fun sum loc => (sum + Location.lat loc)%Q) locations 0%Q
       / count)%Q in
    let avgLng :=
      (fold_left (fun sum loc => (sum + Location.lng loc)%Q) locations 0%Q
       / count)%Q in
    Some {| Location.lat := avgLat; Location.lng := avgLng |}.

(** The loop of [findNearestLocation] at candidate [i]; [minDistance]
    starts at [Infinity] ([None]). *)
Definition nearer (source : Location.t)
    (acc : option Q * nat * Location.t) (ic : nat * Location.t)
  : option Q * nat * Location.t :=
  let '(minDistance, nearestIndex, nearestLocation) := acc in
  let distance := haversineDistance source (snd ic) in
  match minDistance with
  | None => (Some distance, fst ic, snd ic)
  | Some best =>
      if Js.Qltb distance best then (Some distance, fst ic, snd ic)
      else acc
  end.

(** [findNearestLocation]: [None] when it throws. *)
Definition findNearestLocation (source : Location.t)
    (candidates : list Location.t) : option Nearest :=
  match candidates with
  | [] => None
  | first :: _ =>
      match fold_left (nearer source)
              (combine (seq 0 (length candidates)) candidates)
              (None, 0%nat, first) with
      | (Some minDistance, nearestIndex, nearestLocation) =>
          Some {| location := nearestLocation; index := nearestIndex;
                  distance := minDistance |}
      | (None, _, _) => None   (* not reached: there is a candidate *)
      end
  end.
End Primitives.
End Geo.

(** ** src/core/candidate-generation.ts *)
Module CandidateGenerator.
Section Methods.
Context `{Platform}.
Variable config : CandidateGenerationConfig.t.
Variable fatigueConfig : FatigueConfig.t.
(** The private [riderLocations] map. *)
Variable riderLocations : list (string * Location.t).

Definition updateRiderLocations (riders : list (string * Rider.t))
  : list (string * Location.t) :=
  fold_left (fun acc ir => Js.set (fst ir) (Rider.location (snd ir)) acc)
            riders [].

Definition geographicFilter (order : Order.t) (now : Z) : list string :=
  let slaMinutesRemaining :=
    (inject_Z (Order.slaDeadline order - now) / 60000)%Q in
  let pickup := OrderPickup.location (Order.pickup order) in
  let searchRadiusKm := CandidateGenerationConfig.initialRadiusKm config in
  if Js.Qltb slaMinutesRemaining
       (CandidateGenerationConfig.radiusExpansionMinutesThreshold config)
  then Geo.findRidersWithinRadius pickup riderLocations
         (CandidateGenerationConfig.maxRadiusKm config)
  else
    let candidates :=
      Geo.findRidersWithinRadius pickup riderLocations searchRadiusKm in
    let '(candidates, searchRadiusKm) :=
      if (length candidates =? 0)%nat
         && Js.Qltb searchRadiusKm
              (CandidateGenerationConfig.expandedRadiusKm config)
      then (Geo.findRidersWithinRadius pickup riderLocations
              (CandidateGenerationConfig.expandedRadiusKm config),
            CandidateGenerationConfig.expandedRadiusKm config)
      else (candidates, searchRadiusKm) in
    if (length candidates =? 0)%nat
       && Js.Qltb searchRadiusKm
            (CandidateGenerationConfig.maxRadiusKm config)
    then Geo.findRidersWithinRadius pickup riderLocations
           (CandidateGenerationConfig.maxRadiusKm config)
    else candidates.

Definition capacityCheck (order : Order.t) (rider : Rider.t) : bool :=
  let vehicle := Rider.vehicle rider in
  let load := Rider.load rider in
  let payload := Order.payload order in
  let remainingWeight :=
    (Vehicle.maxWeightKg vehicle - RiderLoad.weightKg load)%Q in
  let remainingVolume :=
    (Vehicle.maxVolumeLiters vehicle - RiderLoad.volumeLiters load)%Q in
  let remainingItems :=
    (Vehicle.maxItems vehicle - RiderLoad.itemCount load)%Q in
  Qle_bool (OrderPayload.weightKg payload) remainingWeight
  && Qle_bool (OrderPayload.volumeLiters payload) remainingVolume
  && Qle_bool (OrderPayload.itemCount payload) remainingItems.

(** Lines 158-182, statement by statement. *)
Definition vehicleCompatibilityCheck (order : Order.t) (rider : Rider.t)
  : bool :=
  let requirement := OrderPayload.vehicleRequirement (Order.payload order) in
  let capabilities := Vehicle.capabilities (Rider.vehicle rider) in
  if VehicleRequirement.eqb requirement VehicleRequirement.any then true
  else if VehicleRequirement.eqb requirement VehicleRequirement.bike
          || VehicleRequirement.eqb requirement VehicleRequirement.car
          || VehicleRequirement.eqb requirement VehicleRequirement.van
  then VehicleType.matches (Vehicle.type (Rider.vehicle rider)) requirement
  else if VehicleRequirement.eqb requirement VehicleRequirement.refrigerated
  then VehicleCapability.includes VehicleCapability.cold_chain capabilities
  else if OrderPayload.fragile (Order.payload order)
          && negb (VehicleCapability.includes VehicleCapability.fragile
                     capabilities)
  then false
  else if OrderPayload.requiresColdChain (Order.payload order)
          && negb (VehicleCapability.includes VehicleCapability.cold_chain
                     capabilities)
  then false
  else true.

Definition shiftTimeCheck (order : Order.t) (rider : Rider.t) (now : Z)
  : bool :=
  let pickup := OrderPickup.location (Order.pickup order) in
  let timeToPickupMinutes :=
    Geo.estimateTravelTime (Rider.location rider) pickup 25 (12 # 10) in
  let pickupServiceMinutes :=
    OrderPickup.estimatedPickupWaitMinutes (Order.pickup order) in
  let timeToDeliveryMinutes :=
    Geo.estimateTravelTime pickup
      (OrderDelivery.location (Order.delivery order)) 25 (12 # 10) in
  let deliveryServiceMinutes := 3%Q in
  let totalTimeNeeded :=
    (inject_Z timeToPickupMinutes + pickupServiceMinutes
     + inject_Z timeToDeliveryMinutes + deliveryServiceMinutes)%Q in
  let shiftTimeAvailableMinutes :=
    (inject_Z (RiderShift.endTime (Rider.shift rider) - now) / 60000)%Q in
  Qle_bool (totalTimeNeeded + 5) shiftTimeAvailableMinutes.

Definition fatigueCheck (rider : Rider.t) : bool :=
  Js.Qltb (RiderShift.continuousDrivingMinutes (Rider.shift rider))
          (FatigueConfig.maxContinuousDrivingMinutes fatigueConfig)
  && Js.Qltb (RiderShift.totalShiftDrivingMinutes (Rider.shift rider))
             (FatigueConfig.maxShiftDrivingMinutes fatigueConfig).

Definition slaFeasibilityCheck (order : Order.t) (rider : Rider.t) (now : Z)
  : bool :=
  let pickup := OrderPickup.location (Order.pickup order) in
  let minTimeMinutes :=
    (inject_Z (Geo.estimateTravelTime (Rider.location rider) pickup 25 1)
     + OrderPickup.estimatedPickupWaitMinutes (Order.pickup order)
     + inject_Z (Geo.estimateTravelTime pickup
                   (OrderDelivery.location (Order.delivery order)) 25 1)
     + 3)%Q in
  let minDeliveryTime :=
    Js.toDate (inject_Z now + minTimeMinutes * 60 * 1000)%Q in
  (minDeliveryTime <=? Order.slaDeadline order)%Z.

Definition riderStatusCheck (rider : Rider.t) : bool :=
  RiderStatus.eqb (Rider.status rider) RiderStatus.active
  || RiderStatus.eqb (Rider.status rider) RiderStatus.on_delivery.

Record CheckResults := {
  passed : bool;
  failedConstraints : list string;
}.

Definition runHardConstraints (order : Order.t) (rider : Rider.t) (now : Z)
  : CheckResults :=
  let failures : list string := [] in
  let failures :=
    if negb (capacityCheck order rider)
    then failures ++ ["capacity_exceeded"%string] else failures in
  let failures :=
    if negb (vehicleCompatibilityCheck order rider)
    then failures ++ ["vehicle_incompatible"%string] else failures in
  let failures :=
    if negb (shiftTimeCheck order rider now)
    then failures ++ ["shift_end_time"%string] else failures in
  let failures :=
    if negb (fatigueCheck rider)
    then failures ++ ["fatigue_limit_exceeded"%string] else failures in
  let failures :=
    if negb (slaFeasibilityCheck order rider now)
    then failures ++ ["sla_infeasible"%string] else failures in
  let failures :=
    if negb (riderStatusCheck rider)
    then failures ++ ["rider_offline_or_unavailable"%string]
    else failures in
  {| passed := (length failures =? 0)%nat; failedConstraints := failures |}.

(** The loop of [generateCandidates] (lines 45-56): the candidates and
    the local [eligibilityChecks] map of recorded failures. *)
Definition checkRider (order : Order.t) (riders : list (string * Rider.t))
    (now : Z) (acc : list string * list (string * list string))
    (riderId : string) : list string * list (string * list string) :=
  match Js.get riderId riders with
  | None => acc
  | Some rider =>
      let checkResults := runHardConstraints order rider now in
      if passed checkResults then (fst acc ++ [riderId], snd acc)
      else (fst acc, Js.set riderId (failedConstraints checkResults) (snd acc))
  end.

Definition eligibility (order : Order.t) (riders : list (string * Rider.t))
    (now : Z) : list string * list (string * list string) :=
  fold_left (checkRider order riders now) (geographicFilter order now)
            ([], []).

Definition generateCandidates (order : Order.t)
    (riders : list (string * Rider.t)) (now : Z)
  : CandidateGenerationResult.t :=
  let candidatesByRadius := geographicFilter order now in
  if (length candidatesByRadius =? 0)%nat then
    {| CandidateGenerationResult.orderId := Order.orderId order;
       CandidateGenerationResult.candidateRiderIds := [];
       CandidateGenerationResult.failureReason :=
         Some "no_riders_in_service_radius"%string |}
  else
    let candidates := fst (eligibility order riders now) in
    if (length candidates =? 0)%nat then
      {| CandidateGenerationResult.orderId := Order.orderId order;
         CandidateGenerationResult.candidateRiderIds := [];
         CandidateGenerationResult.failureReason :=
           Some "all_riders_failed_constraints"%string |}
    else
      {| CandidateGenerationResult.orderId := Order.orderId order;
         CandidateGenerationResult.candidateRiderIds := candidates;
         CandidateGenerationResult.failureReason := None |}.
End Methods.
End CandidateGenerator.

(** ** src/algorithms/batching.ts *)
Module BatchOptimizer.

Record BatchRoute := {
  stops : list RouteStop.t;
  totalDistance : Q;
  totalDurationMinutes : Q;
  ordersSequence : list string;
}.

Record PartialRoute := {
  orders : list string;
  duration : Q;
  distance : Q;
}.

(** [xs.slice(a, b)] and [xs.splice(pos, 0, x)]. *)
Definition slice {A} (a b : nat) (xs : list A) : list A :=
  firstn (b - a) (skipn a xs).
Definition spliceIn {A} (pos : nat) (x : A) (xs : list A) : list A :=
  firstn pos xs ++ x :: skipn pos xs.

Section Methods.
Context `{Platform}.
Variable config : BatchingConfig.t.

Definition validateBatchConstraints (rider : Rider.t)
    (orders : list Order.t) : bool :=
  let maxBatchSize :=
    BatchingConfig.maxBatchSize config (Vehicle.type (Rider.vehicle rider)) in
  if Js.Qltb maxBatchSize (inject_Z (Z.of_nat (length orders))) then false
  else
    let totalWeight :=
      fold_left (fun t o => (t + OrderPayload.weightKg (Order.payload o))%Q)
                orders 0%Q in
    let totalVolume :=
      fold_left (fun t o => (t + OrderPayload.volumeLiters (Order.payload o))%Q)
                orders 0%Q in
    let totalItems :=
      fold_left (fun t o => (t + OrderPayload.itemCount (Order.payload o))%Q)
                orders 0%Q in
    Qle_bool totalWeight (Vehicle.maxWeightKg (Rider.vehicle rider))
    && Qle_bool totalVolume (Vehicle.maxVolumeLiters (Rider.vehicle rider))
    && Qle_bool totalItems (Vehicle.maxItems (Rider.vehicle rider)).

(** The index found by [findNearestOrder]; [minDistance] starts at
    [Infinity] ([None]). *)
Definition findNearestOrder (location : Location.t) (orders : list Order.t)
  : nat :=
  fst (fold_left
         (fun (acc : nat * option Q) (io : nat * Order.t) =>
            let distance :=
              haversineDistance location
                (OrderPickup.location (Order.pickup (snd io))) in
            match snd acc with
            | None => (fst io, Some distance)
            | Some minDistance =>
                if Js.Qltb distance minDistance
                then (fst io, Some distance) else acc
            end)
         (combine (seq 0 (length orders)) orders) (0%nat, None)).

Definition estimateRouteDuration (orders : list Order.t) : Q :=
  fold_left
    (fun totalMinutes (io : nat * Order.t) =>
       let t := (totalMinutes
                 + OrderPickup.estimatedPickupWaitMinutes
                     (Order.pickup (snd io)) + 10 + 3)%Q in
       if (fst io <? length orders - 1)%nat then (t + 10)%Q else t)
    (combine (seq 0 (length orders)) orders) 0%Q.

(** [allOrders.find(o => o.orderId === orderId)]. *)
Definition findOrder (orderId : string) (allOrders : list Order.t)
  : option Order.t :=
  List.find (fun o => String.eqb (Order.orderId o) orderId) allOrders.

Definition calculateInsertionCost (route : PartialRoute) (order : Order.t)
    (insertPosition : nat) (allOrders : list Order.t) : Q :=
  let orderAt (k : nat) : option Order.t :=
    match nth_error (orders route) k with
    | Some orderId => findOrder orderId allOrders
    | None => None
    end in
  let pickup := OrderPickup.location (Order.pickup order) in
  let delivery := OrderDelivery.location (Order.delivery order) in
  if (length (orders route) =? 0)%nat then 0%Q
  else
    let prev := if (insertPosition =? 0)%nat then None
                else orderAt (insertPosition - 1)%nat in
    let next := if (insertPosition <? length (orders route))%nat
                then orderAt insertPosition else None in
    match prev with
    | Some prevOrder =>
        let prevDelivery :=
          OrderDelivery.location (Order.delivery prevOrder) in
        let detourDistance :=
          (0 + haversineDistance prevDelivery pickup
           + haversineDistance pickup delivery)%Q in
        match next with
        | Some nextOrder =>
            (detourDistance
             - haversineDistance prevDelivery
                 (OrderPickup.location (Order.pickup nextOrder)))%Q
        | None => detourDistance
        end
    | None => haversineDistance pickup delivery
    end.

(** The two nested [for] loops of lines 86-98: the cheapest
    (order, position), [None] while [bestOrderIdx] is [-1]. *)
Definition bestInsertion (route : PartialRoute) (allOrders : list Order.t)
    (remainingOrders : list nat) : option (nat * Q * nat) :=
  fold_left
    (fun best orderIdx =>
       match nth_error allOrders orderIdx with
       | None => best
       | Some order =>
           fold_left
             (fun best insertPos =>
                let incrementalCost :=
                  calculateInsertionCost route order insertPos allOrders in
                match best with
                | None => Some (orderIdx, incrementalCost, insertPos)
                | Some (_, bestIncrementalCost, _) =>
                    if Js.Qltb incrementalCost bestIncrementalCost
                    then Some (orderIdx, incrementalCost, insertPos)
                    else best
                end)
             (seq 0 (length (orders route) + 1)) best
       end)
    remainingOrders None.

(** The [while (remainingOrders.size > 0)] loop; every round removes one
    index, so [rounds] starts at the number of orders. *)
Fixpoint insertAll (rounds : nat) (allOrders : list Order.t)
    (route : PartialRoute) (remainingOrders : list nat) : PartialRoute :=
  match rounds, remainingOrders with
  | O, _ | _, [] => route
  | S k, _ =>
      match bestInsertion route allOrders remainingOrders with
      | None => route
      | Some (bestOrderIdx, _, bestInsertPosition) =>
          match nth_error allOrders bestOrderIdx with
          | None => route
          | Some order =>
              let sequence :=
                spliceIn bestInsertPosition (Order.orderId order)
                         (orders route) in
              let route :=
                {| orders := sequence;
                   duration :=
                     estimateRouteDuration
                       (omap (fun orderId => findOrder orderId allOrders)
                             sequence);
                   distance := distance route |} in
              insertAll k allOrders route
                (List.filter (fun i => negb (i =? bestOrderIdx)%nat)
                             remainingOrders)
          end
      end
  end.

Definition cheapestInsertionConstruction (rider : Rider.t)
    (allOrders : list Order.t) : option PartialRoute :=
  let nearestIdx := findNearestOrder (Rider.location rider) allOrders in
  match nth_error allOrders nearestIdx with
  | None => None                       (* no order at all: [orders[0]] *)
  | Some nearest =>
      let remainingOrders :=
        List.filter (fun i => negb (i =? nearestIdx)%nat)
                    (seq 0 (length allOrders)) in
      let route :=
        {| orders := [Order.orderId nearest];
           duration := estimateRouteDuration [nearest];
           distance := 0 |} in
      Some (insertAll (length allOrders) allOrders route remainingOrders)
  end.

(** The pairs [(i, j)] in the order the two [for] loops of
    [twoOptImprovement] visit them. *)
Definition sweepPairs (len : nat) : list (nat * nat) :=
  flat_map (fun i => map (pair i) (seq (i + 2) (len - (i + 2))))
           (seq 0 (len - 1)).

(** One sweep: the first pair visited is applied at once, whatever the
    distances (lines 179-185). *)
Definition sweep (sequence : list string) : option (list string) :=
  match sweepPairs (length sequence) with
  | [] => None
  | (i, j) :: _ =>
      Some (slice 0 (i + 1) sequence
            ++ rev (slice (i + 1) (j + 1) sequence)
            ++ slice (j + 1) (length sequence) sequence)
  end.

Fixpoint sweeps (iterations : nat) (sequence : list string) : list string :=
  match iterations with
  | O => sequence
  | S k =>
      match sweep sequence with
      | None => sequence
      | Some newRoute => sweeps k newRoute
      end
  end.

Definition twoOptImprovement (route : PartialRoute) : PartialRoute :=
  {| orders :=
       sweeps (Z.to_nat (Qceiling (BatchingConfig.twoOptIterationLimit config)))
              (orders route);
     duration := duration route;
     distance := distance route |}.

Definition buildStopSequence (route : PartialRoute) : list RouteStop.t :=
  flat_map
    (fun (io : nat * string) =>
       [ {| RouteStop.type := StopType.pickup;
            RouteStop.orderId := snd io;
            RouteStop.location := {| Location.lat := 0; Location.lng := 0 |};
            RouteStop.sequenceIndex := 2 * fst io |};
         {| RouteStop.type := StopType.delivery;
            RouteStop.orderId := snd io;
            RouteStop.location := {| Location.lat := 0; Location.lng := 0 |};
            RouteStop.sequenceIndex := 2 * fst io + 1 |} ])
    (combine (seq 0 (length (orders route))) (orders route)).

(** [optimizeBatch]; the [if (!passConstraints)] block of lines 24-26 is
    empty in the source. *)
Definition optimizeBatch (rider : Rider.t) (allOrders : list Order.t)
  : BatchRoute :=
  if (length allOrders =? 0)%nat then
    {| stops := []; totalDistance := 0; totalDurationMinutes := 0;
       ordersSequence := [] |}
  else
    let passConstraints := validateBatchConstraints rider allOrders in
    let _ := if negb passConstraints then tt else tt in
    match cheapestInsertionConstruction rider allOrders with
    | None =>
        {| stops := []; totalDistance := 0; totalDurationMinutes := 0;
           ordersSequence := [] |}
    | Some route =>
        let route := twoOptImprovement route in
        let stops := buildStopSequence route in
        {| stops := stops;
           totalDistance :=
             Geo.calculateRouteTotalDistance (map RouteStop.location stops);
           totalDurationMinutes := duration route;
           ordersSequence := orders route |}
    end.
End Methods.
End BatchOptimizer.

(** ** src/models/eta-model.ts *)
Module ETAModel.

Record RiderETAModel := {
  riderId : string;
  speedMultiplier : Q;
  familiarZones : list string;
  trainingDatapoints : Z;
  lastUpdated : Z;
}.

(** The two private caches, and the number of [Math.random] calls made so
    far. *)
Record t := {
  etaCache : list (string * (ETAEstimate.t * Z));
  riderModelCache : list (string * RiderETAModel);
  draws : nat;
}.

Definition empty : t :=
  {| etaCache := []; riderModelCache := []; draws := 0 |}.

(** The answers of [estimateRouteETA] and [getCacheStats]. *)
Record RouteETA := {
  totalMinutes : Q;
  breakdown : list Q;
}.

Record CacheStats := {
  cacheSize : nat;
  riderModels : nat;
}.

(** [x.toFixed(4)]. *)
Definition toFixed4 (x : Q) : string :=
  let scaled := Qfloor (Qabs x * 10000 + (1 # 2))%Q in
  let frac := pretty (scaled mod 10000)%Z in
  let zeros := String.concat ""%string
                 (repeat "0"%string (4 - String.length frac)) in
  ((if Js.Qltb x 0 then "-" else "")
     +:+ pretty (scaled / 10000)%Z +:+ "." +:+ zeros +:+ frac)%string.

Definition generateCacheKey (origin destination : Location.t)
    (departureTime : Z) : string :=
  let departureMinute := (departureTime / 60000)%Z in
  (toFixed4 (Location.lat origin) +:+ ":" +:+ toFixed4 (Location.lng origin)
     +:+ ":" +:+ toFixed4 (Location.lat destination)
     +:+ ":" +:+ toFixed4 (Location.lng destination)
     +:+ ":" +:+ pretty departureMinute)%string.

Definition getTrafficMultiplier (hour : Z) : Q :=
  if ((8 <=? hour) && (hour <=? 10) || (17 <=? hour) && (hour <=? 19))%Z
  then 15 # 10
  else if ((22 <=? hour) || (hour <=? 6))%Z then 11 # 10
  else 1.

Section Methods.
Context `{Platform}.
Variable config : ETAConfig.t.

Definition getRiderSpeedMultiplier (model : t) (clock : Z)
    (rider : string) : Q * t :=
  match Js.get rider (riderModelCache model) with
  | Some cached => (speedMultiplier cached, model)
  | None =>
      let multiplier := ((8 # 10) + Math_random (draws model) * (4 # 10))%Q in
      let fresh :=
        {| riderId := rider; speedMultiplier := multiplier;
           familiarZones := []; trainingDatapoints := 0;
           lastUpdated := clock |} in
      (multiplier,
       {| etaCache := etaCache model;
          riderModelCache := Js.set rider fresh (riderModelCache model);
          draws := S (draws model) |})
  end.

(** Lines 46-49.  The lookup is of the own properties of
    [serviceTimeDefaults].  For a building type that is not configured but
    is one of [Js.Object_prototype] the code reads an inherited function
    and stores it where a number is declared; an [ETAEstimate.t] holds
    numbers only, so such a call is outside the model, and the statements
    about the building type assume [Js.inherited] is false of it. *)
Definition serviceTimeFor (buildingType : option string) : Q :=
  match Js.truthy buildingType with
  | Some b => Js.orElse (ETAConfig.serviceTimeDefaults config !! b) 3
  | None => 0
  end.

(** The cached estimate, when there is one and it is fresh (line 32). *)
Definition cachedEstimate (model : t) (clock : Z) (cacheKey : string)
  : option ETAEstimate.t :=
  match Js.get cacheKey (etaCache model) with
  | Some (estimate, timestamp) =>
      if Js.Qltb (inject_Z (clock - timestamp))
                 (ETAConfig.etaCacheMinutes config * 60 * 1000)
      then Some estimate else None
  | None => None
  end.

(** [estimateETA]; [clock] is the reading of [Date.now()]. *)
Definition estimateETA (model : t) (clock : Z)
    (origin destination : Location.t) (departureTime : Z)
    (rider buildingType : option string) : ETAEstimate.t * t :=
  let cacheKey := generateCacheKey origin destination departureTime in
  match cachedEstimate model clock cacheKey with
  | Some estimate => (estimate, model)
  | None =>
      let baseTime := Geo.estimateTravelTime origin destination 25 1 in
      let hour := getHours departureTime in
      let trafficMultiplier := getTrafficMultiplier hour in
      let '(riderSpeedMultiplier, model) :=
        match Js.truthy rider with
        | Some id => getRiderSpeedMultiplier model clock id
        | None => (1%Q, model)
        end in
      let serviceTime := serviceTimeFor buildingType in
      let travelTime :=
        Js.round (inject_Z baseTime * trafficMultiplier
                  * riderSpeedMultiplier)%Q in
      let totalTime := (inject_Z travelTime + serviceTime)%Q in
      let estimate :=
        {| ETAEstimate.origin := origin;
           ETAEstimate.destination := destination;
           ETAEstimate.departureTime := departureTime;
           ETAEstimate.estimatedDurationMinutes := totalTime;
           ETAEstimate.confidence :=
             ((75 # 100) + Math_random (draws model) * (2 # 10))%Q;
           ETAEstimate.baseTime := baseTime;
           ETAEstimate.trafficMultiplier := trafficMultiplier;
           ETAEstimate.riderSpeedMultiplier := riderSpeedMultiplier;
           ETAEstimate.serviceTimeMinutes := serviceTime |} in
      (estimate,
       {| etaCache := Js.set cacheKey (estimate, clock) (etaCache model);
          riderModelCache := riderModelCache model;
          draws := S (draws model) |})
  end.

(** [updateRiderModel]: an exponential moving average of the ratio between
    the estimated and the actual duration. *)
Definition updateRiderModel (model : t) (clock : Z) (rider : string)
    (actualDurationMinutes estimatedDurationMinutes : Q) (zone : string)
  : t :=
  let cached :=
    match Js.get rider (riderModelCache model) with
    | Some cached => cached
    | None =>
        {| riderId := rider; speedMultiplier := 1;
           familiarZones := []; trainingDatapoints := 0;
           lastUpdated := clock |}
    end in
  let actualMultiplier :=
    (estimatedDurationMinutes / Js.Qmax actualDurationMinutes 1)%Q in
  let alpha := (1 # 10)%Q in
  let updated :=
    {| riderId := riderId cached;
       speedMultiplier :=
         (speedMultiplier cached * (1 - alpha) + actualMultiplier * alpha)%Q;
       familiarZones := Js.add zone (familiarZones cached);
       trainingDatapoints := (trainingDatapoints cached + 1)%Z;
       lastUpdated := clock |} in
  {| etaCache := etaCache model;
     riderModelCache := Js.set rider updated (riderModelCache model);
     draws := draws model |}.

(** The loop of [estimateRouteETA]: one estimate per pair of consecutive
    locations, each leaving when the previous one arrives. *)
Fixpoint routeLegs (model : t) (clock : Z) (locations : list Location.t)
    (currentTime : Z) (rider : option string) : list Q * t :=
  match locations with
  | from :: ((to :: _) as rest) =>
      let '(estimate, model) :=
        estimateETA model clock from to currentTime rider None in
      let minutes := ETAEstimate.estimatedDurationMinutes estimate in
      let '(breakdown, model) :=
        routeLegs model clock rest
          (Js.toDate (inject_Z currentTime + minutes * 60 * 1000)%Q) rider in
      (minutes :: breakdown, model)
  | _ => ([], model)
  end.

Definition estimateRouteETA (model : t) (clock : Z)
    (locations : list Location.t) (startTime : Z) (rider : option string)
  : RouteETA * t :=
  if (length locations <? 2)%nat then
    ({| totalMinutes := 0; breakdown := [] |}, model)
  else
    let '(breakdown, model) :=
      routeLegs model clock locations startTime rider in
    ({| totalMinutes := fold_left Qplus breakdown 0%Q;
        breakdown := breakdown |}, model).

Definition clearExpiredCache (model : t) (clock : Z) : t :=
  let expirationMs := (ETAConfig.etaCacheMinutes config * 60 * 1000)%Q in
  {| etaCache :=
       List.filter
         (fun entry =>
            negb (Js.Qltb expirationMs
                          (inject_Z (clock - snd (snd entry)))))
         (etaCache model);
     riderModelCache := riderModelCache model;
     draws := draws model |}.

Definition getCacheStats (model : t) : CacheStats :=
  {| cacheSize := length (etaCache model);
     riderModels := length (riderModelCache model) |}.
End Methods.
End ETAModel.

(** ** src/core/scoring.ts *)
Module Scorer.
Section Methods.
Context `{Platform}.
Variable etaConfig : ETAConfig.t.
Variable weights : ScoringWeights.t.
Variable slaRiskSigmoidScale : Q.

(** The location of a stop or of the rider ([getCurrentLocation]). *)
Definition getCurrentLocation (rider : Rider.t) : Location.t :=
  match last (Rider.currentRoute rider) with
  | Some stop => RouteStop.location stop
  | None => Rider.location rider
  end.

Definition calculateInsertionCost (order : Order.t) (rider : Rider.t) : Q :=
  let route := Rider.currentRoute rider in
  let pickup := OrderPickup.location (Order.pickup order) in
  if (length route <? 2)%nat then 0%Q
  else
    let minInsertionCost :=
      fold_left
        (fun (best : option Q) (ps : nat * RouteStop.t) =>
           let prev :=
             if (fst ps =? 0)%nat then getCurrentLocation rider
             else match nth_error route (fst ps - 1) with
                  | Some stop => RouteStop.location stop
                  | None => getCurrentLocation rider
                  end in
           let next := RouteStop.location (snd ps) in
           let distanceToPickup := haversineDistance prev pickup in
           let distancePickupToNext := haversineDistance pickup next in
           let directDistance := haversineDistance prev next in
           let detourCost :=
             (distanceToPickup + distancePickupToNext - directDistance)%Q in
           let deliveryDetourPenalty := 10%Q in
           let insertionCostAtPos := (detourCost + deliveryDetourPenalty)%Q in
           match best with
           | None => Some insertionCostAtPos
           | Some b => if Js.Qltb insertionCostAtPos b
                       then Some insertionCostAtPos else best
           end)
        (combine (seq 0 (length route)) route) None in
    match minInsertionCost with
    | Some c => c
    | None => 0%Q      (* not reached: the route has two stops or more *)
    end.

Definition calculateDeltaTimeCost (model : ETAModel.t) (clock : Z)
    (order : Order.t) (rider : Rider.t) (now : Z) : Q * ETAModel.t :=
  if (length (Rider.currentAssignments rider) =? 0)%nat then
    let '(etaPickup, model) :=
      ETAModel.estimateETA etaConfig model clock (Rider.location rider)
        (OrderPickup.location (Order.pickup order)) now
        (Some (Rider.riderId rider)) None in
    let '(etaDelivery, model) :=
      ETAModel.estimateETA etaConfig model clock
        (OrderPickup.location (Order.pickup order))
        (OrderDelivery.location (Order.delivery order))
        (Js.toDate (inject_Z now
                    + ETAEstimate.estimatedDurationMinutes etaPickup
                      * 60 * 1000)%Q)
        (Some (Rider.riderId rider)) None in
    let totalMinutes :=
      (ETAEstimate.estimatedDurationMinutes etaPickup
       + ETAEstimate.estimatedDurationMinutes etaDelivery)%Q in
    (Js.Qmin 1 (totalMinutes / 120), model)
  else
    let insertionCost := calculateInsertionCost order rider in
    (Js.Qmin 1 (insertionCost / 60), model).

Definition calculateSLARiskCost (model : ETAModel.t) (clock : Z)
    (order : Order.t) (rider : Rider.t) (now : Z) : Q * ETAModel.t :=
  let '(eta, model) :=
    ETAModel.estimateETA etaConfig model clock (Rider.location rider)
      (OrderDelivery.location (Order.delivery order)) now
      (Some (Rider.riderId rider)) None in
  let estimatedDeliveryTime :=
    Js.toDate (inject_Z now
               + ETAEstimate.estimatedDurationMinutes eta * 60 * 1000)%Q in
  let slackMinutes :=
    (inject_Z (Order.slaDeadline order - estimatedDeliveryTime) / 60000)%Q in
  let riskProbability :=
    (1 / (1 + Math_exp (slackMinutes / slaRiskSigmoidScale)))%Q in
  (Js.Qmax 0 (Js.Qmin 1 riskProbability), model).

Definition calculateDistanceCost (order : Order.t) (rider : Rider.t) : Q :=
  let distanceKm :=
    haversineDistance (Rider.location rider)
                      (OrderPickup.location (Order.pickup order)) in
  Js.Qmin 1 (distanceKm / 20).

Definition calculateBatchDisruptionCost (rider : Rider.t) : Q :=
  if (length (Rider.currentRoute rider) =? 0)%nat then 0%Q
  else
    let estimatedAddedDurationMinutes := 20%Q in
    let totalSLARiskIncrease :=
      fold_left (fun total (_ : string) =>
                   if Js.Qltb 15 estimatedAddedDurationMinutes
                   then (total + (2 # 10))%Q else total)
                (Rider.currentAssignments rider) 0%Q in
    Js.Qmin 1 totalSLARiskIncrease.

Definition calculateWorkloadImbalanceCost (rider : Rider.t) : Q :=
  let loadScore :=
    (RiderLoad.weightKg (Rider.load rider)
       / Vehicle.maxWeightKg (Rider.vehicle rider) * (7 # 10)
     + RiderLoad.itemCount (Rider.load rider)
         / Vehicle.maxItems (Rider.vehicle rider) * (3 # 10))%Q in
  if Js.Qltb loadScore (7 # 10) then 0%Q
  else Js.Qmin 1 ((loadScore - (7 # 10)) / (3 # 10)).

Definition getDeliveryZone (location : Location.t) : string :=
  let zoneLatBucket := Qfloor (Location.lat location / (1 # 2)) in
  let zoneLngBucket := Qfloor (Location.lng location / (1 # 2)) in
  ("zone_" +:+ pretty zoneLatBucket +:+ "_" +:+ pretty zoneLngBucket)%string.

(** Lines 174-187. *)
Definition calculateAffinityCost (order : Order.t) (rider : Rider.t) : Q :=
  let affinityScore := 0%Q in
  let deliveryZone :=
    getDeliveryZone (OrderDelivery.location (Order.delivery order)) in
  let zoneFamiliarity :=
    Js.orElse (RiderPerformance.zoneFamiliarityScores
                 (Rider.performance rider) !! deliveryZone) (1 # 2) in
  let affinityScore := (affinityScore + zoneFamiliarity * (1 # 2))%Q in
  let affinityScore :=
    (affinityScore
     + RiderPerformance.avgDeliverySuccessRate (Rider.performance rider)
       * (3 # 10))%Q in
  let speedBonus :=
    (Js.Qmax 0 (RiderPerformance.avgSpeedMultiplier (Rider.performance rider)
                - (9 # 10)) * (2 # 10))%Q in
  let affinityScore := (affinityScore + speedBonus)%Q in
  (- (affinityScore / 1))%Q.

Definition scoreAssignment (model : ETAModel.t) (clock : Z)
    (order : Order.t) (rider : Rider.t) (now : Z)
  : ScoringResult.t * ETAModel.t :=
  let '(deltaTimeCost, model) :=
    calculateDeltaTimeCost model clock order rider now in
  let '(slaRiskCost, model) :=
    calculateSLARiskCost model clock order rider now in
  let distanceCost := calculateDistanceCost order rider in
  let batchDisruptionCost := calculateBatchDisruptionCost rider in
  let workloadImbalanceCost := calculateWorkloadImbalanceCost rider in
  let affinityCost := calculateAffinityCost order rider in
  let totalWeightedCost :=
    (ScoringWeights.w1_time weights * deltaTimeCost
     + ScoringWeights.w2_slaRisk weights * slaRiskCost
     + ScoringWeights.w3_distance weights * distanceCost
     + ScoringWeights.w4_batchDisruption weights * batchDisruptionCost
     + ScoringWeights.w5_workload weights * workloadImbalanceCost
     + ScoringWeights.w6_affinity weights * affinityCost)%Q in
  ({| ScoringResult.orderId := Order.orderId order;
      ScoringResult.riderId := Rider.riderId rider;
      ScoringResult.cost := totalWeightedCost |}, model).
End Methods.
End Scorer.

(** ** src/services/reassignment-engine.ts *)
Module ReassignmentEngine.

(** The two private maps of the engine. *)
Record Counters := {
  reassignmentCounts : list (string * Q);
  lastReassignmentTime : list (string * Z);
}.

Definition noCounters : Counters :=
  {| reassignmentCounts := []; lastReassignmentTime := [] |}.

(** The answer of [getStats]. *)
Record Stats := {
  totalOrdersReassigned : nat;
  avgReassignmentsPerOrder : Q;
  ordersExceededMax : nat;
}.

Section Methods.
Context `{Platform}.
Variable config : ReassignmentConfig.t.

Definition detectOfflineRiders (riders : list (string * Rider.t))
    (assignments : list (string * Assignment.t)) (now : Z)
  : list ReassignmentTrigger.t :=
  let affectedOrders :=
    fold_left
      (fun acc (assignment : Assignment.t) =>
         match Js.get (Assignment.riderId assignment) riders with
         | None => Js.add (Assignment.orderId assignment) acc
         | Some rider =>
             if RiderStatus.eqb (Rider.status rider) RiderStatus.offline
             then Js.add (Assignment.orderId assignment) acc else acc
         end)
      (Js.values assignments) [] in
  if (0 <? length affectedOrders)%nat then
    [ {| ReassignmentTrigger.type := TriggerType.rider_offline;
         ReassignmentTrigger.affectedOrderIds := affectedOrders;
         ReassignmentTrigger.affectedRiderIds :=
           omap (fun orderId =>
                   match Js.get orderId assignments with
                   | Some a => Js.truthy (Some (Assignment.riderId a))
                   | None => None
                   end) affectedOrders;
         ReassignmentTrigger.reason :=
           "One or more assigned riders went offline";
         ReassignmentTrigger.timestamp := now |} ]
  else [].

Definition detectETASpikes (orders : list (string * Order.t))
    (assignments : list (string * Assignment.t))
    (riders : list (string * Rider.t)) (now : Z)
  : list ReassignmentTrigger.t :=
  let affectedOrders :=
    fold_left
      (fun acc (assignment : Assignment.t) =>
         match Js.get (Assignment.orderId assignment) orders,
               Js.get (Assignment.riderId assignment) riders with
         | Some order, Some rider =>
             let currentEta :=
               Geo.estimateTravelTime (Rider.location rider)
                 (OrderDelivery.location (Order.delivery order))
                 25 (12 # 10) in
             let originalEta :=
               (Assignment.estimatedDeliveryAt assignment
                - Assignment.assignedAt assignment)%Z in
             let etaIncreaseMinutes :=
               (inject_Z currentEta - inject_Z originalEta / 60000)%Q in
             if Js.Qltb (ReassignmentConfig.triggerEtaSpikeMinutes config)
                        etaIncreaseMinutes
             then Js.add (Assignment.orderId assignment) acc else acc
         | _, _ => acc
         end)
      (Js.values assignments) [] in
  if (0 <? length affectedOrders)%nat then
    [ {| ReassignmentTrigger.type := TriggerType.eta_spike;
         ReassignmentTrigger.affectedOrderIds := affectedOrders;
         ReassignmentTrigger.affectedRiderIds := [];
         ReassignmentTrigger.reason :=
           (pretty (length affectedOrders)
              +:+ " orders experienced significant ETA increases")%string;
         ReassignmentTrigger.timestamp := now |} ]
  else [].

(** The filter of lines 325-327. *)
Definition isPriorityOrder (assignments : list (string * Assignment.t))
    (o : Order.t) : bool :=
  OrderPriority.eqb (Order.priority o) OrderPriority.critical
  || OrderPriority.eqb (Order.priority o) OrderPriority.high
     && negb (Js.has (Order.orderId o) assignments).

(** The condition of line 332. *)
Definition dueSoon (now : Z) (order : Order.t) : bool :=
  let slaCutoffTime :=
    Js.toDate
      (inject_Z now
       + ReassignmentConfig.triggerHighPrioritySlaCutoffMinutes config
         * 60 * 1000)%Q in
  (Order.slaDeadline order <=? slaCutoffTime)%Z.

(** The body of the inner loop (lines 333-344), for priority order
    [order] and one assignment: the two sets after the step. *)
Definition flagNearby (orders : list (string * Order.t))
    (riders : list (string * Rider.t)) (order : Order.t)
    (acc : list string * list string) (assignment : Assignment.t)
  : list string * list string :=
  match Js.get (Assignment.orderId assignment) orders,
        Js.get (Assignment.riderId assignment) riders with
  | Some assignedOrder, Some rider =>
      if OrderPriority.eqb (Order.priority assignedOrder)
                           OrderPriority.normal
      then
        let distanceToPriority :=
          haversineDistance (Rider.location rider)
            (OrderPickup.location (Order.pickup order)) in
        if Js.Qltb distanceToPriority 3
        then (Js.add (Order.orderId order) (fst acc),
              Js.add (Rider.riderId rider) (snd acc))
        else acc
      else acc
  | _, _ => acc
  end.

(** The outer loop (lines 329-346): the sets [affectedOrders] and
    [affectedRiders]. *)
Definition highPriorityScan (orders : list (string * Order.t))
    (assignments : list (string * Assignment.t))
    (riders : list (string * Rider.t)) (now : Z)
  : list string * list string :=
  let priorityOrders :=
    List.filter (isPriorityOrder assignments) (Js.values orders) in
  fold_left
    (fun acc order =>
       if dueSoon now order
       then fold_left (flagNearby orders riders order)
                      (Js.values assignments) acc
       else acc)
    priorityOrders ([], []).

Definition detectHighPriorityArrivals (orders : list (string * Order.t))
    (assignments : list (string * Assignment.t))
    (riders : list (string * Rider.t)) (now : Z)
  : list ReassignmentTrigger.t :=
  let '(affectedOrders, affectedRiders) :=
    highPriorityScan orders assignments riders now in
  if (0 <? length affectedOrders)%nat then
    [ {| ReassignmentTrigger.type := TriggerType.high_priority_arrival;
         ReassignmentTrigger.affectedOrderIds := affectedOrders;
         ReassignmentTrigger.affectedRiderIds := affectedRiders;
         ReassignmentTrigger.reason :=
           (pretty (length affectedOrders)
              +:+ " high-priority orders need immediate assignment")%string;
         ReassignmentTrigger.timestamp := now |} ]
  else [].

Definition detectNewRidersInDemandZones (riders : list (string * Rider.t))
    (now : Z) : list ReassignmentTrigger.t :=
  let idleRiders :=
    List.filter
      (fun r => RiderStatus.eqb (Rider.status r) RiderStatus.active
                && (length (Rider.currentAssignments r) =? 0)%nat)
      (Js.values riders) in
  if (0 <? length idleRiders)%nat then
    [ {| ReassignmentTrigger.type := TriggerType.new_rider_online;
         ReassignmentTrigger.affectedOrderIds := [];
         ReassignmentTrigger.affectedRiderIds := map Rider.riderId idleRiders;
         ReassignmentTrigger.reason :=
           (pretty (length idleRiders)
              +:+ " idle riders available for assignment")%string;
         ReassignmentTrigger.timestamp := now |} ]
  else [].

Definition detectTriggers (orders : list (string * Order.t))
    (riders : list (string * Rider.t))
    (assignments : list (string * Assignment.t)) (now : Z)
  : list ReassignmentTrigger.t :=
  detectOfflineRiders riders assignments now
  ++ detectETASpikes orders assignments riders now
  ++ detectHighPriorityArrivals orders assignments riders now
  ++ detectNewRidersInDemandZones riders now.

Definition canReassign (counters : Counters) (clock : Z) (orderId : string)
  : bool :=
  let count := Js.orElse (Js.get orderId (reassignmentCounts counters)) 0 in
  if Qle_bool (ReassignmentConfig.maxReassignmentAttempts config) count
  then false
  else
    match Js.get orderId (lastReassignmentTime counters) with
    | Some lastTime =>
        let timeSinceLastMs := (clock - lastTime)%Z in
        let minIntervalMs := 30000%Z in
        if (timeSinceLastMs <? minIntervalMs)%Z then false else true
    | None => true
    end.

Definition isReassignmentSuppressed (rider : Rider.t)
    (pickupLocation : Location.t) : bool :=
  let distance := haversineDistance (Rider.location rider) pickupLocation in
  Js.Qltb distance
          (ReassignmentConfig.suppressionRadiusMeters config / 1000).

Definition recordReassignment (counters : Counters) (clock : Z)
    (orderId : string) : Counters :=
  let count := Js.orElse (Js.get orderId (reassignmentCounts counters)) 0 in
  {| reassignmentCounts :=
       Js.set orderId (count + 1)%Q (reassignmentCounts counters);
     lastReassignmentTime :=
       Js.set orderId clock (lastReassignmentTime counters) |}.

Definition getStats (counters : Counters) : Stats :=
  let total := length (reassignmentCounts counters) in
  let sum := fold_left Qplus (Js.values (reassignmentCounts counters)) 0%Q in
  let exceededMax :=
    length
      (List.filter
         (fun count =>
            Qle_bool (ReassignmentConfig.maxReassignmentAttempts config) count)
         (Js.values (reassignmentCounts counters))) in
  {| totalOrdersReassigned := total;
     avgReassignmentsPerOrder :=
       if (total =? 0)%nat then 0%Q
       else (sum / inject_Z (Z.of_nat total))%Q;
     ordersExceededMax := exceededMax |}.
End Methods.
End ReassignmentEngine.

(** ** src/services/surge-handler.ts *)
Module SurgeLevel.
Inductive t := normal | soft_surge | hard_surge | crisis.
End SurgeLevel.

Module SurgeState.
Record t := {
  level : SurgeLevel.t;
  demandSupplyRatio : Q;
  pendingOrderCount : Q;
  availableCapacity : Q;
  recommendedActions : list string;
}.
End SurgeState.

Module PrepositioningTarget.
Record t := {
  riderId : string;
  targetLocation : Location.t;
}.
End PrepositioningTarget.

(** The answers of the three [apply...Modifications] methods. *)
Module SoftSurgeModifications.
Record t := {
  weights : ScoringWeights.t;
  batchSizes : gmap string Q;             (* Record<string, number> *)
  radiusKm : Q;
}.
End SoftSurgeModifications.

Module HardSurgeModifications.
Record t := {
  weights : ScoringWeights.t;
  batchSizes : gmap string Q;
  radiusKm : Q;
  heldOrders : list string;
  prepositioningTargets : list PrepositioningTarget.t;
}.
End HardSurgeModifications.

Module CrisisModifications.
Record t := {
  algorithm : Optimizers.Algorithm;
  skipGlobalOptimization : bool;
  enableEmergencyMode : bool;
  notifyOps : bool;
}.
End CrisisModifications.

Module SurgeHandler.

(** The private field of the handler. *)
Record t := { currentLevel : SurgeLevel.t }.

Definition new : t := {| currentLevel := SurgeLevel.normal |}.

(** An entry of the map [calculateZoneCentroids] returns. *)
Record ZoneCentroid := {
  centroid : Location.t;
  orderCount : nat;
}.

Definition getCurrentLevel (handler : t) : SurgeLevel.t :=
  currentLevel handler.

Definition applyCrisisModifications : CrisisModifications.t :=
  {| CrisisModifications.algorithm := Optimizers.greedy;
     CrisisModifications.skipGlobalOptimization := true;
     CrisisModifications.enableEmergencyMode := true;
     CrisisModifications.notifyOps := true |}.

Definition getOrderZone (location : Location.t) : string :=
  let latBucket := Qfloor (Location.lat location / (1 # 2)) in
  let lngBucket := Qfloor (Location.lng location / (1 # 2)) in
  (pretty latBucket +:+ "_" +:+ pretty lngBucket)%string.

Definition groupOrdersByZone (orders : list (string * Order.t))
  : list (string * list Order.t) :=
  fold_left
    (fun zones order =>
       let zone :=
         getOrderZone (OrderDelivery.location (Order.delivery order)) in
       let zones :=
         if negb (Js.has zone zones) then Js.set zone [] zones else zones in
       Js.set zone (default [] (Js.get zone zones) ++ [order]) zones)
    (Js.values orders) [].

Definition calculateZoneCentroids (zones : list (string * list Order.t))
  : list (string * ZoneCentroid) :=
  fold_left
    (fun centroids (zo : string * list Order.t) =>
       let orders := snd zo in
       let count := inject_Z (Z.of_nat (length orders)) in
       let avgLat :=
         (fold_left
            (fun sum o =>
               (sum + Location.lat
                        (OrderDelivery.location (Order.delivery o)))%Q)
            orders 0%Q / count)%Q in
       let avgLng :=
         (fold_left
            (fun sum o =>
               (sum + Location.lng
                        (OrderDelivery.location (Order.delivery o)))%Q)
            orders 0%Q / count)%Q in
       Js.set (fst zo)
         {| centroid := {| Location.lat := avgLat; Location.lng := avgLng |};
            orderCount := length orders |}
         centroids)
    zones [].

(** [entries.sort(([, a], [, b]) => b.orderCount - a.orderCount)]: the
    sort is stable, so an entry goes before the first entry with strictly
    fewer orders. *)
Fixpoint insertByCount (entry : string * ZoneCentroid)
    (sorted : list (string * ZoneCentroid)) : list (string * ZoneCentroid) :=
  match sorted with
  | [] => [entry]
  | other :: rest =>
      if (orderCount (snd other) <? orderCount (snd entry))%nat
      then entry :: other :: rest
      else other :: insertByCount entry rest
  end.

Definition sortByCount (entries : list (string * ZoneCentroid))
  : list (string * ZoneCentroid) :=
  fold_left (fun sorted entry => insertByCount entry sorted) entries [].

Definition calculatePrepositioningTargets (orders : list (string * Order.t))
    (riders : list (string * Rider.t)) : list PrepositioningTarget.t :=
  let idleRiders :=
    List.filter
      (fun r => RiderStatus.eqb (Rider.status r) RiderStatus.active
                && (length (Rider.currentAssignments r) =? 0)%nat)
      (Js.values riders) in
  if (length idleRiders =? 0)%nat then []
  else
    let ordersByZone := groupOrdersByZone orders in
    let zoneCentroids := calculateZoneCentroids ordersByZone in
    let sortedZones := sortByCount zoneCentroids in
    map (fun (rz : Rider.t * (string * ZoneCentroid)) =>
           {| PrepositioningTarget.riderId := Rider.riderId (fst rz);
              PrepositioningTarget.targetLocation :=
                centroid (snd (snd rz)) |})
        (combine idleRiders sortedZones).

Section Methods.
Variable config : SurgeConfig.t.

Definition detectSurge (pendingOrders availableRiders activeBatchCapacity : Q)
  : SurgeState.t * t :=
  let availableCapacity := (availableRiders * activeBatchCapacity)%Q in
  let demandSupplyRatio :=
    (pendingOrders / Js.Qmax availableCapacity 1)%Q in
  let '(level, recommendedActions) :=
    if Qle_bool (SurgeConfig.crisisRatio config) demandSupplyRatio then
      (SurgeLevel.crisis,
       [ "escalate_sla_windows"; "notify_customers";
         "activate_emergency_protocol"; "request_additional_supply" ]%string)
    else if Qle_bool (SurgeConfig.hardSurgeRatio config) demandSupplyRatio then
      (SurgeLevel.hard_surge,
       [ "enable_preposioning"; "hold_sla_orders"; "increase_batch_sizes";
         "expand_search_radius" ]%string)
    else if Qle_bool (SurgeConfig.softSurgeRatio config) demandSupplyRatio then
      (SurgeLevel.soft_surge,
       [ "increase_batch_sizes_by_1"; "expand_candidate_radius_50pct";
         "reduce_fairness_weight" ]%string)
    else (SurgeLevel.normal, []) in
  ({| SurgeState.level := level;
      SurgeState.demandSupplyRatio := demandSupplyRatio;
      SurgeState.pendingOrderCount := pendingOrders;
      SurgeState.availableCapacity := availableCapacity;
      SurgeState.recommendedActions := recommendedActions |},
   {| currentLevel := level |}).

(** The loop over [Object.entries(baseBatchSizes)]. *)
Definition raiseBatchSizes (increment : Q) (baseBatchSizes : gmap string Q)
  : gmap string Q :=
  map_fold (fun vType size batchSizes =>
              <[vType := (size + increment)%Q]> batchSizes)
           ∅ baseBatchSizes.

Definition applySoftSurgeModifications (baseWeights : ScoringWeights.t)
    (baseBatchSizes : gmap string Q) (baseRadiusKm : Q)
  : SoftSurgeModifications.t :=
  let w5_workload :=
    Js.Qmax 0 (ScoringWeights.w5_workload baseWeights * (5 # 10)) in
  let w2_slaRisk :=
    Js.Qmin 1 (ScoringWeights.w2_slaRisk baseWeights * (12 # 10)) in
  {| SoftSurgeModifications.weights :=
       {| ScoringWeights.w1_time := ScoringWeights.w1_time baseWeights;
          ScoringWeights.w2_slaRisk := w2_slaRisk;
          ScoringWeights.w3_distance := ScoringWeights.w3_distance baseWeights;
          ScoringWeights.w4_batchDisruption :=
            ScoringWeights.w4_batchDisruption baseWeights;
          ScoringWeights.w5_workload := w5_workload;
          ScoringWeights.w6_affinity :=
            ScoringWeights.w6_affinity baseWeights |};
     SoftSurgeModifications.batchSizes :=
       raiseBatchSizes (SurgeConfig.batchSizeIncrement config) baseBatchSizes;
     SoftSurgeModifications.radiusKm :=
       (baseRadiusKm * SurgeConfig.radiusExpansionFactor config)%Q |}.

(** [applyHardSurgeModifications]; [clock] is the reading of
    [new Date()]. *)
Definition applyHardSurgeModifications (clock : Z)
    (baseWeights : ScoringWeights.t) (baseBatchSizes : gmap string Q)
    (baseRadiusKm : Q) (orders : list (string * Order.t))
    (riders : list (string * Rider.t)) : HardSurgeModifications.t :=
  let slaCutoff := (clock + 30 * 60 * 1000)%Z in
  {| HardSurgeModifications.weights :=
       {| ScoringWeights.w1_time := 3 # 10;
          ScoringWeights.w2_slaRisk := 5 # 10;
          ScoringWeights.w3_distance := 2 # 10;
          ScoringWeights.w4_batchDisruption :=
            ScoringWeights.w4_batchDisruption baseWeights;
          ScoringWeights.w5_workload := 0;
          ScoringWeights.w6_affinity :=
            ScoringWeights.w6_affinity baseWeights |};
     HardSurgeModifications.batchSizes :=
       raiseBatchSizes (SurgeConfig.batchSizeIncrement config * 2)
                       baseBatchSizes;
     HardSurgeModifications.radiusKm :=
       (baseRadiusKm * (SurgeConfig.radiusExpansionFactor config
                        * SurgeConfig.radiusExpansionFactor config))%Q;
     HardSurgeModifications.heldOrders :=
       map fst
         (List.filter
            (fun io =>
               OrderPriority.eqb (Order.priority (snd io)) OrderPriority.normal
               && (slaCutoff <? Order.slaDeadline (snd io))%Z)
            orders);
     HardSurgeModifications.prepositioningTargets :=
       calculatePrepositioningTargets orders riders |}.
End Methods.
End SurgeHandler.

(** ** src/config: defaults and [ConfigurationBuilder]

    The builder's only field is the configuration under construction, so a
    builder is modelled by that configuration; a setter takes the builder
    last and returns the new one. *)
Module Config.

Definition DEFAULT_SCORING_WEIGHTS : ScoringWeights.t :=
  {| ScoringWeights.w1_time := 30 # 100;
     ScoringWeights.w2_slaRisk := 35 # 100;
     ScoringWeights.w3_distance := 15 # 100;
     ScoringWeights.w4_batchDisruption := 12 # 100;
     ScoringWeights.w5_workload := 5 # 100;
     ScoringWeights.w6_affinity := 3 # 100 |}.

Definition DEFAULT_CANDIDATE_GENERATION_CONFIG : CandidateGenerationConfig.t :=
  {| CandidateGenerationConfig.initialRadiusKm := 5;
     CandidateGenerationConfig.expandedRadiusKm := 10;
     CandidateGenerationConfig.maxRadiusKm := 20;
     CandidateGenerationConfig.radiusExpansionMinutesThreshold := 20 |}.

Definition DEFAULT_BATCHING_CONFIG : BatchingConfig.t :=
  {| BatchingConfig.maxBatchSize :=
       fun vehicle =>
         match vehicle with
         | VehicleType.bike => 3%Q
         | VehicleType.car => 5%Q
         | VehicleType.van => 8%Q
         end;
     BatchingConfig.maxBatchDurationMinutes := 45;
     BatchingConfig.twoOptIterationLimit := 100 |}.

Definition DEFAULT_REASSIGNMENT_CONFIG : ReassignmentConfig.t :=
  {| ReassignmentConfig.maxReassignmentAttempts := 3;
     ReassignmentConfig.suppressionRadiusMeters := 500;
     ReassignmentConfig.triggerEtaSpikeMinutes := 15;
     ReassignmentConfig.triggerHighPrioritySlaCutoffMinutes := 20 |}.

Definition DEFAULT_SURGE_CONFIG : SurgeConfig.t :=
  {| SurgeConfig.softSurgeRatio := 12 # 10;
     SurgeConfig.hardSurgeRatio := 15 # 10;
     SurgeConfig.crisisRatio := 2;
     SurgeConfig.prepositionLookbackMinutes := 30;
     SurgeConfig.batchSizeIncrement := 1;
     SurgeConfig.radiusExpansionFactor := 15 # 10 |}.

Definition DEFAULT_ETA_CONFIG : ETAConfig.t :=
  {| ETAConfig.trafficApiRefreshSeconds := 60;
     ETAConfig.riderModelRetrainCron := "0 2 * * *";
     ETAConfig.serviceTimeDefaults :=
       <["restaurant_pickup"%string := 5%Q]>
       (<["dark_store_pickup"%string := 2%Q]>
       (<["apartment_delivery"%string := 4%Q]>
       (<["ground_floor_delivery"%string := 2%Q]>
       (<["house_delivery"%string := 3%Q]>
       (<["commercial_delivery"%string := 2%Q]> ∅)))));
     ETAConfig.etaCacheMinutes := 5 |}.

Definition DEFAULT_FATIGUE_CONFIG : FatigueConfig.t :=
  {| FatigueConfig.maxContinuousDrivingMinutes := 120;
     FatigueConfig.mandatoryBreakMinutes := 15;
     FatigueConfig.maxShiftDrivingMinutes := 480 |}.

Definition DEFAULT_SLA_CONFIG : SLAConfig.t :=
  {| SLAConfig.nearBreachThresholdMinutes := 20;
     SLAConfig.breachEscalationAlertThresholdPct := 2;
     SLAConfig.slaRiskSigmoidScale := 10 |}.

Definition DEFAULT_ENGINE_CONFIG : AssignmentEngineConfig.t :=
  {| AssignmentEngineConfig.cycleIntervalSeconds := 30;
     AssignmentEngineConfig.maxOrdersPerCycle := 500;
     AssignmentEngineConfig.maxRidersPerAssignment := 150;
     AssignmentEngineConfig.optimizerTimeoutSeconds := 15 # 10;
     AssignmentEngineConfig.hungarianThreshold := 10000;
     AssignmentEngineConfig.weights := DEFAULT_SCORING_WEIGHTS;
     AssignmentEngineConfig.candidateGeneration :=
       DEFAULT_CANDIDATE_GENERATION_CONFIG;
     AssignmentEngineConfig.batching := DEFAULT_BATCHING_CONFIG;
     AssignmentEngineConfig.reassignment := DEFAULT_REASSIGNMENT_CONFIG;
     AssignmentEngineConfig.surge := DEFAULT_SURGE_CONFIG;
     AssignmentEngineConfig.eta := DEFAULT_ETA_CONFIG;
     AssignmentEngineConfig.fatigue := DEFAULT_FATIGUE_CONFIG;
     AssignmentEngineConfig.sla := DEFAULT_SLA_CONFIG |}.

(** [Partial<AssignmentEngineConfig>]: every top-level field is optional. *)
Record PartialConfig := {
  cycleIntervalSeconds : option Q;
  maxOrdersPerCycle : option Q;
  maxRidersPerAssignment : option Q;
  optimizerTimeoutSeconds : option Q;
  hungarianThreshold : option Q;
  weights : option ScoringWeights.t;
  candidateGeneration : option CandidateGenerationConfig.t;
  batching : option BatchingConfig.t;
  reassignment : option ReassignmentConfig.t;
  surge : option SurgeConfig.t;
  eta : option ETAConfig.t;
  fatigue : option FatigueConfig.t;
  sla : option SLAConfig.t;
}.

Definition noOverrides : PartialConfig :=
  {| cycleIntervalSeconds := None; maxOrdersPerCycle := None;
     maxRidersPerAssignment := None; optimizerTimeoutSeconds := None;
     hungarianThreshold := None; weights := None;
     candidateGeneration := None; batching := None; reassignment := None;
     surge := None; eta := None; fatigue := None; sla := None |}.

Module ConfigurationBuilder.

(** The constructor: defaults overridden by [baseConfig]. *)
Definition new (baseConfig : PartialConfig) : AssignmentEngineConfig.t :=
  let d := DEFAULT_ENGINE_CONFIG in
  {| AssignmentEngineConfig.cycleIntervalSeconds :=
       default (AssignmentEngineConfig.cycleIntervalSeconds d)
               (cycleIntervalSeconds baseConfig);
     AssignmentEngineConfig.maxOrdersPerCycle :=
       default (AssignmentEngineConfig.maxOrdersPerCycle d)
               (maxOrdersPerCycle baseConfig);
     AssignmentEngineConfig.maxRidersPerAssignment :=
       default (AssignmentEngineConfig.maxRidersPerAssignment d)
               (maxRidersPerAssignment baseConfig);
     AssignmentEngineConfig.optimizerTimeoutSeconds :=
       default (AssignmentEngineConfig.optimizerTimeoutSeconds d)
               (optimizerTimeoutSeconds baseConfig);
     AssignmentEngineConfig.hungarianThreshold :=
       default (AssignmentEngineConfig.hungarianThreshold d)
               (hungarianThreshold baseConfig);
     AssignmentEngineConfig.weights :=
       default DEFAULT_SCORING_WEIGHTS (weights baseConfig);
     AssignmentEngineConfig.candidateGeneration :=
       default DEFAULT_CANDIDATE_GENERATION_CONFIG
               (candidateGeneration baseConfig);
     AssignmentEngineConfig.batching :=
       default DEFAULT_BATCHING_CONFIG (batching baseConfig);
     AssignmentEngineConfig.reassignment :=
       default DEFAULT_REASSIGNMENT_CONFIG (reassignment baseConfig);
     AssignmentEngineConfig.surge :=
       default DEFAULT_SURGE_CONFIG (surge baseConfig);
     AssignmentEngineConfig.eta := default DEFAULT_ETA_CONFIG (eta baseConfig);
     AssignmentEngineConfig.fatigue :=
       default DEFAULT_FATIGUE_CONFIG (fatigue baseConfig);
     AssignmentEngineConfig.sla := default DEFAULT_SLA_CONFIG (sla baseConfig) |}.

Definition withWeights (c : AssignmentEngineConfig.t) (w : ScoringWeights.t)
  : AssignmentEngineConfig.t :=
  {| AssignmentEngineConfig.cycleIntervalSeconds :=
       AssignmentEngineConfig.cycleIntervalSeconds c;
     AssignmentEngineConfig.maxOrdersPerCycle :=
       AssignmentEngineConfig.maxOrdersPerCycle c;
     AssignmentEngineConfig.maxRidersPerAssignment :=
       AssignmentEngineConfig.maxRidersPerAssignment c;
     AssignmentEngineConfig.optimizerTimeoutSeconds :=
       AssignmentEngineConfig.optimizerTimeoutSeconds c;
     AssignmentEngineConfig.hungarianThreshold :=
       AssignmentEngineConfig.hungarianThreshold c;
     AssignmentEngineConfig.weights := w;
     AssignmentEngineConfig.candidateGeneration :=
       AssignmentEngineConfig.candidateGeneration c;
     AssignmentEngineConfig.batching := AssignmentEngineConfig.batching c;
     AssignmentEngineConfig.reassignment :=
       AssignmentEngineConfig.reassignment c;
     AssignmentEngineConfig.surge := AssignmentEngineConfig.surge c;
     AssignmentEngineConfig.eta := AssignmentEngineConfig.eta c;
     AssignmentEngineConfig.fatigue := AssignmentEngineConfig.fatigue c;
     AssignmentEngineConfig.sla := AssignmentEngineConfig.sla c |}.

(** [keyof ScoringWeights]. *)
Inductive WeightKey :=
  w1_time | w2_slaRisk | w3_distance | w4_batchDisruption | w5_workload
| w6_affinity.

Definition setWeight (key : WeightKey) (value : Q)
    (c : AssignmentEngineConfig.t) : AssignmentEngineConfig.t :=
  let w := AssignmentEngineConfig.weights c in
  let pick (k : WeightKey) (old : Q) : Q :=
    match key, k with
    | w1_time, w1_time | w2_slaRisk, w2_slaRisk | w3_distance, w3_distance
    | w4_batchDisruption, w4_batchDisruption | w5_workload, w5_workload
    | w6_affinity, w6_affinity => value
    | _, _ => old
    end in
  withWeights c
    {| ScoringWeights.w1_time := pick w1_time (ScoringWeights.w1_time w);
       ScoringWeights.w2_slaRisk := pick w2_slaRisk (ScoringWeights.w2_slaRisk w);
       ScoringWeights.w3_distance :=
         pick w3_distance (ScoringWeights.w3_distance w);
       ScoringWeights.w4_batchDisruption :=
         pick w4_batchDisruption (ScoringWeights.w4_batchDisruption w);
       ScoringWeights.w5_workload :=
         pick w5_workload (ScoringWeights.w5_workload w);
       ScoringWeights.w6_affinity :=
         pick w6_affinity (ScoringWeights.w6_affinity w) |}.

(** [setWeights(weights)] with [Partial<ScoringWeights>]. *)
Definition setWeights (ws : WeightKey -> option Q)
    (c : AssignmentEngineConfig.t) : AssignmentEngineConfig.t :=
  let w := AssignmentEngineConfig.weights c in
  withWeights c
    {| ScoringWeights.w1_time :=
         default (ScoringWeights.w1_time w) (ws w1_time);
       ScoringWeights.w2_slaRisk :=
         default (ScoringWeights.w2_slaRisk w) (ws w2_slaRisk);
       ScoringWeights.w3_distance :=
         default (ScoringWeights.w3_distance w) (ws w3_distance);
       ScoringWeights.w4_batchDisruption :=
         default (ScoringWeights.w4_batchDisruption w) (ws w4_batchDisruption);
       ScoringWeights.w5_workload :=
         default (ScoringWeights.w5_workload w) (ws w5_workload);
       ScoringWeights.w6_affinity :=
         default (ScoringWeights.w6_affinity w) (ws w6_affinity) |}.

Definition setCycleInterval (seconds : Q) (c : AssignmentEngineConfig.t)
  : AssignmentEngineConfig.t :=
  {| AssignmentEngineConfig.cycleIntervalSeconds := seconds;
     AssignmentEngineConfig.maxOrdersPerCycle :=
       AssignmentEngineConfig.maxOrdersPerCycle c;
     AssignmentEngineConfig.maxRidersPerAssignment :=
       AssignmentEngineConfig.maxRidersPerAssignment c;
     AssignmentEngineConfig.optimizerTimeoutSeconds :=
       AssignmentEngineConfig.optimizerTimeoutSeconds c;
     AssignmentEngineConfig.hungarianThreshold :=
       AssignmentEngineConfig.hungarianThreshold c;
     AssignmentEngineConfig.weights := AssignmentEngineConfig.weights c;
     AssignmentEngineConfig.candidateGeneration :=
       AssignmentEngineConfig.candidateGeneration c;
     AssignmentEngineConfig.batching := AssignmentEngineConfig.batching c;
     AssignmentEngineConfig.reassignment :=
       AssignmentEngineConfig.reassignment c;
     AssignmentEngineConfig.surge := AssignmentEngineConfig.surge c;
     AssignmentEngineConfig.eta := AssignmentEngineConfig.eta c;
     AssignmentEngineConfig.fatigue := AssignmentEngineConfig.fatigue c;
     AssignmentEngineConfig.sla := AssignmentEngineConfig.sla c |}.

Definition setSLARiskScale (scale : Q) (c : AssignmentEngineConfig.t)
  : AssignmentEngineConfig.t :=
  let s := AssignmentEngineConfig.sla c in
  {| AssignmentEngineConfig.cycleIntervalSeconds :=
       AssignmentEngineConfig.cycleIntervalSeconds c;
     AssignmentEngineConfig.maxOrdersPerCycle :=
       AssignmentEngineConfig.maxOrdersPerCycle c;
     AssignmentEngineConfig.maxRidersPerAssignment :=
       AssignmentEngineConfig.maxRidersPerAssignment c;
     AssignmentEngineConfig.optimizerTimeoutSeconds :=
       AssignmentEngineConfig.optimizerTimeoutSeconds c;
     AssignmentEngineConfig.hungarianThreshold :=
       AssignmentEngineConfig.hungarianThreshold c;
     AssignmentEngineConfig.weights := AssignmentEngineConfig.weights c;
     AssignmentEngineConfig.candidateGeneration :=
       AssignmentEngineConfig.candidateGeneration c;
     AssignmentEngineConfig.batching := AssignmentEngineConfig.batching c;
     AssignmentEngineConfig.reassignment :=
       AssignmentEngineConfig.reassignment c;
     AssignmentEngineConfig.surge := AssignmentEngineConfig.surge c;
     AssignmentEngineConfig.eta := AssignmentEngineConfig.eta c;
     AssignmentEngineConfig.fatigue := AssignmentEngineConfig.fatigue c;
     AssignmentEngineConfig.sla :=
       {| SLAConfig.nearBreachThresholdMinutes :=
            SLAConfig.nearBreachThresholdMinutes s;
          SLAConfig.breachEscalationAlertThresholdPct :=
            SLAConfig.breachEscalationAlertThresholdPct s;
          SLAConfig.slaRiskSigmoidScale := scale |} |}.

Definition setSurgeRatios (softRatio hardRatio crisisRatio : Q)
    (c : AssignmentEngineConfig.t) : AssignmentEngineConfig.t :=
  let s := AssignmentEngineConfig.surge c in
  {| AssignmentEngineConfig.cycleIntervalSeconds :=
       AssignmentEngineConfig.cycleIntervalSeconds c;
     AssignmentEngineConfig.maxOrdersPerCycle :=
       AssignmentEngineConfig.maxOrdersPerCycle c;
     AssignmentEngineConfig.maxRidersPerAssignment :=
       AssignmentEngineConfig.maxRidersPerAssignment c;
     AssignmentEngineConfig.optimizerTimeoutSeconds :=
       AssignmentEngineConfig.optimizerTimeoutSeconds c;
     AssignmentEngineConfig.hungarianThreshold :=
       AssignmentEngineConfig.hungarianThreshold c;
     AssignmentEngineConfig.weights := AssignmentEngineConfig.weights c;
     AssignmentEngineConfig.candidateGeneration :=
       AssignmentEngineConfig.candidateGeneration c;
     AssignmentEngineConfig.batching := AssignmentEngineConfig.batching c;
     AssignmentEngineConfig.reassignment :=
       AssignmentEngineConfig.reassignment c;
     AssignmentEngineConfig.surge :=
       {| SurgeConfig.softSurgeRatio := softRatio;
          SurgeConfig.hardSurgeRatio := hardRatio;
          SurgeConfig.crisisRatio := crisisRatio;
          SurgeConfig.prepositionLookbackMinutes :=
            SurgeConfig.prepositionLookbackMinutes s;
          SurgeConfig.batchSizeIncrement := SurgeConfig.batchSizeIncrement s;
          SurgeConfig.radiusExpansionFactor :=
            SurgeConfig.radiusExpansionFactor s |};
     AssignmentEngineConfig.eta := AssignmentEngineConfig.eta c;
     AssignmentEngineConfig.fatigue := AssignmentEngineConfig.fatigue c;
     AssignmentEngineConfig.sla := AssignmentEngineConfig.sla c |}.

Definition setMaxBatchSizes (batchSizes : VehicleType.t -> Q)
    (c : AssignmentEngineConfig.t) : AssignmentEngineConfig.t :=
  let b := AssignmentEngineConfig.batching c in
  {| AssignmentEngineConfig.cycleIntervalSeconds :=
       AssignmentEngineConfig.cycleIntervalSeconds c;
     AssignmentEngineConfig.maxOrdersPerCycle :=
       AssignmentEngineConfig.maxOrdersPerCycle c;
     AssignmentEngineConfig.maxRidersPerAssignment :=
       AssignmentEngineConfig.maxRidersPerAssignment c;
     AssignmentEngineConfig.optimizerTimeoutSeconds :=
       AssignmentEngineConfig.optimizerTimeoutSeconds c;
     AssignmentEngineConfig.hungarianThreshold :=
       AssignmentEngineConfig.hungarianThreshold c;
     AssignmentEngineConfig.weights := AssignmentEngineConfig.weights c;
     AssignmentEngineConfig.candidateGeneration :=
       AssignmentEngineConfig.candidateGeneration c;
     AssignmentEngineConfig.batching :=
       {| BatchingConfig.maxBatchSize := batchSizes;
          BatchingConfig.maxBatchDurationMinutes :=
            BatchingConfig.maxBatchDurationMinutes b;
          BatchingConfig.twoOptIterationLimit :=
            BatchingConfig.twoOptIterationLimit b |};
     AssignmentEngineConfig.reassignment :=
       AssignmentEngineConfig.reassignment c;
     AssignmentEngineConfig.surge := AssignmentEngineConfig.surge c;
     AssignmentEngineConfig.eta := AssignmentEngineConfig.eta c;
     AssignmentEngineConfig.fatigue := AssignmentEngineConfig.fatigue c;
     AssignmentEngineConfig.sla := AssignmentEngineConfig.sla c |}.

(** [Object.values(weights).reduce((a, b) => a + b, 0)]. *)
Definition weightSum (w : ScoringWeights.t) : Q :=
  fold_left Qplus
    [ ScoringWeights.w1_time w; ScoringWeights.w2_slaRisk w;
      ScoringWeights.w3_distance w; ScoringWeights.w4_batchDisruption w;
      ScoringWeights.w5_workload w; ScoringWeights.w6_affinity w ] 0%Q.

(** [build]: [None] when it throws.  The sum is exact here and rounded
    to double precision in the code, where six weights of magnitude at most
    1 add up to within 10^-14 of their exact sum: the two checks agree
    unless the exact sum is that close to 0.99 or to 1.01. *)
Definition build (c : AssignmentEngineConfig.t)
  : option AssignmentEngineConfig.t :=
  if Js.Qltb (1 # 100) (Qabs (weightSum (AssignmentEngineConfig.weights c) - 1))
  then None
  else Some c.

End ConfigurationBuilder.

Definition createDefaultConfig : option AssignmentEngineConfig.t :=
  ConfigurationBuilder.build (ConfigurationBuilder.new noOverrides).

(** [MARKET_CONFIGS]: each preset overrides the weights, and
    [surge_optimized] the surge section as well. *)
Module MARKET_CONFIGS.

Definition withOverrides (w : ScoringWeights.t) (s : option SurgeConfig.t)
  : PartialConfig :=
  {| cycleIntervalSeconds := None; maxOrdersPerCycle := None;
     maxRidersPerAssignment := None; optimizerTimeoutSeconds := None;
     hungarianThreshold := None; weights := Some w;
     candidateGeneration := None; batching := None; reassignment := None;
     surge := s; eta := None; fatigue := None; sla := None |}.

Definition bangalore_default : option AssignmentEngineConfig.t :=
  ConfigurationBuilder.build
    (ConfigurationBuilder.new
       (withOverrides
          {| ScoringWeights.w1_time := 30 # 100;
             ScoringWeights.w2_slaRisk := 35 # 100;
             ScoringWeights.w3_distance := 15 # 100;
             ScoringWeights.w4_batchDisruption := 12 # 100;
             ScoringWeights.w5_workload := 5 # 100;
             ScoringWeights.w6_affinity := 3 # 100 |} None)).

Definition high_sla_priority : option AssignmentEngineConfig.t :=
  ConfigurationBuilder.build
    (ConfigurationBuilder.new
       (withOverrides
          {| ScoringWeights.w1_time := 25 # 100;
             ScoringWeights.w2_slaRisk := 50 # 100;
             ScoringWeights.w3_distance := 10 # 100;
             ScoringWeights.w4_batchDisruption := 10 # 100;
             ScoringWeights.w5_workload := 5 # 100;
             ScoringWeights.w6_affinity := 0 |} None)).

Definition surge_optimized : option AssignmentEngineConfig.t :=
  ConfigurationBuilder.build
    (ConfigurationBuilder.new
       (withOverrides
          {| ScoringWeights.w1_time := 30 # 100;
             ScoringWeights.w2_slaRisk := 35 # 100;
             ScoringWeights.w3_distance := 15 # 100;
             ScoringWeights.w4_batchDisruption := 16 # 100;
             ScoringWeights.w5_workload := 2 # 100;
             ScoringWeights.w6_affinity := 2 # 100 |}
          (Some {| SurgeConfig.softSurgeRatio := 11 # 10;
                   SurgeConfig.hardSurgeRatio := 13 # 10;
                   SurgeConfig.crisisRatio := 18 # 10;
                   SurgeConfig.prepositionLookbackMinutes := 30;
                   SurgeConfig.batchSizeIncrement := 1;
                   SurgeConfig.radiusExpansionFactor := 15 # 10 |}))).

Definition cost_optimized : option AssignmentEngineConfig.t :=
  ConfigurationBuilder.build
    (ConfigurationBuilder.new
       (withOverrides
          {| ScoringWeights.w1_time := 25 # 100;
             ScoringWeights.w2_slaRisk := 25 # 100;
             ScoringWeights.w3_distance := 25 # 100;
             ScoringWeights.w4_batchDisruption := 15 # 100;
             ScoringWeights.w5_workload := 5 # 100;
             ScoringWeights.w6_affinity := 5 # 100 |} None)).

End MARKET_CONFIGS.

End Config.

(** ** src/engine/assignment-engine.ts

    The engine object is a record of its private fields; each method takes
    the engine and returns the new one.  [clock] is the reading of the wall
    clock ([new Date()], [Date.now()]), taken to stand still during a call.
    The surge state is written by [executeCycle] and read by nothing in it;
    it is left out. *)
Module AssignmentEngine.

(** The state the cycle computes with.  [reassignmentHistory],
    [lastCycleTimestamp] and [surgeState] are left out: the engine reads
    none of them.  (It writes one: every call of [executeCycle] stores the
    answer of [detectSurge] in [surgeState], line 77, before anything
    else.) *)
Record AssignmentEngineState := {
  orders : list (string * Order.t);
  riders : list (string * Rider.t);
  assignments : list (string * Assignment.t);
  cycleHistory : list AssignmentCycleResult.t;
}.

Record t := {
  config : AssignmentEngineConfig.t;
  state : AssignmentEngineState;
  riderLocations : list (string * Location.t);  (* of [candidateGenerator] *)
  etaModel : ETAModel.t;
  counters : ReassignmentEngine.Counters;             (* of [reassignmentEngine] *)
  cycleCount : Z;
}.

Definition new (cfg : AssignmentEngineConfig.t) : t :=
  {| config := cfg;
     state := {| orders := []; riders := []; assignments := [];
                 cycleHistory := [] |};
     riderLocations := [];
     etaModel := ETAModel.empty;
     counters := ReassignmentEngine.noCounters;
     cycleCount := 0 |}.

(** [order.status = 'assigned'; order.assignedRiderId = riderId;
    order.assignmentAttempts++]. *)
Definition assignOrder (riderId : string) (o : Order.t) : Order.t :=
  {| Order.orderId := Order.orderId o;
     Order.status := OrderStatus.assigned;
     Order.slaDeadline := Order.slaDeadline o;
     Order.pickup := Order.pickup o;
     Order.delivery := Order.delivery o;
     Order.payload := Order.payload o;
     Order.priority := Order.priority o;
     Order.assignmentAttempts := (Order.assignmentAttempts o + 1)%Z;
     Order.assignedRiderId := Some riderId |}.

(** [order.status = 'pending_assignment'; order.assignedRiderId = null]. *)
Definition releaseOrder (o : Order.t) : Order.t :=
  {| Order.orderId := Order.orderId o;
     Order.status := OrderStatus.pending_assignment;
     Order.slaDeadline := Order.slaDeadline o;
     Order.pickup := Order.pickup o;
     Order.delivery := Order.delivery o;
     Order.payload := Order.payload o;
     Order.priority := Order.priority o;
     Order.assignmentAttempts := Order.assignmentAttempts o;
     Order.assignedRiderId := None |}.

(** [rider.currentAssignments.push(orderId)]. *)
Definition pushAssignment (orderId : string) (r : Rider.t) : Rider.t :=
  {| Rider.riderId := Rider.riderId r;
     Rider.status := Rider.status r;
     Rider.location := Rider.location r;
     Rider.vehicle := Rider.vehicle r;
     Rider.shift := Rider.shift r;
     Rider.currentAssignments := Rider.currentAssignments r ++ [orderId];
     Rider.currentRoute := Rider.currentRoute r;
     Rider.load := Rider.load r;
     Rider.performance := Rider.performance r |}.

Definition isPending (o : Order.t) : bool :=
  OrderStatus.eqb (Order.status o) OrderStatus.pending_assignment.

Section Methods.
Context `{Platform}.

Definition updateState (engine : t)
    (newOrders : list (string * Order.t))
    (newRiders : list (string * Rider.t)) : t :=
  {| config := config engine;
     state := {| orders := newOrders; riders := newRiders;
                 assignments := assignments (state engine);
                 cycleHistory := cycleHistory (state engine) |};
     riderLocations := CandidateGenerator.updateRiderLocations newRiders;
     etaModel := etaModel engine;
     counters := counters engine;
     cycleCount := cycleCount engine |}.

Definition stage1CandidateGeneration (engine : t)
    (pending : list Order.t) (now : Z) : list (string * list string) :=
  fold_left
    (fun candidates order =>
       let result :=
         CandidateGenerator.generateCandidates
           (AssignmentEngineConfig.candidateGeneration (config engine))
           (AssignmentEngineConfig.fatigue (config engine))
           (riderLocations engine) order (riders (state engine)) now in
       Js.set (CandidateGenerationResult.orderId result)
              (CandidateGenerationResult.candidateRiderIds result)
              candidates)
    pending [].

Definition stage2Scoring (engine : t) (clock : Z)
    (pending : list Order.t) (candidates : list (string * list string))
    (now : Z) : list ScoringResult.t * ETAModel.t :=
  fold_left
    (fun acc order =>
       let candidateRiders :=
         default [] (Js.get (Order.orderId order) candidates) in
       fold_left
         (fun (acc : list ScoringResult.t * ETAModel.t) riderId =>
            match Js.get riderId (riders (state engine)) with
            | None => acc
            | Some rider =>
                let '(score, model) :=
                  Scorer.scoreAssignment
                    (AssignmentEngineConfig.eta (config engine))
                    (AssignmentEngineConfig.weights (config engine))
                    (SLAConfig.slaRiskSigmoidScale
                       (AssignmentEngineConfig.sla (config engine)))
                    (snd acc) clock order rider now in
                (fst acc ++ [score], model)
            end)
         candidateRiders acc)
    pending ([], etaModel engine).

(** The cost matrix of [stage3GlobalOptimization]. *)
Definition buildMatrix (scores : list ScoringResult.t)
  : Optimizers.AssignmentMatrix :=
  let orderIds := Js.dedup (map ScoringResult.orderId scores) in
  let riderIds := Js.dedup (map ScoringResult.riderId scores) in
  let blank :=
    repeat (repeat Optimizers.sentinel (length riderIds)) (length orderIds) in
  let costMatrix :=
    fold_left
      (fun (cm : list (list Q)) score =>
         match Js.indexOf (ScoringResult.orderId score) orderIds,
               Js.indexOf (ScoringResult.riderId score) riderIds with
         | Some orderIdx, Some riderIdx =>
             <[orderIdx := <[riderIdx := ScoringResult.cost score]>
                             (nth orderIdx cm [])]> cm
         | _, _ => cm
         end)
      scores blank in
  {| Optimizers.orders := orderIds;
     Optimizers.riders := riderIds;
     Optimizers.costMatrix := costMatrix |}.

Definition stage3GlobalOptimization (fuel : nat) (engine : t)
    (scores : list ScoringResult.t) : option (list (string * string)) :=
  option_map Optimizers.assignments
    (Optimizers.AdaptiveOptimizer.optimize fuel (buildMatrix scores)
       (AssignmentEngineConfig.hungarianThreshold (config engine))).

(** One iteration of the loop of [createAssignmentDecisions]. *)
Definition decide1
    (acc : list AssignmentDecision.t * list (string * Order.t)
           * list (string * Rider.t))
    (pair : string * string)
  : list AssignmentDecision.t * list (string * Order.t)
    * list (string * Rider.t) :=
  let '(decisions, os, rs) := acc in
  let '(orderId, riderId) := pair in
  match Js.get orderId os, Js.get riderId rs with
  | Some order, Some rider =>
      (decisions
         ++ [ {| AssignmentDecision.orderId := orderId;
                 AssignmentDecision.riderId := riderId;
                 AssignmentDecision.sequenceIndex :=
                   length (Rider.currentAssignments rider) |} ],
       Js.set orderId (assignOrder riderId order) os,
       Js.set riderId (pushAssignment orderId rider) rs)
  | _, _ => acc
  end.

Definition createAssignmentDecisions (os : list (string * Order.t))
    (rs : list (string * Rider.t)) (assigned : list (string * string))
  : list AssignmentDecision.t * list (string * Order.t)
    * list (string * Rider.t) :=
  fold_left decide1 assigned ([], os, rs).

(** One iteration of the loop of [handleReassignmentTrigger]. *)
Definition release1 (cfg : ReassignmentConfig.t) (clock : Z)
    (rs : list (string * Rider.t))
    (acc : list (string * Order.t) * ReassignmentEngine.Counters)
    (orderId : string) : list (string * Order.t) * ReassignmentEngine.Counters :=
  let '(os, cs) := acc in
  match Js.get orderId os with
  | None => acc
  | Some order =>
      if negb (ReassignmentEngine.canReassign cfg cs clock orderId) then acc
      else
        let suppressed :=
          match Js.get (default ""%string (Order.assignedRiderId order)) rs with
          | Some currentRider =>
              ReassignmentEngine.isReassignmentSuppressed cfg currentRider
                (OrderPickup.location (Order.pickup order))
          | None => false
          end in
        if suppressed then acc
        else (Js.set orderId (releaseOrder order) os,
              ReassignmentEngine.recordReassignment cs clock orderId)
  end.

Definition handleReassignmentTrigger (cfg : ReassignmentConfig.t)
    (clock : Z) (rs : list (string * Rider.t))
    (acc : list (string * Order.t) * ReassignmentEngine.Counters)
    (trigger : ReassignmentTrigger.t)
  : list (string * Order.t) * ReassignmentEngine.Counters :=
  fold_left (release1 cfg clock rs)
            (ReassignmentTrigger.affectedOrderIds trigger) acc.

(** Lines 247-250. *)
Definition calculateAverageCost (decisions : list AssignmentDecision.t) : Q :=
  if (length decisions =? 0)%nat then 0 else 1 # 2.

Definition calculateTotalSlaSlack (clock : Z) (os : list (string * Order.t))
    (decisions : list AssignmentDecision.t) : Q :=
  fold_left
    (fun total decision =>
       match Js.get (AssignmentDecision.orderId decision) os with
       | Some order =>
           let slack :=
             (inject_Z (Order.slaDeadline order - clock) / 60000)%Q in
           (total + slack)%Q
       | None => total
       end)
    decisions 0%Q.

Definition calculateRiderUtilization (rs : list (string * Rider.t))
  : list (string * Q) :=
  fold_left
    (fun utilization (ir : string * Rider.t) =>
       let totalCapacity := Vehicle.maxItems (Rider.vehicle (snd ir)) in
       let currentLoad := RiderLoad.itemCount (Rider.load (snd ir)) in
       Js.set (fst ir) (currentLoad / totalCapacity)%Q utilization)
    rs [].

(** [executeCycle]: the result and the engine after the cycle; [None]
    only when the exact solver does not finish within [fuel].  Lines
    66-77, which compute the surge state and store it, have no
    counterpart here: what they write is not part of the record. *)
Definition executeCycle (fuel : nat) (clock : Z) (engine : t)
  : option (AssignmentCycleResult.t * t) :=
  let cycleId := (clock, cycleCount engine) in
  let now := clock in
  let unassignedOrders :=
    List.filter isPending (Js.values (orders (state engine))) in
  if (length unassignedOrders =? 0)%nat then
    Some ({| AssignmentCycleResult.cycleId := cycleId;
             AssignmentCycleResult.timestamp := now;
             AssignmentCycleResult.decisions := [];
             AssignmentCycleResult.successCount := 0;
             AssignmentCycleResult.failureCount := 0;
             AssignmentCycleResult.metrics :=
               {| Metrics.avgCost := 0;
                  Metrics.totalSlaSlackMinutes := 0;
                  Metrics.riderUtilization := [] |} |}, engine)
  else
    let candidates := stage1CandidateGeneration engine unassignedOrders now in
    let '(scores, model) :=
      stage2Scoring engine clock unassignedOrders candidates now in
    match stage3GlobalOptimization fuel engine scores with
    | None => None
    | Some assigned =>
        let '(decisions, os, rs) :=
          createAssignmentDecisions (orders (state engine))
            (riders (state engine)) assigned in
        let cfg := AssignmentEngineConfig.reassignment (config engine) in
        let triggers :=
          ReassignmentEngine.detectTriggers cfg os rs
            (assignments (state engine)) now in
        let '(os, cs) :=
          fold_left (handleReassignmentTrigger cfg clock rs) triggers
                    (os, counters engine) in
        let result :=
          {| AssignmentCycleResult.cycleId := cycleId;
             AssignmentCycleResult.timestamp := now;
             AssignmentCycleResult.decisions := decisions;
             AssignmentCycleResult.successCount :=
               Z.of_nat (length decisions);
             AssignmentCycleResult.failureCount :=
               (Z.of_nat (length unassignedOrders)
                - Z.of_nat (length decisions))%Z;
             AssignmentCycleResult.metrics :=
               {| Metrics.avgCost := calculateAverageCost decisions;
                  Metrics.totalSlaSlackMinutes :=
                    calculateTotalSlaSlack clock os decisions;
                  Metrics.riderUtilization :=
                    calculateRiderUtilization rs |} |} in
        Some (result,
              {| config := config engine;
                 state := {| orders := os; riders := rs;
                             assignments := assignments (state engine);
                             cycleHistory :=
                               cycleHistory (state engine) ++ [result] |};
                 riderLocations := riderLocations engine;
                 etaModel := model;
                 counters := cs;
                 cycleCount := (cycleCount engine + 1)%Z |})
    end.
End Methods.
End AssignmentEngine.

(** * Reference notions and scenarios

    The notions the statements below are phrased with, and the concrete
    inputs they are evaluated at. *)
Module Scenarios.
Import Js Optimizers.

(** *** What an optimal answer is

    A one-to-one assignment pairs order indices with rider indices, no
    index twice; its cost is the sum of the matrix entries it uses. *)
Definition oneToOne (pairs : list (nat * nat)) : Prop :=
  NoDup (map fst pairs) /\ NoDup (map snd pairs).

Definition pairCost (mx : AssignmentMatrix) (pr : nat * nat) : Q :=
  default 0%Q (cell (costMatrix mx) (fst pr) (snd pr)).

Definition matchingCost (mx : AssignmentMatrix) (pairs : list (nat * nat)) : Q :=
  fold_right Qplus 0%Q (map (pairCost mx) pairs).

(** The pair [(orderId, riderId)] read back as matrix indices. *)
Definition indexPair (mx : AssignmentMatrix) (pr : string * string)
  : option (nat * nat) :=
  match indexOf (fst pr) (orders mx), indexOf (snd pr) (riders mx) with
  | Some i, Some j => Some (i, j)
  | _, _ => None
  end.

(** The matrix of the end-to-end scenario of the specification. *)
Definition threeByThree : AssignmentMatrix :=
  {| orders := ["ord_1"; "ord_2"; "ord_3"]%string;
     riders := ["rider_1"; "rider_2"; "rider_3"]%string;
     costMatrix := [ [5 # 10; 8 # 10; 7 # 10];
                     [6 # 10; 4 # 10; 5 # 10];
                     [9 # 10; 3 # 10; 6 # 10] ] |}.

(** Two orders, three riders, every pair feasible. *)
Definition twoByThree : AssignmentMatrix :=
  {| orders := ["ord_1"; "ord_2"]%string;
     riders := ["rider_1"; "rider_2"; "rider_3"]%string;
     costMatrix := [ [1 # 2; 1 # 2; 1 # 2];
                     [1 # 2; 1%Q; 1%Q] ] |}.

(** Three orders, three riders, as the cycle builds it: the first two
    orders are feasible with the first rider only, the third order with
    the other two riders. *)
Definition contended : AssignmentMatrix :=
  {| orders := ["ord_1"; "ord_2"; "ord_3"]%string;
     riders := ["rider_1"; "rider_2"; "rider_3"]%string;
     costMatrix := [ [1%Q; sentinel; sentinel];
                     [1%Q; sentinel; sentinel];
                     [sentinel; 1%Q; 1%Q] ] |}.

(** One order whose only pair is marked infeasible. *)
Definition allInfeasible : AssignmentMatrix :=
  {| orders := ["ord_1"]%string;
     riders := ["rider_1"]%string;
     costMatrix := [ [sentinel] ] |}.

(** *** A platform to evaluate on

    Planar distance on the degree grid, 111 km to the degree (like the
    great-circle distance it is 0 between coincident points, and along a
    meridian, where the scenarios place their points, the two agree to
    within 0.2 per cent), UTC hours, a polynomial in place of the
    exponential, and a constant random source. *)
Definition gridPlatform : Platform :=
  {| haversineDistance :=
       fun a b =>
         (111 * (Qabs (Location.lat a - Location.lat b)
                 + Qabs (Location.lng a - Location.lng b)))%Q;
     getHours := fun instant => ((instant / 3600000) mod 24)%Z;
     Math_exp := fun x => (1 + x + x * x / 2)%Q;
     Math_random := fun _ => 1 # 2 |}.

Definition depot : Location.t :=
  {| Location.lat := 129716 # 10000; Location.lng := 775946 # 10000 |}.

(** An order of 2 litres and one item, picked up and delivered at the
    depot. *)
Definition orderWith (id : string) (status : OrderStatus.t)
    (priority : OrderPriority.t) (deadline : Z) (weightKg : Q)
    (fragile cold : bool) (requirement : VehicleRequirement.t) : Order.t :=
  {| Order.orderId := id;
     Order.status := status;
     Order.slaDeadline := deadline;
     Order.pickup := {| OrderPickup.location := depot;
                        OrderPickup.estimatedPickupWaitMinutes := 5 |};
     Order.delivery := {| OrderDelivery.location := depot |};
     Order.payload := {| OrderPayload.weightKg := weightKg;
                         OrderPayload.volumeLiters := 2;
                         OrderPayload.itemCount := 1;
                         OrderPayload.requiresColdChain := cold;
                         OrderPayload.fragile := fragile;
                         OrderPayload.vehicleRequirement := requirement |};
     Order.priority := priority;
     Order.assignmentAttempts := 0;
     Order.assignedRiderId := None |}.

Definition hour : Z := 3600000.

(** A pending normal order of 1 kg for any vehicle, due one hour after
    instant 0. *)
Definition plainOrder (id : string) : Order.t :=
  orderWith id OrderStatus.pending_assignment OrderPriority.normal hour 1
            false false VehicleRequirement.any.

(** An active rider standing at the depot; the vehicle carries 20 l and
    5 items and has the [standard] capability only. *)
Definition riderWith (id : string) (vehicle : VehicleType.t) (maxWeightKg : Q)
    (scores : gmap string Q) : Rider.t :=
  {| Rider.riderId := id;
     Rider.status := RiderStatus.active;
     Rider.location := depot;
     Rider.vehicle := {| Vehicle.type := vehicle;
                         Vehicle.maxWeightKg := maxWeightKg;
                         Vehicle.maxVolumeLiters := 20;
                         Vehicle.maxItems := 5;
                         Vehicle.capabilities := [VehicleCapability.standard] |};
     Rider.shift := {| RiderShift.startTime := 0;
                       RiderShift.endTime := 8 * hour;
                       RiderShift.continuousDrivingMinutes := 30;
                       RiderShift.totalShiftDrivingMinutes := 120 |};
     Rider.currentAssignments := [];
     Rider.currentRoute := [];
     Rider.load := {| RiderLoad.weightKg := 0; RiderLoad.volumeLiters := 0;
                      RiderLoad.itemCount := 0 |};
     Rider.performance :=
       {| RiderPerformance.zoneFamiliarityScores := scores;
          RiderPerformance.avgDeliverySuccessRate := 95 # 100;
          RiderPerformance.avgSpeedMultiplier := 1;
          RiderPerformance.totalDeliveries := 100 |} |}.

(** A bike that carries 5 kg. *)
Definition bikeRider (id : string) (scores : gmap string Q) : Rider.t :=
  riderWith id VehicleType.bike 5 scores.

(** A fragile order, and one that needs the cold chain. *)
Definition fragileOrder (requirement : VehicleRequirement.t) : Order.t :=
  orderWith "fragile_order" OrderStatus.pending_assignment
            OrderPriority.normal hour 1 true false requirement.

Definition coldChainOrder (requirement : VehicleRequirement.t) : Order.t :=
  orderWith "cold_chain_order" OrderStatus.pending_assignment
            OrderPriority.normal hour 1 false true requirement.

(** Five orders of 1 kg, and two of 1000 kg, for one bike. *)
Definition fiveOrders : list Order.t :=
  map plainOrder ["ord_0"; "ord_1"; "ord_2"; "ord_3"; "ord_4"]%string.

Definition heavyOrders : list Order.t :=
  map (fun id => orderWith id OrderStatus.pending_assignment
                           OrderPriority.normal hour 1000 false false
                           VehicleRequirement.any)
      ["ord_0"; "ord_1"]%string.

(** *** Urgent orders and the assignments they disturb

    The two readings of the [high_priority_arrival] trigger are phrased
    with the same notions. *)
Section HighPriority.
Context `{Platform}.
Variable config : ReassignmentConfig.t.
Variable orders : list (string * Order.t).
Variable assignments : list (string * Assignment.t).
Variable riders : list (string * Rider.t).
Variable now : Z.

(** A critical order, or a high-priority order with no assignment,
    whose deadline is at most the cutoff away from [now]. *)
Definition urgent (order : Order.t) : Prop :=
  (Order.priority order = OrderPriority.critical
   \/ Order.priority order = OrderPriority.high
      /\ Js.get (Order.orderId order) assignments = None)
  /\ (Order.slaDeadline order
      <= Js.toDate
           (inject_Z now
            + ReassignmentConfig.triggerHighPrioritySlaCutoffMinutes config
              * 60 * 1000)%Q)%Z.

(** The assignment is for a known normal-priority order, and its known
    rider is less than 3 km from the pickup of [order]. *)
Definition disturbedBy (order : Order.t) (a : Assignment.t) : Prop :=
  exists assignedOrder rider,
    Js.get (Assignment.orderId a) orders = Some assignedOrder
    /\ Order.priority assignedOrder = OrderPriority.normal
    /\ Js.get (Assignment.riderId a) riders = Some rider
    /\ (haversineDistance (Rider.location rider)
          (OrderPickup.location (Order.pickup order)) < 3)%Q.

(** The reading of the specification: the nearby normal orders. *)
Definition nearbyNormalOrder (id : string) : Prop :=
  exists a order,
    In a (Js.values assignments) /\ Assignment.orderId a = id
    /\ In order (Js.values orders) /\ urgent order /\ disturbedBy order a.

(** The other reading: the urgent orders that have a normal order
    nearby. *)
Definition urgentOrderWithNeighbour (id : string) : Prop :=
  exists order a,
    In order (Js.values orders) /\ Order.orderId order = id
    /\ urgent order
    /\ In a (Js.values assignments) /\ disturbedBy order a.
End HighPriority.

(** A critical pending order at the depot, due in ten minutes, and a
    normal order assigned to a rider who stands at the depot. *)
Definition urgentState
  : list (string * Order.t) * list (string * Assignment.t)
    * list (string * Rider.t) :=
  ([ ("critical_1"%string,
      orderWith "critical_1" OrderStatus.pending_assignment
                OrderPriority.critical 600000 1 false false
                VehicleRequirement.any);
     ("normal_1"%string,
      orderWith "normal_1" OrderStatus.assigned OrderPriority.normal hour 1
                false false VehicleRequirement.any) ],
   [ ("normal_1"%string,
      {| Assignment.orderId := "normal_1"; Assignment.riderId := "rider_0";
         Assignment.assignedAt := 0;
         Assignment.estimatedDeliveryAt := 1800000 |}) ],
   [ ("rider_0"%string, bikeRider "rider_0" ∅) ]).

(** *** A cycle to run: two pending orders, one rider *)
Definition sampleEngine : AssignmentEngine.t :=
  AssignmentEngine.updateState
    (AssignmentEngine.new (Config.ConfigurationBuilder.new Config.noOverrides))
    [ ("ord_0"%string, plainOrder "ord_0");
      ("ord_1"%string, plainOrder "ord_1") ]
    [ ("rider_0"%string, bikeRider "rider_0" ∅) ].

(** The scorer costs of the pairs a cycle chose, read from the scores of
    stage 2, and their arithmetic mean. *)
Definition chosenCosts (scores : list ScoringResult.t)
    (decisions : list AssignmentDecision.t) : list Q :=
  omap (fun d =>
          option_map ScoringResult.cost
            (List.find
               (fun s =>
                  String.eqb (ScoringResult.orderId s)
                             (AssignmentDecision.orderId d)
                  && String.eqb (ScoringResult.riderId s)
                                (AssignmentDecision.riderId d))
               scores))
       decisions.

Definition mean (xs : list Q) : Q :=
  (fold_right Qplus 0 xs / inject_Z (Z.of_nat (length xs)))%Q.

(** A cycle with more demand than one rider can take: two orders of 4 kg,
    which only the bike can carry, and one order of 1 kg that asks for a
    car; the two cars carry 1 kg each. *)
Definition crowdedEngine : AssignmentEngine.t :=
  let heavy id :=
    orderWith id OrderStatus.pending_assignment OrderPriority.normal hour 4
              false false VehicleRequirement.any in
  AssignmentEngine.updateState
    (AssignmentEngine.new (Config.ConfigurationBuilder.new Config.noOverrides))
    [ ("ord_1"%string, heavy "ord_1"%string);
      ("ord_2"%string, heavy "ord_2"%string);
      ("ord_3"%string,
       orderWith "ord_3" OrderStatus.pending_assignment OrderPriority.normal
                 hour 1 false false VehicleRequirement.car) ]
    [ ("rider_1"%string, bikeRider "rider_1" ∅);
      ("rider_2"%string, riderWith "rider_2" VehicleType.car 1 ∅);
      ("rider_3"%string, riderWith "rider_3" VehicleType.car 1 ∅) ].

(** The pending orders, the candidates and the scores of the cycle that
    [sampleEngine] runs at instant 0 on the evaluation platform. *)
Definition samplePending : list Order.t :=
  List.filter AssignmentEngine.isPending
              (Js.values (AssignmentEngine.orders (AssignmentEngine.state sampleEngine))).

Definition sampleScores : list ScoringResult.t :=
  fst (AssignmentEngine.stage2Scoring (H := gridPlatform) sampleEngine 0 samplePending
         (AssignmentEngine.stage1CandidateGeneration (H := gridPlatform) sampleEngine
            samplePending 0) 0).

(** *** What a solver may return

    A map from order ids of the matrix to rider ids of the matrix, with
    one entry per key and at most [bound] entries. *)
Definition withinMatrix (mx : AssignmentMatrix) (bound : nat)
    (asg : list (string * string)) : Prop :=
  List.NoDup (keys asg)
  /\ (length asg <= bound)%nat
  /\ forall o r, In (o, r) asg -> In o (orders mx) /\ In r (riders mx).

(** An order is given the rider [choice] names for its row. *)
Definition rowChoice (mx : AssignmentMatrix) (choice : nat -> nat)
  : list (nat * nat) :=
  map (fun i => (i, choice i)) (seq 0 (length (orders mx))).

(** *** The nearest candidate

    What the loop of [findNearestLocation] holds after the candidates
    [pre]: nothing before the first candidate, then the first nearest
    candidate, its index and its distance. *)
Definition nearestSoFar `{Platform} (source : Location.t)
    (pre : list Location.t) (acc : option Q * nat * Location.t) : Prop :=
  match acc with
  | (None, _, _) => pre = []
  | (Some best, j, c) =>
      nth_error pre j = Some c
      /\ best = haversineDistance source c
      /\ (forall c', In c' pre -> (best <= haversineDistance source c')%Q)
      /\ (forall k c', (k < j)%nat -> nth_error pre k = Some c' ->
                       (best < haversineDistance source c')%Q)
  end.

(** A point one hundredth of a degree north of the depot. *)
Definition northOfDepot : Location.t :=
  {| Location.lat := 129816 # 10000; Location.lng := 775946 # 10000 |}.

(** Two more points north of the depot, for the radii of the default
    configuration (5, 10 and 20 km): on the grid platform the first is
    16.65 km away, within the maximal radius only, and the second 111 km
    away, out of range. *)
Definition outerRing : Location.t :=
  {| Location.lat := 131216 # 10000; Location.lng := 775946 # 10000 |}.

Definition outOfRange : Location.t :=
  {| Location.lat := 139716 # 10000; Location.lng := 775946 # 10000 |}.

(** *** Hard constraints

    The six checks of [runHardConstraints] taken together. *)
Definition passesEveryCheck `{Platform} (fatigueConfig : FatigueConfig.t)
    (order : Order.t) (rider : Rider.t) (now : Z) : bool :=
  CandidateGenerator.capacityCheck order rider
  && CandidateGenerator.vehicleCompatibilityCheck order rider
  && CandidateGenerator.shiftTimeCheck order rider now
  && CandidateGenerator.fatigueCheck fatigueConfig rider
  && CandidateGenerator.slaFeasibilityCheck order rider now
  && CandidateGenerator.riderStatusCheck rider.

(** Two riders, one at the depot and one a little north of it. *)
Definition twoRiders : list (string * Rider.t) :=
  [ ("rider_0"%string, bikeRider "rider_0" ∅);
    ("rider_1"%string,
     {| Rider.riderId := "rider_1";
        Rider.status := RiderStatus.offline;
        Rider.location := northOfDepot;
        Rider.vehicle := Rider.vehicle (bikeRider "rider_1" ∅);
        Rider.shift := Rider.shift (bikeRider "rider_1" ∅);
        Rider.currentAssignments := [];
        Rider.currentRoute := [];
        Rider.load := Rider.load (bikeRider "rider_1" ∅);
        Rider.performance := Rider.performance (bikeRider "rider_1" ∅) |}) ].

(** *** Riders that are gone

    The rider of the assignment is unknown to the engine or offline. *)
Definition riderGone (riders : list (string * Rider.t)) (a : Assignment.t)
  : Prop :=
  match Js.get (Assignment.riderId a) riders with
  | None => True
  | Some rider => Rider.status rider = RiderStatus.offline
  end.

(** [orderId] is recorded as reassigned once at each of [clocks]. *)
Definition recordAll (counters : ReassignmentEngine.Counters)
    (clocks : list Z) (orderId : string) : ReassignmentEngine.Counters :=
  fold_left (fun cs clock => ReassignmentEngine.recordReassignment cs clock orderId)
            clocks counters.

(** *** Surge levels, from calm to crisis *)
Definition surgeRank (level : SurgeLevel.t) : nat :=
  match level with
  | SurgeLevel.normal => 0
  | SurgeLevel.soft_surge => 1
  | SurgeLevel.hard_surge => 2
  | SurgeLevel.crisis => 3
  end.

(** The riders [calculatePrepositioningTargets] may move: active, with
    no assignment. *)
Definition idleRiders (riders : list (string * Rider.t)) : list Rider.t :=
  List.filter
    (fun r => RiderStatus.eqb (Rider.status r) RiderStatus.active
              && (length (Rider.currentAssignments r) =? 0)%nat)
    (Js.values riders).

(** An order delivered a degree north of the depot, then two orders
    delivered at the depot. *)
Definition threeOrders : list (string * Order.t) :=
  [ ("ord_1"%string,
     {| Order.orderId := "ord_1";
        Order.status := OrderStatus.pending_assignment;
        Order.slaDeadline := 2 * hour;
        Order.pickup := Order.pickup (plainOrder "ord_1");
        Order.delivery :=
          {| OrderDelivery.location :=
               {| Location.lat := 139716 # 10000;
                  Location.lng := 775946 # 10000 |} |};
        Order.payload := Order.payload (plainOrder "ord_1");
        Order.priority := OrderPriority.normal;
        Order.assignmentAttempts := 0;
        Order.assignedRiderId := None |});
    ("ord_0"%string, plainOrder "ord_0");
    ("ord_2"%string, plainOrder "ord_2") ].

(** *** Decisions

    The pair a decision stands for, and the pairs of a solver's answer
    whose order and rider are both known. *)
Definition decisionPair (d : AssignmentDecision.t) : string * string :=
  (AssignmentDecision.orderId d, AssignmentDecision.riderId d).

Definition knownPair (os : list (string * Order.t))
    (rs : list (string * Rider.t)) (pr : string * string) : bool :=
  Js.has (fst pr) os && Js.has (snd pr) rs.

(** The order of the decision is assigned to the rider of the decision. *)
Definition assignedAsDecided (os : list (string * Order.t))
    (d : AssignmentDecision.t) : Prop :=
  exists order,
    Js.get (AssignmentDecision.orderId d) os = Some order
    /\ Order.status order = OrderStatus.assigned
    /\ Order.assignedRiderId order = Some (AssignmentDecision.riderId d).

(** The order of the decision stands in the rider's list of current
    assignments at the position the decision names. *)
Definition queuedAsDecided (rs : list (string * Rider.t))
    (d : AssignmentDecision.t) : Prop :=
  exists rider,
    Js.get (AssignmentDecision.riderId d) rs = Some rider
    /\ nth_error (Rider.currentAssignments rider)
                 (AssignmentDecision.sequenceIndex d)
       = Some (AssignmentDecision.orderId d).

(** *** Reading a weight by its key *)
Definition weightOf (key : Config.ConfigurationBuilder.WeightKey)
    (w : ScoringWeights.t) : Q :=
  match key with
  | Config.ConfigurationBuilder.w1_time => ScoringWeights.w1_time w
  | Config.ConfigurationBuilder.w2_slaRisk => ScoringWeights.w2_slaRisk w
  | Config.ConfigurationBuilder.w3_distance => ScoringWeights.w3_distance w
  | Config.ConfigurationBuilder.w4_batchDisruption =>
      ScoringWeights.w4_batchDisruption w
  | Config.ConfigurationBuilder.w5_workload => ScoringWeights.w5_workload w
  | Config.ConfigurationBuilder.w6_affinity => ScoringWeights.w6_affinity w
  end.

(** *** Sequences of calls on an ETA model

    The public methods of [ETAModel] that change it, as data. *)
Inductive ETACall :=
| callEstimateETA (clock : Z) (origin destination : Location.t)
    (departureTime : Z) (rider buildingType : option string)
| callEstimateRouteETA (clock : Z) (locations : list Location.t)
    (startTime : Z) (rider : option string)
| callUpdateRiderModel (clock : Z) (rider : string)
    (actualDurationMinutes estimatedDurationMinutes : Q) (zone : string)
| callClearExpiredCache (clock : Z).

Definition runCall `{Platform} (config : ETAConfig.t) (model : ETAModel.t)
    (call : ETACall) : ETAModel.t :=
  match call with
  | callEstimateETA clock origin destination departureTime rider
                    buildingType =>
      snd (ETAModel.estimateETA config model clock origin destination
             departureTime rider buildingType)
  | callEstimateRouteETA clock locations startTime rider =>
      snd (ETAModel.estimateRouteETA config model clock locations startTime
             rider)
  | callUpdateRiderModel clock rider actual estimated zone =>
      ETAModel.updateRiderModel model clock rider actual estimated zone
  | callClearExpiredCache clock =>
      ETAModel.clearExpiredCache config model clock
  end.

(** The call is an [updateRiderModel] for [rider]. *)
Definition updatesRider (rider : string) (call : ETACall) : bool :=
  match call with
  | callUpdateRiderModel _ updated _ _ _ => String.eqb updated rider
  | _ => false
  end.

(** Weights of magnitude at most 1, for which the rounding of the sum in
    [build] stays far below [roundingMargin]. *)
Definition weightsWithinUnit (w : ScoringWeights.t) : Prop :=
  forall key, (Qabs (weightOf key w) <= 1)%Q.

Definition roundingMargin : Q := 1 # 1000000000.

End Scenarios.

(** * Properties *)

(** ** JavaScript idioms *)
Module JsFacts.
Import Js.

Lemma Qltb_lt (a b : Q) : Qltb a b = true <-> (a < b)%Q.
Proof.
  unfold Qltb. rewrite negb_true_iff. split.
  - intros H. apply Qnot_le_lt. intros Hle.
    apply Qle_bool_iff in Hle. congruence.
  - intros H. destruct (Qle_bool b a) eqn:E; [|reflexivity].
    apply Qle_bool_iff in E. exfalso. apply (Qlt_not_le _ _ H E).
Qed.

Lemma Qltb_ge (a b : Q) : Qltb a b = false <-> (b <= a)%Q.
Proof.
  unfold Qltb. rewrite negb_false_iff. apply Qle_bool_iff.
Qed.

Lemma includes_In (x : string) (s : list string) :
  includes x s = true <-> In x s.
Proof.
  unfold includes. rewrite existsb_exists. split.
  - intros (y & Hy & E). apply String.eqb_eq in E. now subst.
  - intros H. exists x. split; [assumption|apply String.eqb_refl].
Qed.

Lemma In_add (x y : string) (s : list string) :
  In y (add x s) <-> y = x \/ In y s.
Proof.
  unfold add. destruct (includes x s) eqn:E.
  - apply includes_In in E. split; [tauto|]. intros [->|H]; assumption.
  - rewrite in_app_iff. simpl. split; intros H; intuition.
Qed.

Lemma Qmin_le_l (a b : Q) : (Qmin a b <= a)%Q.
Proof.
  unfold Qmin. destruct (Qltb b a) eqn:E.
  - apply Qltb_lt in E. now apply Qlt_le_weak.
  - apply Qle_refl.
Qed.

Lemma Qmin_le_r (a b : Q) : (Qmin a b <= b)%Q.
Proof.
  unfold Qmin. destruct (Qltb b a) eqn:E.
  - apply Qle_refl.
  - now apply Qltb_ge in E.
Qed.

Lemma Qmin_glb (a b c : Q) : (c <= a)%Q -> (c <= b)%Q -> (c <= Qmin a b)%Q.
Proof. intros Ha Hb. unfold Qmin. now destruct (Qltb b a). Qed.

Lemma Qmax_le_l (a b : Q) : (a <= Qmax a b)%Q.
Proof.
  unfold Qmax. destruct (Qltb a b) eqn:E.
  - apply Qltb_lt in E. now apply Qlt_le_weak.
  - apply Qle_refl.
Qed.

Lemma Qmax_le_r (a b : Q) : (b <= Qmax a b)%Q.
Proof.
  unfold Qmax. destruct (Qltb a b) eqn:E.
  - apply Qle_refl.
  - now apply Qltb_ge in E.
Qed.

Lemma Qmax_lub (a b c : Q) : (a <= c)%Q -> (b <= c)%Q -> (Qmax a b <= c)%Q.
Proof. intros Ha Hb. unfold Qmax. now destruct (Qltb a b). Qed.

(** *** The [Map] model: reading back what was written *)

Lemma get_set_eq {V : Type} (k : string) (v : V) (m : list (string * V)) :
  get k (set k v m) = Some v.
Proof.
  induction m as [|[k' v'] m IH]; simpl.
  - now rewrite String.eqb_refl.
  - destruct (String.eqb k k') eqn:E; simpl.
    + now rewrite String.eqb_refl.
    + now rewrite E.
Qed.

Lemma get_set_ne {V : Type} (k k' : string) (v : V) (m : list (string * V)) :
  k <> k' -> get k (set k' v m) = get k m.
Proof.
  intros Hne. induction m as [|[k'' v''] m IH]; simpl.
  - apply String.eqb_neq in Hne. now rewrite Hne.
  - destruct (String.eqb k' k'') eqn:E; simpl.
    + apply String.eqb_eq in E. subst k''.
      apply String.eqb_neq in Hne. now rewrite Hne.
    + destruct (String.eqb k k''); [reflexivity|exact IH].
Qed.

Lemma get_Some_In {V : Type} (k : string) (v : V) (m : list (string * V)) :
  get k m = Some v -> In (k, v) m.
Proof.
  induction m as [|[k' v'] m IH]; simpl; [discriminate|].
  destruct (String.eqb k k') eqn:E.
  - apply String.eqb_eq in E. intros [= ->]. left. now subst.
  - intros Hg. right. now apply IH.
Qed.

Lemma get_None_keys {V : Type} (k : string) (m : list (string * V)) :
  get k m = None <-> ~ In k (keys m).
Proof.
  induction m as [|[k' v'] m IH]; simpl; [tauto|].
  destruct (String.eqb k k') eqn:E.
  - apply String.eqb_eq in E. subst. split; [discriminate|]. intros Hn.
    exfalso. apply Hn. now left.
  - apply String.eqb_neq in E. rewrite IH. split.
    + intros Hn [Heq|Hin]; [now subst|tauto].
    + tauto.
Qed.

Lemma In_get_NoDup {V : Type} (k : string) (v : V) (m : list (string * V)) :
  List.NoDup (keys m) -> In (k, v) m -> get k m = Some v.
Proof.
  induction m as [|[k' v'] m IH]; simpl; [tauto|].
  intros Hnd [Heq|Hin].
  - injection Heq as -> ->. now rewrite String.eqb_refl.
  - apply List.NoDup_cons_iff in Hnd as [Hnotin Hnd].
    destruct (String.eqb k k') eqn:E.
    + apply String.eqb_eq in E. subst k'. exfalso. apply Hnotin.
      apply (in_map fst) in Hin. exact Hin.
    + now apply IH.
Qed.

Lemma keys_set_present {V : Type} (k : string) (v : V) (m : list (string * V)) :
  In k (keys m) -> keys (set k v m) = keys m.
Proof.
  induction m as [|[k' v'] m IH]; simpl; [tauto|].
  intros Hin. destruct (String.eqb k k') eqn:E; simpl.
  - apply String.eqb_eq in E. now subst.
  - f_equal. apply IH. destruct Hin as [Heq|Hin]; [|exact Hin].
    apply String.eqb_neq in E. congruence.
Qed.

Lemma keys_set_absent {V : Type} (k : string) (v : V) (m : list (string * V)) :
  ~ In k (keys m) -> keys (set k v m) = keys m ++ [k].
Proof.
  induction m as [|[k' v'] m IH]; simpl; [reflexivity|].
  intros Hnot. destruct (String.eqb k k') eqn:E; simpl.
  - apply String.eqb_eq in E. subst. tauto.
  - f_equal. apply IH. tauto.
Qed.

Lemma In_keys_set {V : Type} (k k' : string) (v : V) (m : list (string * V)) :
  In k (keys (set k' v m)) <-> k = k' \/ In k (keys m).
Proof.
  destruct (in_dec String.string_dec k' (keys m)) as [Hin|Hnot].
  - rewrite keys_set_present by exact Hin. split; [tauto|].
    intros [->|H]; assumption.
  - rewrite keys_set_absent by exact Hnot. rewrite in_app_iff. simpl.
    split; intros H; intuition.
Qed.

Lemma NoDup_keys_set {V : Type} (k : string) (v : V) (m : list (string * V)) :
  List.NoDup (keys m) -> List.NoDup (keys (set k v m)).
Proof.
  intros Hnd. destruct (in_dec String.string_dec k (keys m)) as [Hin|Hnot].
  - now rewrite keys_set_present.
  - rewrite keys_set_absent by exact Hnot.
    apply List.NoDup_app; [exact Hnd| |].
    + apply List.NoDup_cons; [simpl; tauto|apply List.NoDup_nil].
    + intros x Hx [<-|[]]. tauto.
Qed.

Lemma In_set {V : Type} (k k' : string) (v v' : V) (m : list (string * V)) :
  In (k, v) (set k' v' m) -> (k, v) = (k', v') \/ In (k, v) m.
Proof.
  induction m as [|[k'' v''] m IH]; simpl.
  - intros [H|[]]; left; now symmetry.
  - destruct (String.eqb k' k''); simpl.
    + intros [H|H]; [left; now symmetry|right; now right].
    + intros [H|H]; [right; now left|].
      destruct (IH H); [now left|right; now right].
Qed.

Lemma length_set_le {V : Type} (k : string) (v : V) (m : list (string * V)) :
  (length (set k v m) <= S (length m))%nat.
Proof.
  induction m as [|[k' v'] m IH]; simpl; [lia|].
  destruct (String.eqb k k'); simpl; lia.
Qed.

(** *** [Set] and [indexOf] *)

Lemma NoDup_add (x : string) (s : list string) :
  List.NoDup s -> List.NoDup (add x s).
Proof.
  intros Hnd. unfold add. destruct (includes x s) eqn:E; [exact Hnd|].
  apply List.NoDup_app; [exact Hnd| |].
  - apply List.NoDup_cons; [simpl; tauto|apply List.NoDup_nil].
  - intros y Hy [<-|[]]. apply includes_In in Hy. congruence.
Qed.

Lemma dedup_spec (xs : list string) :
  List.NoDup (dedup xs) /\ forall x, In x (dedup xs) <-> In x xs.
Proof.
  unfold dedup.
  assert (G : forall acc, List.NoDup acc ->
            List.NoDup (fold_left (fun s x => add x s) xs acc)
            /\ forall x, In x (fold_left (fun s x => add x s) xs acc)
                         <-> In x acc \/ In x xs).
  { induction xs as [|y xs IH]; intros acc Hacc; simpl.
    - split; [exact Hacc|]. intros x. tauto.
    - destruct (IH (add y acc) (NoDup_add y acc Hacc)) as [Hnd Hin].
      split; [exact Hnd|]. intros x. rewrite Hin, In_add. intuition. }
  destruct (G [] (List.NoDup_nil _)) as [Hnd Hin].
  split; [exact Hnd|]. intros x. rewrite Hin. simpl. tauto.
Qed.

Lemma indexOf_Some (x : string) (xs : list string) (i : nat) :
  indexOf x xs = Some i -> nth_error xs i = Some x.
Proof.
  revert i. induction xs as [|y xs IH]; intros i; simpl; [discriminate|].
  destruct (String.eqb x y) eqn:E.
  - apply String.eqb_eq in E. intros [= <-]. now subst.
  - destruct (indexOf x xs) as [j|]; simpl; [|discriminate].
    intros [= <-]. simpl. now apply IH.
Qed.

Lemma indexOf_lt (x : string) (xs : list string) (i : nat) :
  indexOf x xs = Some i -> (i < length xs)%nat.
Proof.
  intros Hi. apply indexOf_Some in Hi. apply nth_error_Some. congruence.
Qed.

(** *** Loops *)

Lemma fold_left_preserves {A B : Type} (P : A -> Prop) (f : A -> B -> A)
    (l : list B) :
  (forall a b, In b l -> P a -> P (f a b)) ->
  forall a, P a -> P (fold_left f l a).
Proof.
  induction l as [|b l IH]; intros Hstep a Ha; [exact Ha|].
  simpl. apply IH.
  - intros a' b' Hin. apply Hstep. now right.
  - apply Hstep; [now left|exact Ha].
Qed.

Lemma In_combine_seq {A : Type} (l : list A) (a i : nat) (x : A) :
  In (i, x) (combine (seq a (length l)) l)
  <-> (a <= i)%nat /\ nth_error l (i - a) = Some x.
Proof.
  revert a. induction l as [|y l IH]; intros a; simpl.
  - split; [tauto|]. intros [_ H]. destruct (i - a)%nat; discriminate.
  - rewrite IH. split.
    + intros [[= <- <-]|[Hle Hn]].
      * split; [lia|]. now rewrite Nat.sub_diag.
      * split; [lia|]. replace (i - a)%nat with (S (i - S a)) by lia.
        exact Hn.
    + intros [Hle Hn]. destruct (i - a)%nat as [|k] eqn:E.
      * left. injection Hn as <-. f_equal. lia.
      * right. split; [lia|]. replace (i - S a)%nat with k by lia. exact Hn.
Qed.

Lemma sum_le_pointwise {A : Type} (f g : A -> Q) (l : list A) :
  (forall x, In x l -> (f x <= g x)%Q) ->
  (fold_right Qplus 0 (map f l) <= fold_right Qplus 0 (map g l))%Q.
Proof.
  induction l as [|x l IH]; intros Hle; simpl; [apply Qle_refl|].
  apply Qplus_le_compat.
  - apply Hle. now left.
  - apply IH. intros y Hy. apply Hle. now right.
Qed.

Lemma fold_left_Qplus (l : list Q) (a : Q) :
  (fold_left Qplus l a == a + fold_right Qplus 0 l)%Q.
Proof.
  revert a. induction l as [|x l IH]; intros a; simpl; [ring|].
  rewrite IH. ring.
Qed.

(** Array reads and the list lookup of stdpp. *)
Lemma nth_error_lookup {A : Type} (l : list A) (i : nat) :
  nth_error l i = l !! i.
Proof.
  revert i. induction l as [|x l IH]; intros [|i]; simpl; auto.
Qed.

End JsFacts.


(** ** The assignment solvers *)
Module OptimizersFacts.
Import Js Optimizers Optimizers.HungarianOptimizer Scenarios.

(** *** Fuel: a result, once reached, does not depend on the bound *)

Lemma search_fuel (fuel : nat) :
  forall n costs uu vv pp wy minv used j0 r fuel',
    search fuel n costs uu vv pp wy minv used j0 = Some r ->
    (fuel <= fuel')%nat ->
    search fuel' n costs uu vv pp wy minv used j0 = Some r.
Proof.
  induction fuel as [|fuel IH]; intros n costs uu vv pp wy minv used j0 r fuel' Hs Hle.
  - discriminate.
  - destruct fuel' as [|fuel']; [lia|].
    simpl in Hs. simpl.
    destruct (nat_at pp j0); [discriminate|].
    destruct (fold_left _ (seq 1 n) _) as [[[minv1 wy1] delta] j1].
    destruct (fold_left _ (seq 0 (n + 1)) _) as [[uu1 vv1] minv2].
    destruct (nat_at pp j1 =? 0)%nat; [assumption|].
    apply IH; [assumption|lia].
Qed.

Lemma augment_fuel (fuel : nat) :
  forall wy pp j0 r fuel',
    augment fuel wy pp j0 = Some r -> (fuel <= fuel')%nat ->
    augment fuel' wy pp j0 = Some r.
Proof.
  induction fuel as [|fuel IH]; intros wy pp j0 r fuel' Ha Hle.
  - discriminate.
  - destruct fuel' as [|fuel']; [lia|].
    simpl in Ha. simpl.
    destruct (nat_at wy j0 =? 0)%nat; [assumption|].
    apply IH; [assumption|lia].
Qed.

Lemma addRow_fuel (fuel fuel' n : nat) costs st i r :
  addRow fuel n costs st i = Some r -> (fuel <= fuel')%nat ->
  addRow fuel' n costs st i = Some r.
Proof.
  unfold addRow. intros Hr Hle. destruct st as [st|]; [|discriminate].
  destruct (search fuel _ _ _ _ _ _ _ _ _) as [[[[uu vv] wy] j0]|] eqn:Es;
    [|discriminate].
  rewrite (search_fuel _ _ _ _ _ _ _ _ _ _ _ _ Es Hle).
  destruct (augment fuel wy _ j0) as [pp|] eqn:Ea; [|discriminate].
  now rewrite (augment_fuel _ _ _ _ _ _ Ea Hle).
Qed.

Lemma addRow_None (fuel n : nat) costs rows :
  fold_left (addRow fuel n costs) rows None = None.
Proof. induction rows as [|i rows IH]; [reflexivity|exact IH]. Qed.

Lemma rows_fuel (fuel fuel' n : nat) costs rows :
  (fuel <= fuel')%nat ->
  forall st r,
    fold_left (addRow fuel n costs) rows st = Some r ->
    fold_left (addRow fuel' n costs) rows st = Some r.
Proof.
  intros Hle. induction rows as [|i rows IH]; intros st r Hr.
  - exact Hr.
  - simpl in Hr. simpl.
    destruct (addRow fuel n costs st i) as [st1|] eqn:E.
    + rewrite (addRow_fuel _ _ _ _ _ _ _ E Hle). now apply IH.
    + rewrite addRow_None in Hr. discriminate.
Qed.

Lemma hungarianAlgorithm_fuel (fuel fuel' : nat) costs r :
  hungarianAlgorithm fuel costs = Some r -> (fuel <= fuel')%nat ->
  hungarianAlgorithm fuel' costs = Some r.
Proof.
  unfold hungarianAlgorithm. intros Hr Hle.
  destruct (fold_left (addRow fuel _ _) _ _) as [st|] eqn:E; [|discriminate].
  now rewrite (rows_fuel _ _ _ _ _ Hle _ _ E).
Qed.

Lemma HungarianOptimizer_fuel (fuel fuel' : nat) mx r :
  HungarianOptimizer.optimize fuel mx = Some r -> (fuel <= fuel')%nat ->
  HungarianOptimizer.optimize fuel' mx = Some r.
Proof.
  unfold HungarianOptimizer.optimize. intros Hr Hle.
  destruct (padCostMatrix _ _ _ _) as [padded|]; [|discriminate].
  destruct (hungarianAlgorithm fuel padded) as [a|] eqn:E; [|discriminate].
  now rewrite (hungarianAlgorithm_fuel _ _ _ _ E Hle).
Qed.

Lemma AdaptiveOptimizer_fuel (fuel fuel' : nat) mx threshold r :
  AdaptiveOptimizer.optimize fuel mx threshold = Some r -> (fuel <= fuel')%nat ->
  AdaptiveOptimizer.optimize fuel' mx threshold = Some r.
Proof.
  unfold AdaptiveOptimizer.optimize. intros Hr Hle.
  destruct (Qle_bool _ threshold); [|exact Hr].
  exact (HungarianOptimizer_fuel _ _ _ _ Hr Hle).
Qed.

(** On the 3 x 3 scenario the exact solver returns the three pairs
    0-0, 1-2, 2-1, of total cost 1.3, and no permutation is cheaper. *)
Example hungarian_three_by_three :
  exists r,
    (forall fuel, (3 <= fuel)%nat ->
                  HungarianOptimizer.optimize fuel threeByThree = Some r)
    /\ assignments r = [ ("ord_1", "rider_1"); ("ord_2", "rider_3");
                         ("ord_3", "rider_2") ]%string
    /\ (totalCost r == 13 # 10)%Q
    /\ Forall (fun perm =>
                 (totalCost r
                  <= matchingCost threeByThree (combine (seq 0 3) perm))%Q)
              (permutations [0; 1; 2]%nat).
Proof.
  destruct (HungarianOptimizer.optimize 3 threeByThree) as [r|] eqn:E;
    [|vm_compute in E; discriminate].
  exists r. split.
  - intros fuel Hle. exact (HungarianOptimizer_fuel _ _ _ _ E Hle).
  - vm_compute in E. injection E as <-.
    split; [reflexivity|]. split; [reflexivity|].
    vm_compute. repeat constructor; discriminate.
Qed.

(** C1, at a matrix where the code departs from the claim.  On the
    2 x 3 matrix [[0.5, 0.5, 0.5], [0.5, 1, 1]] (problem size 6, below the
    threshold) the adaptive optimizer takes the exact path and returns
    ord_1 -> rider_2, ord_2 -> rider_3 with total cost 1.5, although the
    one-to-one assignment ord_1 -> rider_2, ord_2 -> rider_1 costs 1. *)
Theorem hungarian_misses_cheaper_assignment :
  exists r,
    (forall fuel, (4 <= fuel)%nat ->
                  AdaptiveOptimizer.optimize fuel twoByThree 10000 = Some r)
    /\ algorithm r = hungarian
    /\ assignments r = [ ("ord_1", "rider_2"); ("ord_2", "rider_3") ]%string
    /\ (totalCost r == 3 # 2)%Q
    /\ oneToOne [ (0, 1); (1, 0) ]%nat
    /\ (matchingCost twoByThree [ (0, 1); (1, 0) ]%nat == 1)%Q.
Proof.
  destruct (HungarianOptimizer.optimize 4 twoByThree) as [r|] eqn:E;
    [|vm_compute in E; discriminate].
  exists r. split.
  - intros fuel Hle. unfold AdaptiveOptimizer.optimize.
    change (Qle_bool _ 10000) with true. cbv iota.
    exact (HungarianOptimizer_fuel _ _ _ _ E Hle).
  - vm_compute in E. injection E as <-.
    split; [reflexivity|]. split; [reflexivity|]. split; [reflexivity|].
    split; [|reflexivity].
    split; simpl; repeat (apply NoDup_cons; split); try apply NoDup_nil;
      rewrite ?list_elem_of_In; simpl; intuition discriminate.
Qed.

(** C2, at matrices where the code departs from the claim.  On
    [contended] the exact solver pairs ord_2 with rider_2, an entry equal
    to the sentinel; on [allInfeasible] each of the three solvers pairs
    ord_1 with rider_1, the sentinel entry. *)
Theorem solvers_emit_sentinel_pairs :
  (exists r,
      (forall fuel, (3 <= fuel)%nat ->
                    HungarianOptimizer.optimize fuel contended = Some r)
      /\ In ("ord_2", "rider_2")%string (assignments r)
      /\ indexPair contended ("ord_2", "rider_2")%string = Some (1, 1)%nat
      /\ cell (costMatrix contended) 1 1 = Some sentinel)
  /\ (forall solve,
        In solve [ HungarianOptimizer.optimize 2;
                   AuctionOptimizer.optimize;
                   GreedyOptimizer.optimize ] ->
        exists r,
          solve allInfeasible = Some r
          /\ assignments r = [ ("ord_1", "rider_1") ]%string
          /\ cell (costMatrix allInfeasible) 0 0 = Some sentinel).
Proof.
  split.
  - destruct (HungarianOptimizer.optimize 3 contended) as [r|] eqn:E;
      [|vm_compute in E; discriminate].
    exists r. split.
    + intros fuel Hle. exact (HungarianOptimizer_fuel _ _ _ _ E Hle).
    + vm_compute in E. injection E as <-.
      split; [simpl; tauto|]. split; reflexivity.
  - intros solve [<-|[<-|[<-|[]]]]; eexists;
      (split; [vm_compute; reflexivity|split; reflexivity]).
Qed.

Import JsFacts.

(** *** The greedy solver *)

(** The loop of [cheapest] keeps the first smallest entry seen so far. *)
Lemma cheapest_loop (row : list Q) (len a : nat) (acc : nat * option Q) :
  (a = 0%nat /\ acc = (0%nat, None)
   \/ exists j, acc = (j, Some (qat row j)) /\ (j < a)%nat
        /\ (forall k, (k < a)%nat -> (qat row j <= qat row k)%Q)
        /\ (forall k, (k < j)%nat -> (qat row j < qat row k)%Q)) ->
  (0 < a + len)%nat ->
  exists j,
    fold_left (fun (acc : nat * option Q) riderIdx =>
                 let c := qat row riderIdx in
                 match snd acc with
                 | None => (riderIdx, Some c)
                 | Some best => if Qltb c best then (riderIdx, Some c) else acc
                 end) (seq a len) acc = (j, Some (qat row j))
    /\ (j < a + len)%nat
    /\ (forall k, (k < a + len)%nat -> (qat row j <= qat row k)%Q)
    /\ (forall k, (k < j)%nat -> (qat row j < qat row k)%Q).
Proof.
  revert a acc. induction len as [|len IH]; intros a acc Hacc Hpos.
  - destruct Hacc as [[-> _]|(j & -> & Hj & Hmin & Hfirst)]; [lia|].
    exists j. simpl. rewrite Nat.add_0_r. auto.
  - simpl. replace (a + S len)%nat with (S a + len)%nat by lia.
    apply IH; [|lia]. right.
    destruct Hacc as [[-> ->]|(j & -> & Hj & Hmin & Hfirst)]; simpl.
    + exists 0%nat. split; [reflexivity|]. split; [lia|]. split.
      * intros k Hk. replace k with 0%nat by lia. apply Qle_refl.
      * intros k Hk. lia.
    + destruct (Qltb (qat row a) (qat row j)) eqn:E.
      * apply Qltb_lt in E. exists a. split; [reflexivity|].
        split; [lia|]. split.
        -- intros k Hk. destruct (Nat.eq_dec k a) as [->|Hne];
             [apply Qle_refl|].
           apply Qle_trans with (qat row j);
             [now apply Qlt_le_weak|apply Hmin; lia].
        -- intros k Hk. apply Qlt_le_trans with (qat row j);
             [exact E|apply Hmin; exact Hk].
      * apply Qltb_ge in E. exists j. split; [reflexivity|].
        split; [lia|]. split; [|exact Hfirst].
        intros k Hk. destruct (Nat.eq_dec k a) as [->|Hne]; [exact E|].
        apply Hmin. lia.
Qed.

Lemma cheapest_spec (row : list Q) (m : nat) :
  (0 < m)%nat ->
  exists j,
    GreedyOptimizer.cheapest row m = (j, Some (qat row j))
    /\ (j < m)%nat
    /\ (forall k, (k < m)%nat -> (qat row j <= qat row k)%Q)
    /\ (forall k, (k < j)%nat -> (qat row j < qat row k)%Q).
Proof.
  intros Hm. unfold GreedyOptimizer.cheapest.
  apply (cheapest_loop row m 0 (0%nat, None)); [now left|lia].
Qed.

Lemma wellFormed_rows (mx : AssignmentMatrix) :
  wellFormed mx = true ->
  length (costMatrix mx) = length (orders mx)
  /\ forall i row, nth_error (costMatrix mx) i = Some row ->
                   length row = length (riders mx).
Proof.
  unfold wellFormed. intros Hwf. apply andb_true_iff in Hwf as [Hn Hrows].
  apply Nat.eqb_eq in Hn. split; [exact Hn|]. intros i row Hrow.
  rewrite forallb_forall in Hrows. apply Nat.eqb_eq. apply Hrows.
  eapply nth_error_In. exact Hrow.
Qed.

Lemma pairCost_in_range (mx : AssignmentMatrix) (i j : nat) :
  wellFormed mx = true ->
  (i < length (orders mx))%nat -> (j < length (riders mx))%nat ->
  pairCost mx (i, j) = qat (nth i (costMatrix mx) []) j.
Proof.
  intros Hwf Hi Hj. destruct (wellFormed_rows mx Hwf) as [Hn Hrows].
  unfold pairCost, cell. simpl.
  destruct (nth_error (costMatrix mx) i) as [row|] eqn:Hrow.
  - rewrite (nth_error_nth _ _ [] Hrow).
    specialize (Hrows _ _ Hrow).
    destruct (nth_error row j) as [c|] eqn:Hc.
    + unfold qat. now rewrite (nth_error_nth _ _ 0%Q Hc).
    + apply nth_error_None in Hc. lia.
  - apply nth_error_None in Hrow. lia.
Qed.

(** The loop of the greedy solver adds up one row minimum per order. *)
Lemma assignCheapest_loop (mx : AssignmentMatrix) (l : list nat) :
  (0 < length (riders mx))%nat ->
  (forall i, In i l -> (i < length (orders mx))%nat) ->
  forall asg tot,
  exists asg' tot',
    fold_left (GreedyOptimizer.assignCheapest mx (length (riders mx))) l
              (Some (asg, tot)) = Some (asg', tot')
    /\ (tot' == tot
          + fold_right Qplus 0
              (map (fun i =>
                      qat (nth i (costMatrix mx) [])
                          (fst (GreedyOptimizer.cheapest
                                  (nth i (costMatrix mx) [])
                                  (length (riders mx))))) l))%Q.
Proof.
  intros Hm. induction l as [|i l IH]; intros Hl asg tot; simpl.
  - exists asg, tot. split; [reflexivity|ring].
  - destruct (cheapest_spec (nth i (costMatrix mx) []) _ Hm)
      as (j & Hj & Hlt & _).
    rewrite Hj. simpl.
    destruct (nth_error (orders mx) i) as [o|] eqn:Ho.
    2:{ apply nth_error_None in Ho. specialize (Hl i (or_introl eq_refl)). lia. }
    destruct (nth_error (riders mx) j) as [r|] eqn:Hr.
    2:{ apply nth_error_None in Hr. lia. }
    destruct (IH (fun k Hk => Hl k (or_intror Hk)) (set o r asg)
                 (tot + qat (nth i (costMatrix mx) []) j)%Q)
      as (asg' & tot' & Hrun & Htot).
    exists asg', tot'. split; [exact Hrun|]. rewrite Htot. ring.
Qed.

(** *** What every solver returns *)

Lemma withinMatrix_set (mx : AssignmentMatrix) (bound : nat)
    (asg : list (string * string)) (o r : string) :
  withinMatrix mx bound asg -> In o (orders mx) -> In r (riders mx) ->
  withinMatrix mx (S bound) (set o r asg).
Proof.
  intros (Hnd & Hlen & Hin) Ho Hr. split; [|split].
  - now apply NoDup_keys_set.
  - pose proof (length_set_le o r asg). lia.
  - intros o' r' H'. apply In_set in H' as [[= -> ->]|H']; [now split|].
    now apply Hin.
Qed.

Lemma withinMatrix_weaken (mx : AssignmentMatrix) (bound bound' : nat)
    (asg : list (string * string)) :
  withinMatrix mx bound asg -> (bound <= bound')%nat ->
  withinMatrix mx bound' asg.
Proof. intros (Hnd & Hlen & Hin) Hle. split; [|split]; [assumption|lia|assumption]. Qed.

Lemma emit_None (mx : AssignmentMatrix) (m : nat)
    (l : list (nat * option nat)) :
  fold_left (emit mx m) l None = None.
Proof. induction l as [|pr l IH]; [reflexivity|exact IH]. Qed.

Lemma emit_loop (mx : AssignmentMatrix) (m : nat)
    (l : list (nat * option nat)) :
  forall bound asg tot asg' tot',
    withinMatrix mx bound asg ->
    fold_left (emit mx m) l (Some (asg, tot)) = Some (asg', tot') ->
    withinMatrix mx (bound + length l) asg'.
Proof.
  induction l as [|[orderIdx [riderIdx|]] l IH];
    intros bound asg tot asg' tot' Hacc Hrun; simpl in Hrun.
  - injection Hrun as <- <-. simpl. now rewrite Nat.add_0_r.
  - simpl length. replace (bound + S (length l))%nat
      with (S bound + length l)%nat by lia.
    destruct (riderIdx <? m)%nat.
    + destruct (nth_error (orders mx) orderIdx) as [o|] eqn:Ho;
        [|now rewrite emit_None in Hrun].
      destruct (nth_error (riders mx) riderIdx) as [r|] eqn:Hr;
        [|now rewrite emit_None in Hrun].
      destruct (cell (costMatrix mx) orderIdx riderIdx) as [c|];
        [|now rewrite emit_None in Hrun].
      eapply IH; [|exact Hrun].
      apply withinMatrix_set; [exact Hacc| |]; eapply nth_error_In; eassumption.
    + eapply IH; [|exact Hrun]. eapply withinMatrix_weaken; [exact Hacc|lia].
  - simpl length. replace (bound + S (length l))%nat
      with (S bound + length l)%nat by lia.
    eapply IH; [|exact Hrun].
    eapply withinMatrix_weaken; [exact Hacc|lia].
Qed.

Lemma assignCheapest_None (mx : AssignmentMatrix) (m : nat) (l : list nat) :
  fold_left (GreedyOptimizer.assignCheapest mx m) l None = None.
Proof. induction l as [|i l IH]; [reflexivity|exact IH]. Qed.

Lemma assignCheapest_within (mx : AssignmentMatrix) (m : nat) (l : list nat) :
  forall bound asg tot asg' tot',
    withinMatrix mx bound asg ->
    fold_left (GreedyOptimizer.assignCheapest mx m) l (Some (asg, tot))
    = Some (asg', tot') ->
    withinMatrix mx (bound + length l) asg'.
Proof.
  induction l as [|i l IH]; intros bound asg tot asg' tot' Hacc Hrun;
    simpl in Hrun.
  - injection Hrun as <- <-. simpl. now rewrite Nat.add_0_r.
  - simpl length. replace (bound + S (length l))%nat
      with (S bound + length l)%nat by lia.
    destruct (GreedyOptimizer.cheapest (nth i (costMatrix mx) []) m)
      as [bestRider [bestCost|]];
      [|now rewrite assignCheapest_None in Hrun].
    destruct (nth_error (orders mx) i) as [o|] eqn:Ho;
      [|now rewrite assignCheapest_None in Hrun].
    destruct (nth_error (riders mx) bestRider) as [r|] eqn:Hr;
      [|now rewrite assignCheapest_None in Hrun].
    eapply IH; [|exact Hrun].
    apply withinMatrix_set; [exact Hacc| |]; eapply nth_error_In; eassumption.
Qed.

Lemma withinMatrix_nil (mx : AssignmentMatrix) : withinMatrix mx 0 [].
Proof.
  split; [apply List.NoDup_nil|]. split; [simpl; lia|]. intros o r [].
Qed.

Lemma hungarian_within (fuel : nat) (mx : AssignmentMatrix)
    (r : OptimizationResult) :
  HungarianOptimizer.optimize fuel mx = Some r ->
  withinMatrix mx (length (orders mx)) (assignments r).
Proof.
  intros Hrun. unfold HungarianOptimizer.optimize in Hrun.
  destruct (padCostMatrix _ _ _ _) as [padded|]; [|discriminate].
  destruct (hungarianAlgorithm fuel padded) as [assignment|]; [|discriminate].
  destruct (fold_left _ _ _) as [[asg tot]|] eqn:Hfold; [|discriminate].
  injection Hrun as <-. simpl.
  eapply withinMatrix_weaken.
  - eapply emit_loop; [apply withinMatrix_nil|exact Hfold].
  - rewrite length_combine, length_seq. simpl. lia.
Qed.

Lemma auction_within (mx : AssignmentMatrix) (r : OptimizationResult) :
  AuctionOptimizer.optimize mx = Some r ->
  withinMatrix mx (length (orders mx)) (assignments r).
Proof.
  intros Hrun. unfold AuctionOptimizer.optimize in Hrun.
  destruct (negb (wellFormed mx)); [discriminate|].
  destruct (fold_left _ _ _) as [[asg tot]|] eqn:Hfold; [|discriminate].
  injection Hrun as <-. simpl.
  eapply withinMatrix_weaken.
  - eapply emit_loop; [apply withinMatrix_nil|exact Hfold].
  - rewrite length_combine, length_seq. simpl. lia.
Qed.

Lemma greedy_within (mx : AssignmentMatrix) (r : OptimizationResult) :
  GreedyOptimizer.optimize mx = Some r ->
  withinMatrix mx (length (orders mx)) (assignments r).
Proof.
  intros Hrun. unfold GreedyOptimizer.optimize in Hrun.
  destruct (negb (wellFormed mx)); [discriminate|].
  destruct (fold_left _ _ _) as [[asg tot]|] eqn:Hfold; [|discriminate].
  injection Hrun as <-. simpl.
  eapply withinMatrix_weaken.
  - eapply assignCheapest_within; [apply withinMatrix_nil|exact Hfold].
  - rewrite length_seq. simpl. lia.
Qed.

Lemma adaptive_within (fuel : nat) (mx : AssignmentMatrix) (threshold : Q)
    (r : OptimizationResult) :
  AdaptiveOptimizer.optimize fuel mx threshold = Some r ->
  withinMatrix mx (length (orders mx)) (assignments r).
Proof.
  unfold AdaptiveOptimizer.optimize.
  destruct (Qle_bool _ threshold); [apply hungarian_within|].
  destruct (Qle_bool _ 50000); [apply auction_within|apply greedy_within].
Qed.

(** On a well-formed matrix the output loop never fails. *)
Lemma emit_total (mx : AssignmentMatrix) (l : list (nat * option nat)) :
  wellFormed mx = true ->
  (forall pr, In pr l -> (fst pr < length (orders mx))%nat) ->
  forall acc, exists acc',
    fold_left (emit mx (length (riders mx))) l (Some acc) = Some acc'.
Proof.
  intros Hwf. destruct (wellFormed_rows mx Hwf) as [Hn Hrows].
  induction l as [|[orderIdx [riderIdx|]] l IH]; intros Hl [asg tot].
  - now exists (asg, tot).
  - cbn [fold_left emit].
    destruct (riderIdx <? length (riders mx))%nat eqn:E;
      [|apply IH; intros pr Hpr; apply Hl; now right].
    apply Nat.ltb_lt in E.
    pose proof (Hl _ (or_introl eq_refl)) as Hi. cbn [fst] in Hi.
    destruct (nth_error (orders mx) orderIdx) as [o|] eqn:Ho;
      [|apply nth_error_None in Ho; lia].
    destruct (nth_error (riders mx) riderIdx) as [r|] eqn:Hr;
      [|apply nth_error_None in Hr; lia].
    unfold cell.
    destruct (nth_error (costMatrix mx) orderIdx) as [row|] eqn:Hrow;
      [|apply nth_error_None in Hrow; lia].
    destruct (nth_error row riderIdx) as [c|] eqn:Hc;
      [|apply nth_error_None in Hc; rewrite (Hrows _ _ Hrow) in Hc; lia].
    apply IH. intros pr Hpr. apply Hl. now right.
  - cbn [fold_left emit]. apply IH. intros pr Hpr. apply Hl. now right.
Qed.

Lemma auction_answers (mx : AssignmentMatrix) :
  wellFormed mx = true ->
  exists r, AuctionOptimizer.optimize mx = Some r.
Proof.
  intros Hwf. unfold AuctionOptimizer.optimize. rewrite Hwf. cbn [negb].
  destruct (emit_total mx
              (combine (seq 0 (length (orders mx)))
                 (AuctionOptimizer.rounds AuctionOptimizer.maxIterations
                    (costMatrix mx) (length (riders mx))
                    (seq 0 (length (orders mx)))
                    (repeat None (length (orders mx)))
                    (repeat (AuctionOptimizer.Fin 0) (length (riders mx)))))
              Hwf) with (acc := ([] : list (string * string), 0%Q))
    as [[asg tot] Hrun].
  - intros [i riderIdx] Hin. apply in_combine_l in Hin.
    apply in_seq in Hin. cbn [fst]. lia.
  - rewrite Hrun. eauto.
Qed.

Lemma greedy_answers (mx : AssignmentMatrix) :
  wellFormed mx = true ->
  (0 < length (riders mx))%nat \/ orders mx = [] ->
  exists r, GreedyOptimizer.optimize mx = Some r.
Proof.
  intros Hwf Hriders. unfold GreedyOptimizer.optimize. rewrite Hwf.
  cbn [negb]. destruct Hriders as [Hm|Hnone].
  - destruct (assignCheapest_loop mx (seq 0 (length (orders mx))) Hm
                (fun i Hi => proj2 (proj1 (in_seq _ _ _) Hi)) [] 0%Q)
      as (asg & tot & Hrun & _).
    rewrite Hrun. eauto.
  - rewrite Hnone. cbn [length seq fold_left]. eauto.
Qed.

Lemma collect_total {A B} (f : A -> option B) (l : list A) :
  (forall x, In x l -> exists y, f x = Some y) ->
  exists ys, collect f l = Some ys.
Proof.
  induction l as [|x l IH]; intros Hf; [now exists []|].
  destruct (Hf x (or_introl eq_refl)) as [y Hy].
  destruct (IH (fun z Hz => Hf z (or_intror Hz))) as [ys Hys].
  exists (y :: ys). cbn [collect]. now rewrite Hy, Hys.
Qed.

Lemma padCostMatrix_total (mx : AssignmentMatrix) (maxDim : nat) :
  wellFormed mx = true ->
  exists padded,
    padCostMatrix (costMatrix mx) (length (orders mx)) (length (riders mx))
                  maxDim = Some padded.
Proof.
  intros Hwf. destruct (wellFormed_rows mx Hwf) as [Hn Hrows].
  unfold padCostMatrix. apply collect_total. intros i _.
  apply collect_total. intros j _.
  destruct ((i <? length (orders mx))%nat && (j <? length (riders mx))%nat)
    eqn:E; [|eauto].
  apply andb_true_iff in E as [Hi Hj].
  apply Nat.ltb_lt in Hi, Hj. unfold cell.
  destruct (nth_error (costMatrix mx) i) as [row|] eqn:Hrow;
    [|apply nth_error_None in Hrow; lia].
  destruct (nth_error row j) as [c|] eqn:Hc; [eauto|].
  apply nth_error_None in Hc. rewrite (Hrows _ _ Hrow) in Hc. lia.
Qed.

(** On a well-formed matrix the exact solver gives no result only when
    [hungarianAlgorithm] gives none. *)
Lemma hungarian_None (fuel : nat) (mx : AssignmentMatrix) :
  wellFormed mx = true ->
  HungarianOptimizer.optimize fuel mx = None ->
  exists padded,
    padCostMatrix (costMatrix mx) (length (orders mx)) (length (riders mx))
                  (Nat.max (length (orders mx)) (length (riders mx)))
    = Some padded
    /\ hungarianAlgorithm fuel padded = None.
Proof.
  intros Hwf Hrun. unfold HungarianOptimizer.optimize in Hrun.
  destruct (padCostMatrix_total mx
              (Nat.max (length (orders mx)) (length (riders mx))) Hwf)
    as [padded Hpad].
  rewrite Hpad in Hrun. exists padded. split; [exact Hpad|].
  destruct (hungarianAlgorithm fuel padded) as [assignment|]; [|reflexivity].
  destruct (emit_total mx
              (combine (seq 0 (length (orders mx)))
                       (firstn (length (orders mx)) assignment)) Hwf)
    with (acc := ([] : list (string * string), 0%Q)) as [[asg tot] Hemit].
  - intros [i riderIdx] Hin. apply in_combine_l in Hin.
    apply in_seq in Hin. cbn [fst]. lia.
  - rewrite Hemit in Hrun. discriminate.
Qed.

(** X1.  On a well-formed matrix a result is a map from order ids of the
    matrix to rider ids of the matrix: no id is invented, no order has two
    riders, and there are at most as many pairs as orders.  This holds of
    every result of the exact solver and of the adaptive dispatcher, of
    the result the auction solver always gives, and of the result the
    greedy solver gives when there is a rider to choose from or no order
    at all.  (With orders and no rider the greedy solver pairs every order
    with [undefined]; the dispatcher never hands it such a matrix, for it
    gives no result only when the exact solver gives none, which in turn
    happens only when the loops of [hungarianAlgorithm] give none.) *)
Theorem solver_results_stay_within_the_matrix (fuel : nat)
    (mx : AssignmentMatrix) (threshold : Q) :
  wellFormed mx = true ->
  let within r := withinMatrix mx (length (orders mx)) (assignments r) in
  (forall r, HungarianOptimizer.optimize fuel mx = Some r -> within r)
  /\ (exists r, AuctionOptimizer.optimize mx = Some r /\ within r)
  /\ ((0 < length (riders mx))%nat \/ orders mx = [] ->
      exists r, GreedyOptimizer.optimize mx = Some r /\ within r)
  /\ (forall r,
        AdaptiveOptimizer.optimize fuel mx threshold = Some r -> within r)
  /\ (AdaptiveOptimizer.optimize fuel mx threshold = None ->
      HungarianOptimizer.optimize fuel mx = None)
  /\ (HungarianOptimizer.optimize fuel mx = None ->
      exists padded,
        HungarianOptimizer.padCostMatrix (costMatrix mx)
          (length (orders mx)) (length (riders mx))
          (Nat.max (length (orders mx)) (length (riders mx)))
        = Some padded
        /\ HungarianOptimizer.hungarianAlgorithm fuel padded = None).
Proof.
  intros Hwf within. subst within. cbv beta.
  split; [intros r; apply hungarian_within|].
  split.
  { destruct (auction_answers mx Hwf) as [r Hr].
    exists r. split; [exact Hr|exact (auction_within _ _ Hr)]. }
  split.
  { intros Hriders. destruct (greedy_answers mx Hwf Hriders) as [r Hr].
    exists r. split; [exact Hr|exact (greedy_within _ _ Hr)]. }
  split; [intros r; apply adaptive_within|].
  split; [|apply hungarian_None; exact Hwf].
  unfold AdaptiveOptimizer.optimize.
  destruct (Qle_bool _ threshold); [tauto|].
  destruct (Qle_bool _ 50000) eqn:Esize.
  - destruct (auction_answers mx Hwf) as [r ->]. discriminate.
  - destruct (greedy_answers mx Hwf) as [r ->]; [|discriminate].
    left. destruct (length (riders mx)); [|lia].
    rewrite Nat.mul_0_r in Esize. discriminate.
Qed.

Lemma solver_results_stay_within_the_matrix_witness :
  (exists r,
      HungarianOptimizer.optimize 3 threeByThree = Some r
      /\ withinMatrix threeByThree 3 (assignments r))
  /\ (exists r,
        GreedyOptimizer.optimize twoByThree = Some r
        /\ withinMatrix twoByThree 2 (assignments r)).
Proof.
  split.
  - destruct (HungarianOptimizer.optimize 3 threeByThree) as [r|] eqn:E;
      [|vm_compute in E; discriminate].
    exists r. split; [reflexivity|].
    refine (proj1 (solver_results_stay_within_the_matrix 3 threeByThree 10000
                     _) r E).
    reflexivity.
  - refine (proj1 (proj2 (proj2 (solver_results_stay_within_the_matrix
                                   3 twoByThree 10000 _))) _).
    + reflexivity.
    + left. simpl. lia.
Defined.

(** X2.  With a rider to choose from, the greedy solver answers every
    well-formed matrix, and its total is the sum of the row minima: it is
    the cost of a choice of one rider per order, and no such choice,
    one-to-one or not, is cheaper. *)
Theorem greedy_total_is_the_sum_of_row_minima (mx : AssignmentMatrix) :
  wellFormed mx = true ->
  (0 < length (riders mx))%nat ->
  exists r best,
    GreedyOptimizer.optimize mx = Some r
    /\ (forall i, (i < length (orders mx))%nat ->
                  (best i < length (riders mx))%nat)
    /\ (totalCost r == matchingCost mx (rowChoice mx best))%Q
    /\ forall choice,
         (forall i, (i < length (orders mx))%nat ->
                    (choice i < length (riders mx))%nat) ->
         (totalCost r <= matchingCost mx (rowChoice mx choice))%Q.
Proof.
  intros Hwf Hm.
  set (best := fun i => fst (GreedyOptimizer.cheapest
                               (nth i (costMatrix mx) [])
                               (length (riders mx)))).
  assert (Hbest : forall i, (best i < length (riders mx))%nat
            /\ forall k, (k < length (riders mx))%nat ->
                 (qat (nth i (costMatrix mx) []) (best i)
                  <= qat (nth i (costMatrix mx) []) k)%Q).
  { intros i. unfold best.
    destruct (cheapest_spec (nth i (costMatrix mx) []) _ Hm)
      as (j & -> & Hj & Hmin & _). simpl. split; assumption. }
  destruct (assignCheapest_loop mx (seq 0 (length (orders mx))) Hm
              (fun i Hi => proj2 (proj1 (in_seq _ _ _) Hi)) [] 0%Q)
    as (asg & tot & Hrun & Htot).
  assert (Hcost : forall choice,
            (forall i, (i < length (orders mx))%nat ->
                       (choice i < length (riders mx))%nat) ->
            matchingCost mx (rowChoice mx choice)
            = fold_right Qplus 0%Q
                (map (fun i => qat (nth i (costMatrix mx) []) (choice i))
                     (seq 0 (length (orders mx))))).
  { intros choice Hchoice. unfold matchingCost, rowChoice.
    rewrite map_map. f_equal. apply map_ext_in. intros i Hi.
    apply in_seq in Hi. apply pairCost_in_range; [exact Hwf|lia|].
    apply Hchoice. lia. }
  exists {| assignments := asg; totalCost := tot; algorithm := greedy |}, best.
  split.
  { unfold GreedyOptimizer.optimize. rewrite Hwf. simpl. now rewrite Hrun. }
  split; [intros i _; apply Hbest|]. simpl. split.
  - rewrite Hcost by (intros i _; apply Hbest). rewrite Htot.
    rewrite Qplus_0_l. reflexivity.
  - intros choice Hchoice. rewrite (Hcost choice Hchoice), Htot.
    rewrite Qplus_0_l. apply sum_le_pointwise. intros i Hi.
    apply in_seq in Hi. apply Hbest. apply Hchoice. lia.
Qed.

Lemma greedy_total_is_the_sum_of_row_minima_witness :
  exists r best,
    GreedyOptimizer.optimize twoByThree = Some r
    /\ (forall i, (i < 2)%nat -> (best i < 3)%nat)
    /\ (totalCost r == matchingCost twoByThree (rowChoice twoByThree best))%Q
    /\ forall choice,
         (forall i, (i < 2)%nat -> (choice i < 3)%nat) ->
         (totalCost r <= matchingCost twoByThree (rowChoice twoByThree choice))%Q.
Proof.
  apply (greedy_total_is_the_sum_of_row_minima twoByThree).
  - reflexivity.
  - simpl. lia.
Defined.
(** *** The auction solver *)

(** The bids of a round name every rider at most once. *)
Lemma placeBid_keys (costs : list (list Q)) (m : nat)
    (prices : list AuctionOptimizer.num)
    (bids : list (nat * (nat * AuctionOptimizer.num))) (orderIdx : nat) :
  List.NoDup (map fst bids) ->
  List.NoDup (map fst (AuctionOptimizer.placeBid costs m prices bids orderIdx)).
Proof.
  intros Hnd. unfold AuctionOptimizer.placeBid.
  destruct (fold_left _ (seq 0 m) (0%nat, AuctionOptimizer.NegInf))
    as [bestRider bestValue].
  match goal with
  | |- context [AuctionOptimizer.nadd ?a ?b] =>
      generalize (AuctionOptimizer.nadd a b)
  end.
  intros bidAmount.
  match goal with
  | |- context [match _ with Some _ => _ | None => ?w bids end] =>
      set (write := w)
  end.
  assert (Hwrite : forall bs,
            map fst (write bs)
            = if existsb (fun b => (fst b =? bestRider)%nat) bs
              then map fst bs else map fst bs ++ [bestRider]).
  { induction bs as [|[r ob] bs IH]; [reflexivity|].
    simpl. destruct (r =? bestRider)%nat eqn:E; simpl.
    - reflexivity.
    - rewrite IH. now destruct (existsb _ bs). }
  assert (Hkeys : List.NoDup (map fst (write bids))).
  { rewrite Hwrite.
    destruct (existsb _ bids) eqn:E; [exact Hnd|].
    apply List.NoDup_app; [exact Hnd| |].
    - apply List.NoDup_cons; [simpl; tauto|apply List.NoDup_nil].
    - intros x Hx [<-|[]]. apply in_map_iff in Hx as ([r ob] & Hr & Hin).
      simpl in Hr. subst r.
      assert (existsb (fun b => (fst b =? bestRider)%nat) bids = true).
      { apply existsb_exists. eexists. split; [exact Hin|].
        simpl. apply Nat.eqb_refl. }
      congruence. }
  destruct (List.find _ bids) as [[r [o currentBid]]|]; [|exact Hkeys].
  destruct (AuctionOptimizer.ngtb bidAmount currentBid); assumption.
Qed.

Lemma bids_keys (costs : list (list Q)) (m : nat)
    (prices : list AuctionOptimizer.num) (unassigned : list nat) :
  List.NoDup
    (map fst (fold_left (AuctionOptimizer.placeBid costs m prices)
                        unassigned [])).
Proof.
  apply (fold_left_preserves (fun bids => List.NoDup (map fst bids))).
  - intros bids o _. apply placeBid_keys.
  - apply List.NoDup_nil.
Qed.

(** A rider whom no order holds has no holder. *)
Lemma holder_None (assigned : list (option nat)) (riderIdx : nat) :
  (forall i, nth_error assigned i <> Some (Some riderIdx)) ->
  AuctionOptimizer.holder assigned riderIdx = None.
Proof.
  intros Hfree. unfold AuctionOptimizer.holder.
  destruct (List.find _ _) as [[i x]|] eqn:Hfind; [|reflexivity].
  apply find_some in Hfind as [Hin Hx]. simpl in Hx.
  apply In_combine_seq in Hin as [_ Hn]. rewrite Nat.sub_0_r in Hn.
  destruct x as [r|]; [|discriminate]. apply Nat.eqb_eq in Hx. subst r.
  now apply Hfree in Hn.
Qed.

(** Applying the bids of the first round returns no order to the queue. *)
Lemma award_loop (bids : list (nat * (nat * AuctionOptimizer.num))) :
  List.NoDup (map fst bids) ->
  forall assigned prices,
    (forall i r, nth_error assigned i = Some (Some r) ->
                 ~ In r (map fst bids)) ->
    fst (fst (fold_left AuctionOptimizer.award bids ([], assigned, prices)))
    = [].
Proof.
  induction bids as [|[riderIdx [orderIdx bid]] bids IH];
    intros Hnd assigned prices Hfree; [reflexivity|].
  simpl in Hnd. apply List.NoDup_cons_iff in Hnd as [Hnotin Hnd].
  cbn [fold_left AuctionOptimizer.award].
  rewrite holder_None.
  2:{ intros i Hi. apply (Hfree i riderIdx Hi). now left. }
  apply IH; [exact Hnd|].
  intros i r Hi Hin. rewrite nth_error_lookup in Hi.
  assert (Hold : forall k, assigned !! k = Some (Some r) -> False).
  { intros k Hk. rewrite <- nth_error_lookup in Hk.
    apply (Hfree _ _ Hk). now right. }
  destruct (Nat.eq_dec i orderIdx) as [->|Hne].
  - destruct (Nat.lt_ge_cases orderIdx (length assigned)) as [Hlt|Hge].
    + rewrite list_lookup_insert_eq in Hi by exact Hlt.
      injection Hi as <-. contradiction.
    + rewrite list_insert_ge in Hi by exact Hge. exact (Hold _ Hi).
  - rewrite list_lookup_insert_ne in Hi by congruence. exact (Hold _ Hi).
Qed.

(** X3.  The auction never runs a second round: after the first round of
    bids the queue of unassigned orders is empty, so the orders that were
    outbid stay without a rider whatever [maxIterations] is. *)
Theorem auction_stops_after_one_round (iterations : nat)
    (costs : list (list Q)) (m n : nat)
    (unassigned : list nat) (prices : list AuctionOptimizer.num) :
  AuctionOptimizer.rounds (S iterations) costs m unassigned (repeat None n)
                          prices
  = AuctionOptimizer.rounds 1 costs m unassigned (repeat None n) prices.
Proof.
  destruct unassigned as [|o unassigned]; [reflexivity|].
  cbn [AuctionOptimizer.rounds].
  pose proof (award_loop _ (bids_keys costs m prices (o :: unassigned))
                (repeat None n) prices) as Hqueue.
  destruct (fold_left AuctionOptimizer.award _ _) as [[queue assigned] prices'].
  simpl in Hqueue. rewrite Hqueue.
  - now destruct iterations.
  - intros i r Hi. apply nth_error_In in Hi. apply repeat_spec in Hi.
    discriminate.
Qed.

End OptimizersFacts.

(** ** Geospatial helpers *)
Module GeoFacts.
Import Js JsFacts Geo Scenarios.

Section Primitives.
Context `{Platform}.

Lemma findRidersWithinRadius_In (targetLocation : Location.t)
    (riderLocations : list (string * Location.t)) (radiusKm : Q)
    (id : string) :
  In id (findRidersWithinRadius targetLocation riderLocations radiusKm)
  <-> exists loc, In (id, loc) riderLocations
        /\ (haversineDistance targetLocation loc <= radiusKm)%Q.
Proof.
  unfold findRidersWithinRadius. rewrite in_map_iff. split.
  - intros ([id' loc] & <- & Hin). apply filter_In in Hin as [Hin Hle].
    exists loc. split; [exact Hin|]. now apply Qle_bool_iff.
  - intros (loc & Hin & Hle). exists (id, loc). split; [reflexivity|].
    apply filter_In. split; [exact Hin|]. now apply Qle_bool_iff.
Qed.

Lemma findRidersWithinRadius_sublist (targetLocation : Location.t)
    (riderLocations : list (string * Location.t)) (r1 r2 : Q) :
  (r1 <= r2)%Q ->
  sublist (findRidersWithinRadius targetLocation riderLocations r1)
          (findRidersWithinRadius targetLocation riderLocations r2).
Proof.
  intros Hle. unfold findRidersWithinRadius.
  induction riderLocations as [|[id loc] l IH]; simpl; [constructor|].
  destruct (Qle_bool (haversineDistance targetLocation loc) r1) eqn:E1.
  - apply Qle_bool_iff in E1.
    assert (E2 : Qle_bool (haversineDistance targetLocation loc) r2 = true).
    { apply Qle_bool_iff. now apply Qle_trans with r1. }
    rewrite E2. simpl. now constructor.
  - destruct (Qle_bool (haversineDistance targetLocation loc) r2); simpl;
      [now constructor|exact IH].
Qed.

Lemma findRidersWithinRadius_none (targetLocation : Location.t)
    (riderLocations : list (string * Location.t)) (r1 r2 : Q) :
  (r1 <= r2)%Q ->
  findRidersWithinRadius targetLocation riderLocations r2 = [] ->
  findRidersWithinRadius targetLocation riderLocations r1 = [].
Proof.
  intros Hle Hnone.
  pose proof (findRidersWithinRadius_sublist targetLocation riderLocations
                _ _ Hle) as Hsub.
  rewrite Hnone in Hsub. now apply sublist_nil_r in Hsub.
Qed.

(** X4.  A larger radius never loses a rider: the riders found within
    [r1] are, in the same order, among those found within [r2]. *)
Theorem wider_radius_keeps_every_rider (targetLocation : Location.t)
    (riderLocations : list (string * Location.t)) (r1 r2 : Q) :
  (r1 <= r2)%Q ->
  sublist (findRidersWithinRadius targetLocation riderLocations r1)
          (findRidersWithinRadius targetLocation riderLocations r2)
  /\ forall id,
       In id (findRidersWithinRadius targetLocation riderLocations r2)
       <-> exists loc, In (id, loc) riderLocations
             /\ (haversineDistance targetLocation loc <= r2)%Q.
Proof.
  intros Hle. split.
  - now apply findRidersWithinRadius_sublist.
  - intros id. apply findRidersWithinRadius_In.
Qed.

(** What the loop of [findNearestLocation] has found after the
    candidates [pre]. *)
Lemma nearer_loop (source : Location.t) (l : list Location.t) :
  forall (pre : list Location.t) (acc : option Q * nat * Location.t),
    nearestSoFar source pre acc ->
    nearestSoFar source (pre ++ l)
      (fold_left (nearer source)
                 (combine (seq (length pre) (length l)) l) acc).
Proof.
  induction l as [|x l IH]; intros pre acc Hacc.
  - simpl. now rewrite app_nil_r.
  - cbn [length seq combine fold_left].
    replace (pre ++ x :: l) with ((pre ++ [x]) ++ l)
      by now rewrite <- app_assoc.
    replace (S (length pre)) with (length (pre ++ [x]))
      by (rewrite length_app; simpl; lia).
    apply IH. clear IH.
    destruct acc as [[[best|] j] c]; unfold nearer; cbn [fst snd].
    + destruct Hacc as (Hj & -> & Hmin & Hfirst).
      destruct (Qltb (haversineDistance source x) (haversineDistance source c))
        eqn:E.
      * apply Qltb_lt in E. split; [|split; [reflexivity|split]].
        -- rewrite nth_error_app2 by lia. now rewrite Nat.sub_diag.
        -- intros c' Hc'. apply in_app_iff in Hc' as [Hc'|[<-|[]]];
             [|apply Qle_refl].
           apply Qle_trans with (haversineDistance source c);
             [now apply Qlt_le_weak|now apply Hmin].
        -- intros k c' Hk Hc'. rewrite nth_error_app1 in Hc' by exact Hk.
           apply Qlt_le_trans with (haversineDistance source c); [exact E|].
           apply Hmin. eapply nth_error_In. exact Hc'.
      * apply Qltb_ge in E. split; [|split; [reflexivity|split]].
        -- rewrite nth_error_app1; [exact Hj|].
           apply nth_error_Some. congruence.
        -- intros c' Hc'. apply in_app_iff in Hc' as [Hc'|[<-|[]]];
             [now apply Hmin|exact E].
        -- intros k c' Hk Hc'.
           assert (k < length pre)%nat.
           { assert (j < length pre)%nat
               by (apply nth_error_Some; congruence). lia. }
           rewrite nth_error_app1 in Hc' by assumption.
           now apply (Hfirst k).
    + simpl in Hacc. subst pre. simpl.
      split; [reflexivity|split; [reflexivity|split]].
      * intros c' [<-|[]]. apply Qle_refl.
      * intros k c' Hk. lia.
Qed.


(** With a non-negative distance and a positive zone radius, the
    zone proximity is a score between 0 and 1: 0 beyond the radius, 1 at
    distance 0, and never larger for a point that is farther away. *)
Theorem zone_proximity_is_a_score (loc1 loc2 loc3 : Location.t)
    (zoneRadiusKm : Q) :
  (0 < zoneRadiusKm)%Q ->
  (0 <= haversineDistance loc1 loc2)%Q ->
  (haversineDistance loc1 loc2 <= haversineDistance loc1 loc3)%Q ->
  (0 <= calculateZoneProximity loc1 loc2 zoneRadiusKm <= 1)%Q
  /\ ((zoneRadiusKm < haversineDistance loc1 loc2)%Q ->
      calculateZoneProximity loc1 loc2 zoneRadiusKm = 0%Q)
  /\ (haversineDistance loc1 loc2 == 0 ->
      calculateZoneProximity loc1 loc2 zoneRadiusKm == 1)%Q
  /\ (calculateZoneProximity loc1 loc3 zoneRadiusKm
      <= calculateZoneProximity loc1 loc2 zoneRadiusKm)%Q.
Proof.
  intros HR Hd Hfar.
  assert (Hscore : forall loc, (0 <= haversineDistance loc1 loc)%Q ->
            (0 <= calculateZoneProximity loc1 loc zoneRadiusKm <= 1)%Q).
  { intros loc Hloc. unfold calculateZoneProximity.
    destruct (Qltb zoneRadiusKm (haversineDistance loc1 loc)) eqn:E.
    - split; discriminate.
    - apply Qltb_ge in E.
      assert (0 <= haversineDistance loc1 loc / zoneRadiusKm <= 1)%Q.
      { split.
        - apply Qle_shift_div_l; [exact HR|]. now rewrite Qmult_0_l.
        - apply Qle_shift_div_r; [exact HR|]. now rewrite Qmult_1_l. }
      split; lra. }
  split; [now apply Hscore|]. split; [|split].
  - intros Hout. unfold calculateZoneProximity.
    apply Qltb_lt in Hout. now rewrite Hout.
  - intros Hzero. unfold calculateZoneProximity.
    destruct (Qltb zoneRadiusKm (haversineDistance loc1 loc2)) eqn:E.
    + apply Qltb_lt in E. rewrite Hzero in E. lra.
    + rewrite Hzero. field. lra.
  - unfold calculateZoneProximity at 1.
    destruct (Qltb zoneRadiusKm (haversineDistance loc1 loc3)) eqn:E3.
    + now apply Hscore.
    + apply Qltb_ge in E3. unfold calculateZoneProximity.
      destruct (Qltb zoneRadiusKm (haversineDistance loc1 loc2)) eqn:E2.
      * apply Qltb_lt in E2. lra.
      * assert (haversineDistance loc1 loc2 / zoneRadiusKm
                <= haversineDistance loc1 loc3 / zoneRadiusKm)%Q.
        { unfold Qdiv. apply Qmult_le_compat_r; [exact Hfar|].
          apply Qlt_le_weak. now apply Qinv_lt_0_compat. }
        lra.
Qed.

(** The estimated travel time is a whole number of minutes that is
    never negative, and 0 between coincident points. *)
Theorem travel_time_is_not_negative (origin destination : Location.t)
    (averageSpeedKmh trafficFactor : Q) :
  (0 <= haversineDistance origin destination)%Q ->
  (0 < averageSpeedKmh)%Q -> (0 <= trafficFactor)%Q ->
  (0 <= estimateTravelTime origin destination averageSpeedKmh trafficFactor)%Z
  /\ ((haversineDistance origin destination == 0)%Q ->
      estimateTravelTime origin destination averageSpeedKmh trafficFactor
      = 0%Z).
Proof.
  intros Hd Hs Ht. unfold estimateTravelTime, round. split.
  - change 0%Z with (Qfloor 0). apply Qfloor_resp_le.
    assert (0 <= haversineDistance origin destination / averageSpeedKmh)%Q.
    { apply Qle_shift_div_l; [exact Hs|]. now rewrite Qmult_0_l. }
    assert (0 <= haversineDistance origin destination / averageSpeedKmh * 60
                 * trafficFactor)%Q.
    { apply Qmult_le_0_compat; [|exact Ht].
      apply Qmult_le_0_compat; [assumption|discriminate]. }
    lra.
  - intros Hzero.
    assert (Hx : (haversineDistance origin destination / averageSpeedKmh * 60
                  * trafficFactor + (1 # 2) == 1 # 2)%Q).
    { rewrite Hzero. field. lra. }
    rewrite Hx. reflexivity.
Qed.

End Primitives.

Lemma wider_radius_keeps_every_rider_witness :
  sublist (findRidersWithinRadius (H := gridPlatform) depot
             [("rider_0"%string, depot); ("rider_1"%string, northOfDepot)] 1)
          (findRidersWithinRadius (H := gridPlatform) depot
             [("rider_0"%string, depot); ("rider_1"%string, northOfDepot)] 5).
Proof.
  apply (wider_radius_keeps_every_rider (H := gridPlatform) depot
           [("rider_0"%string, depot); ("rider_1"%string, northOfDepot)] 1 5).
  discriminate.
Defined.



Lemma zone_proximity_is_a_score_witness :
  (0 <= calculateZoneProximity (H := gridPlatform) depot depot 5 <= 1)%Q.
Proof.
  apply (zone_proximity_is_a_score (H := gridPlatform) depot depot
           northOfDepot 5).
  - reflexivity.
  - vm_compute. discriminate.
  - vm_compute. discriminate.
Defined.

Lemma travel_time_is_not_negative_witness :
  (0 <= estimateTravelTime (H := gridPlatform) depot northOfDepot 25 (12 # 10))%Z.
Proof.
  apply (travel_time_is_not_negative (H := gridPlatform) depot northOfDepot
           25 (12 # 10)).
  - vm_compute. discriminate.
  - reflexivity.
  - discriminate.
Defined.

End GeoFacts.

(** ** Candidate generation *)
Module CandidateGeneratorFacts.
Import CandidateGenerator Scenarios.

(** The vehicle check is decided by [vehicleRequirement] alone: the
    tests on [fragile] and [requiresColdChain] come after a [return] for
    every value the requirement can take. *)
Lemma vehicleCompatibilityCheck_by_requirement (order : Order.t)
    (rider : Rider.t) :
  vehicleCompatibilityCheck order rider =
  match OrderPayload.vehicleRequirement (Order.payload order) with
  | VehicleRequirement.any => true
  | VehicleRequirement.refrigerated =>
      VehicleCapability.includes VehicleCapability.cold_chain
        (Vehicle.capabilities (Rider.vehicle rider))
  | requirement =>
      VehicleType.matches (Vehicle.type (Rider.vehicle rider)) requirement
  end.
Proof.
  unfold vehicleCompatibilityCheck.
  destruct (OrderPayload.vehicleRequirement (Order.payload order));
    reflexivity.
Qed.

(** [vehicle_incompatible] is among the failures exactly when the vehicle
    check fails. *)
Lemma vehicle_incompatible_iff `{Platform} (fatigueConfig : FatigueConfig.t)
    (order : Order.t) (rider : Rider.t) (now : Z) :
  In "vehicle_incompatible"%string
     (failedConstraints (runHardConstraints fatigueConfig order rider now))
  <-> vehicleCompatibilityCheck order rider = false.
Proof.
  unfold runHardConstraints. cbn [failedConstraints].
  destruct (capacityCheck order rider),
           (vehicleCompatibilityCheck order rider),
           (shiftTimeCheck order rider now),
           (fatigueCheck fatigueConfig rider),
           (slaFeasibilityCheck order rider now),
           (riderStatusCheck rider);
    simpl; split; intros Hx; try reflexivity; try discriminate;
    intuition discriminate.
Qed.

(** C3, at orders where the code departs from the claim.  A fragile
    order (and likewise a cold-chain order) whose [vehicleRequirement] is
    [any], or [bike] for a bike rider, passes the vehicle check of a rider
    whose only capability is [standard]: [vehicle_incompatible] is not
    among the recorded failures. *)
Theorem fragile_payload_not_checked `{Platform}
    (fatigueConfig : FatigueConfig.t) (now : Z) :
  let rider := bikeRider "rider_0" ∅ in
  Forall
    (fun order =>
       (OrderPayload.fragile (Order.payload order)
        && negb (VehicleCapability.includes VehicleCapability.fragile
                   (Vehicle.capabilities (Rider.vehicle rider)))
        || OrderPayload.requiresColdChain (Order.payload order)
           && negb (VehicleCapability.includes VehicleCapability.cold_chain
                      (Vehicle.capabilities (Rider.vehicle rider)))) = true
       /\ vehicleCompatibilityCheck order rider = true
       /\ ~ In "vehicle_incompatible"%string
            (failedConstraints
               (runHardConstraints fatigueConfig order rider now)))
    [ fragileOrder VehicleRequirement.any;
      fragileOrder VehicleRequirement.bike;
      coldChainOrder VehicleRequirement.any;
      coldChainOrder VehicleRequirement.bike ].
Proof.
  intros rider.
  repeat constructor; try reflexivity;
    rewrite vehicle_incompatible_iff; discriminate.
Qed.

(** The same order goes through [generateCandidates] on the evaluation
    platform: the rider without the [fragile] capability is returned as a
    candidate. *)
Example fragile_order_gets_standard_rider :
  let rider := bikeRider "rider_0" ∅ in
  let riders := [("rider_0"%string, rider)] in
  generateCandidates (H := gridPlatform)
    Config.DEFAULT_CANDIDATE_GENERATION_CONFIG Config.DEFAULT_FATIGUE_CONFIG
    (updateRiderLocations riders) (fragileOrder VehicleRequirement.any)
    riders 0
  = {| CandidateGenerationResult.orderId := "fragile_order";
       CandidateGenerationResult.candidateRiderIds := ["rider_0"%string];
       CandidateGenerationResult.failureReason := None |}.
Proof. vm_compute. reflexivity. Qed.

Import Js JsFacts GeoFacts.

(** *** Which riders become candidates *)

Lemma passed_iff `{Platform} (fatigueConfig : FatigueConfig.t)
    (order : Order.t) (rider : Rider.t) (now : Z) :
  passed (runHardConstraints fatigueConfig order rider now)
  = passesEveryCheck fatigueConfig order rider now.
Proof.
  unfold runHardConstraints, passesEveryCheck. cbn [passed].
  destruct (capacityCheck order rider),
           (vehicleCompatibilityCheck order rider),
           (shiftTimeCheck order rider now),
           (fatigueCheck fatigueConfig rider),
           (slaFeasibilityCheck order rider now),
           (riderStatusCheck rider); reflexivity.
Qed.

Section Candidates.
Context `{Platform}.
Variable config : CandidateGenerationConfig.t.
Variable fatigueConfig : FatigueConfig.t.
Variable riderLocations : list (string * Location.t).
Variable order : Order.t.
Variable riders : list (string * Rider.t).
Variable now : Z.

(** The loop of [generateCandidates] keeps, in order, the ids of the
    known riders that pass. *)
Lemma eligibility_filter (ids : list string) :
  forall acc,
    fst (fold_left (checkRider fatigueConfig order riders now) ids acc)
    = fst acc
      ++ List.filter
           (fun id =>
              match Js.get id riders with
              | Some rider => passesEveryCheck fatigueConfig order rider now
              | None => false
              end) ids.
Proof.
  induction ids as [|id ids IH]; intros acc; simpl.
  - now rewrite app_nil_r.
  - rewrite IH. unfold checkRider.
    destruct (Js.get id riders) as [rider|]; [|reflexivity].
    rewrite passed_iff.
    destruct (passesEveryCheck fatigueConfig order rider now); simpl.
    + now rewrite <- app_assoc.
    + reflexivity.
Qed.

(** X6.  The candidates of an order are exactly the riders that the
    geographic filter found, that are known to the engine and that pass
    all six hard constraints; the failure reason is absent exactly when
    there is a candidate, and the answer carries the id of the order. *)
Theorem candidates_are_the_riders_passing_every_check :
  let result :=
    generateCandidates config fatigueConfig riderLocations order riders now in
  (forall id,
     In id (CandidateGenerationResult.candidateRiderIds result)
     <-> In id (geographicFilter config riderLocations order now)
         /\ exists rider,
              Js.get id riders = Some rider
              /\ passesEveryCheck fatigueConfig order rider now = true)
  /\ (CandidateGenerationResult.failureReason result = None
      <-> CandidateGenerationResult.candidateRiderIds result <> [])
  /\ CandidateGenerationResult.orderId result = Order.orderId order.
Proof.
  intros result.
  assert (Hmem : forall id,
            In id (fst (eligibility config fatigueConfig riderLocations
                          order riders now))
            <-> In id (geographicFilter config riderLocations order now)
                /\ exists rider,
                     Js.get id riders = Some rider
                     /\ passesEveryCheck fatigueConfig order rider now = true).
  { intros id. unfold eligibility. rewrite eligibility_filter. simpl.
    rewrite filter_In. split.
    - intros [Hin Hpass]. split; [exact Hin|].
      destruct (Js.get id riders) as [rider|]; [|discriminate].
      now exists rider.
    - intros [Hin (rider & Hget & Hpass)]. split; [exact Hin|].
      now rewrite Hget. }
  subst result. unfold generateCandidates.
  destruct (geographicFilter config riderLocations order now) as [|g gs] eqn:Hg.
  - simpl. split; [|split; [|reflexivity]].
    + intros id. split; [tauto|]. intros [[] _].
    + split; [discriminate|congruence].
  - cbn [length Nat.eqb].
    destruct (fst (eligibility config fatigueConfig riderLocations order
                     riders now)) as [|c cs] eqn:Hc.
    + simpl. split; [|split; [|reflexivity]].
      * intros id. exact (Hmem id).
      * split; [discriminate|congruence].
    + cbn [length Nat.eqb CandidateGenerationResult.candidateRiderIds
           CandidateGenerationResult.failureReason
           CandidateGenerationResult.orderId].
      split; [exact Hmem|]. split; [|reflexivity].
      split; [discriminate|reflexivity].
Qed.

Lemma no_riders_iff_filter_empty :
  CandidateGenerationResult.failureReason
    (generateCandidates config fatigueConfig riderLocations order riders now)
  = Some "no_riders_in_service_radius"%string
  <-> geographicFilter config riderLocations order now = [].
Proof.
  unfold generateCandidates.
  destruct (geographicFilter config riderLocations order now) as [|g gs] eqn:Hg.
  - simpl. tauto.
  - cbn [length Nat.eqb].
    destruct (fst (eligibility config fatigueConfig riderLocations order
                     riders now)); simpl; split; discriminate.
Qed.

Lemma geographicFilter_empty_iff :
  (CandidateGenerationConfig.initialRadiusKm config
   <= CandidateGenerationConfig.maxRadiusKm config)%Q ->
  (CandidateGenerationConfig.expandedRadiusKm config
   <= CandidateGenerationConfig.maxRadiusKm config)%Q ->
  geographicFilter config riderLocations order now = []
  <-> Geo.findRidersWithinRadius
        (OrderPickup.location (Order.pickup order)) riderLocations
        (CandidateGenerationConfig.maxRadiusKm config) = [].
Proof.
  intros Hinit Hexp. unfold geographicFilter.
  set (pickup := OrderPickup.location (Order.pickup order)).
  set (found := Geo.findRidersWithinRadius pickup riderLocations).
  destruct (Qltb _ (CandidateGenerationConfig.radiusExpansionMinutesThreshold
                      config)); [tauto|].
  assert (Hnone : forall r,
            (r <= CandidateGenerationConfig.maxRadiusKm config)%Q ->
            found (CandidateGenerationConfig.maxRadiusKm config) = [] ->
            found r = []).
  { intros r Hr. apply findRidersWithinRadius_none. exact Hr. }
  assert (Hmax : forall r,
            Qltb r (CandidateGenerationConfig.maxRadiusKm config) = false ->
            found r = [] ->
            found (CandidateGenerationConfig.maxRadiusKm config) = []).
  { intros r Hr. apply Qltb_ge in Hr.
    apply findRidersWithinRadius_none. exact Hr. }
  assert (Hlen : forall l : list string,
            (length l =? 0)%nat = true <-> l = []).
  { intros [|x l]; simpl; split; congruence. }
  destruct ((length (found (CandidateGenerationConfig.initialRadiusKm config))
             =? 0)%nat
            && Qltb (CandidateGenerationConfig.initialRadiusKm config)
                    (CandidateGenerationConfig.expandedRadiusKm config))
    eqn:Efirst.
  - destruct ((length (found (CandidateGenerationConfig.expandedRadiusKm config))
               =? 0)%nat
              && Qltb (CandidateGenerationConfig.expandedRadiusKm config)
                      (CandidateGenerationConfig.maxRadiusKm config))
      eqn:Esecond; [tauto|].
    split; [|now apply Hnone].
    intros Hempty. apply andb_false_iff in Esecond as [Elen|Elt].
    + rewrite Hempty in Elen. discriminate.
    + now apply (Hmax _ Elt).
  - destruct ((length (found (CandidateGenerationConfig.initialRadiusKm config))
               =? 0)%nat
              && Qltb (CandidateGenerationConfig.initialRadiusKm config)
                      (CandidateGenerationConfig.maxRadiusKm config))
      eqn:Esecond; [tauto|].
    split; [|now apply Hnone].
    intros Hempty. apply andb_false_iff in Esecond as [Elen|Elt].
    + rewrite Hempty in Elen. discriminate.
    + now apply (Hmax _ Elt).
Qed.

(** X7.  When neither the initial nor the expanded radius exceeds the
    maximal radius, an order is refused with no_riders_in_service_radius
    exactly when no rider location lies within the maximal radius of its
    pickup: the expansion steps never leave a rider in range unseen. *)
Theorem no_riders_reason_iff_none_within_max_radius :
  (CandidateGenerationConfig.initialRadiusKm config
   <= CandidateGenerationConfig.maxRadiusKm config)%Q ->
  (CandidateGenerationConfig.expandedRadiusKm config
   <= CandidateGenerationConfig.maxRadiusKm config)%Q ->
  CandidateGenerationResult.failureReason
    (generateCandidates config fatigueConfig riderLocations order riders now)
  = Some "no_riders_in_service_radius"%string
  <-> forall id loc,
        In (id, loc) riderLocations ->
        (CandidateGenerationConfig.maxRadiusKm config
         < haversineDistance (OrderPickup.location (Order.pickup order)) loc)%Q.
Proof.
  intros Hinit Hexp.
  rewrite no_riders_iff_filter_empty.
  rewrite (geographicFilter_empty_iff Hinit Hexp). split.
  - intros Hnone id loc Hin. apply Qnot_le_lt. intros Hle.
    assert (Hid : In id (Geo.findRidersWithinRadius
                           (OrderPickup.location (Order.pickup order))
                           riderLocations
                           (CandidateGenerationConfig.maxRadiusKm config))).
    { apply findRidersWithinRadius_In. now exists loc. }
    rewrite Hnone in Hid. exact Hid.
  - intros Hfar.
    destruct (Geo.findRidersWithinRadius _ riderLocations _) as [|id ids] eqn:E;
      [reflexivity|].
    assert (Hid : In id (Geo.findRidersWithinRadius
                           (OrderPickup.location (Order.pickup order))
                           riderLocations
                           (CandidateGenerationConfig.maxRadiusKm config)))
      by (rewrite E; now left).
    apply findRidersWithinRadius_In in Hid as (loc & Hin & Hle).
    exfalso. apply (Qlt_not_le _ _ (Hfar id loc Hin) Hle).
Qed.

End Candidates.

Lemma no_riders_reason_iff_none_within_max_radius_witness :
  CandidateGenerationResult.failureReason
    (generateCandidates (H := gridPlatform)
       Config.DEFAULT_CANDIDATE_GENERATION_CONFIG Config.DEFAULT_FATIGUE_CONFIG
       [("rider_0"%string, outOfRange); ("rider_1"%string, outOfRange)]
       (plainOrder "ord_0") twoRiders 0)
  = Some "no_riders_in_service_radius"%string
  /\ CandidateGenerationResult.failureReason
       (generateCandidates (H := gridPlatform)
          Config.DEFAULT_CANDIDATE_GENERATION_CONFIG
          Config.DEFAULT_FATIGUE_CONFIG
          [("rider_0"%string, outerRing); ("rider_1"%string, outOfRange)]
          (plainOrder "ord_0") twoRiders 0)
     <> Some "no_riders_in_service_radius"%string.
Proof.
  split.
  - apply (no_riders_reason_iff_none_within_max_radius (H := gridPlatform)
             Config.DEFAULT_CANDIDATE_GENERATION_CONFIG
             Config.DEFAULT_FATIGUE_CONFIG
             [("rider_0"%string, outOfRange); ("rider_1"%string, outOfRange)]
             (plainOrder "ord_0") twoRiders 0).
    + discriminate.
    + discriminate.
    + intros id loc [[= <- <-]|[[= <- <-]|[]]]; vm_compute; reflexivity.
  - intros Hreason.
    pose proof (proj1 (no_riders_reason_iff_none_within_max_radius
                         (H := gridPlatform)
                         Config.DEFAULT_CANDIDATE_GENERATION_CONFIG
                         Config.DEFAULT_FATIGUE_CONFIG
                         [("rider_0"%string, outerRing);
                          ("rider_1"%string, outOfRange)]
                         (plainOrder "ord_0") twoRiders 0
                         ltac:(discriminate) ltac:(discriminate))
                      Hreason "rider_0"%string outerRing
                      (or_introl eq_refl)) as Hfar.
    vm_compute in Hfar. discriminate.
Defined.

(** The rider of the second case is found at the last of the three radii
    only, and is returned as a candidate. *)
Example rider_found_at_the_maximal_radius :
  let riderLocations :=
    [("rider_0"%string, outerRing); ("rider_1"%string, outOfRange)] in
  Geo.findRidersWithinRadius (H := gridPlatform) depot riderLocations 5 = []
  /\ Geo.findRidersWithinRadius (H := gridPlatform) depot riderLocations 10
     = []
  /\ geographicFilter (H := gridPlatform)
       Config.DEFAULT_CANDIDATE_GENERATION_CONFIG riderLocations
       (plainOrder "ord_0") 0
     = ["rider_0"%string].
Proof. vm_compute. repeat split. Qed.

(** *** The rider locations the filter reads *)

Lemma updateRiderLocations_loop (riders : list (string * Rider.t))
    (id : string) :
  forall acc,
    Js.get id
      (fold_left (fun acc ir => Js.set (fst ir) (Rider.location (snd ir)) acc)
                 riders acc)
    = match Js.get id (rev riders) with
      | Some rider => Some (Rider.location rider)
      | None => Js.get id acc
      end.
Proof.
  induction riders as [|[k rider] riders IH]; intros acc; [reflexivity|].
  cbn [fold_left rev fst snd]. rewrite IH.
  assert (Happ : forall (l1 l2 : list (string * Rider.t)),
            Js.get id (l1 ++ l2)
            = match Js.get id l1 with
              | Some r => Some r
              | None => Js.get id l2
              end).
  { induction l1 as [|[k' r'] l1 IHl]; intros l2; simpl; [reflexivity|].
    destruct (String.eqb id k'); [reflexivity|apply IHl]. }
  rewrite Happ. destruct (Js.get id (rev riders)) as [r|]; [reflexivity|].
  simpl. destruct (String.eqb id k) eqn:E.
  - apply String.eqb_eq in E. subst k. apply get_set_eq.
  - apply String.eqb_neq in E. now apply get_set_ne.
Qed.

Lemma get_rev_NoDup {V : Type} (m : list (string * V)) (id : string) :
  List.NoDup (Js.keys m) -> Js.get id (rev m) = Js.get id m.
Proof.
  intros Hnd.
  assert (Hkeys : List.NoDup (Js.keys (rev m))).
  { unfold Js.keys. rewrite map_rev. apply List.NoDup_rev. exact Hnd. }
  destruct (Js.get id m) as [v|] eqn:Hget.
  - apply In_get_NoDup; [exact Hkeys|]. apply in_rev. rewrite rev_involutive.
    now apply get_Some_In.
  - apply get_None_keys. apply get_None_keys in Hget.
    unfold Js.keys. rewrite map_rev. now rewrite <- in_rev.
Qed.

(** X8.  After [updateRiderLocations] the location map holds, for every
    rider of the map it was given, that rider's location, and nothing
    else: stale entries of a previous call are gone. *)
Theorem updateRiderLocations_reads_back (riders : list (string * Rider.t))
    (id : string) :
  List.NoDup (Js.keys riders) ->
  Js.get id (updateRiderLocations riders)
  = option_map Rider.location (Js.get id riders).
Proof.
  intros Hnd. unfold updateRiderLocations.
  rewrite updateRiderLocations_loop. rewrite (get_rev_NoDup _ _ Hnd).
  now destruct (Js.get id riders).
Qed.

Lemma updateRiderLocations_reads_back_witness :
  Js.get "rider_1" (updateRiderLocations twoRiders) = Some northOfDepot.
Proof.
  apply (updateRiderLocations_reads_back twoRiders "rider_1").
  repeat (apply List.NoDup_cons; [simpl; intuition discriminate|]).
  apply List.NoDup_nil.
Defined.

End CandidateGeneratorFacts.

(** ** Batch optimizer *)
Module BatchOptimizerFacts.
Import BatchOptimizer Scenarios.

(** A property kept by every step is kept by the whole loop. *)
Lemma fold_left_keeps {A B : Type} (P : A -> Prop) (f : A -> B -> A)
    (l : list B) :
  (forall a b, In b l -> P a -> P (f a b)) ->
  forall a, P a -> P (fold_left f l a).
Proof.
  induction l as [|b l IH]; intros Hstep a Ha; [exact Ha|].
  simpl. apply IH.
  - intros a' b' Hin. apply Hstep. now right.
  - apply Hstep; [now left|exact Ha].
Qed.

Lemma spliceIn_length {A : Type} (pos : nat) (x : A) (xs : list A) :
  length (spliceIn pos x xs) = S (length xs).
Proof.
  unfold spliceIn. rewrite length_app. simpl.
  rewrite length_take, length_drop. lia.
Qed.

Lemma remove_index_length (i : nat) (l : list nat) :
  List.NoDup l -> In i l ->
  S (length (List.filter (fun k => negb (k =? i)%nat) l)) = length l.
Proof.
  induction l as [|k l IH]; intros Hnd Hin; [destruct Hin|].
  apply List.NoDup_cons_iff in Hnd as [Hk Hnd].
  simpl. destruct (k =? i)%nat eqn:E; simpl.
  - apply Nat.eqb_eq in E. subst k. f_equal.
    clear IH Hin Hnd. induction l as [|k l IH]; [reflexivity|].
    simpl in *. destruct (k =? i)%nat eqn:E; simpl.
    + apply Nat.eqb_eq in E. tauto.
    + f_equal. apply IH. tauto.
  - f_equal. apply IH; [exact Hnd|].
    destruct Hin as [->|Hin]; [|exact Hin].
    rewrite Nat.eqb_refl in E. discriminate.
Qed.

Section Lengths.
Context `{Platform}.
Variable config : BatchingConfig.t.

(** The cheapest insertion is one of the orders still to be placed. *)
Lemma bestInsertion_In (route : PartialRoute) (allOrders : list Order.t)
    (remainingOrders : list nat) (idx : nat) (c : Q) (pos : nat) :
  bestInsertion route allOrders remainingOrders = Some (idx, c, pos) ->
  In idx remainingOrders.
Proof.
  unfold bestInsertion.
  set (P := fun best : option (nat * Q * nat) =>
              forall i c p, best = Some (i, c, p) -> In i remainingOrders).
  intros Hb. revert idx c pos Hb. fold P.
  apply fold_left_keeps; [|intros i c p; discriminate].
  intros best orderIdx Hin Hbest.
  destruct (nth_error allOrders orderIdx) as [order|]; [|exact Hbest].
  apply fold_left_keeps; [|exact Hbest].
  intros best' insertPos _ Hbest' i c p.
  destruct best' as [[[i' c'] p']|].
  - destruct (Js.Qltb _ c').
    + intros [= <- _ _]. exact Hin.
    + apply Hbest'.
  - intros [= <- _ _]. exact Hin.
Qed.

(** While an order is left, some insertion is found: costs are
    numbers, hence below [Infinity]. *)
Lemma bestInsertion_Some (route : PartialRoute) (allOrders : list Order.t)
    (remainingOrders : list nat) :
  remainingOrders <> [] ->
  (forall i, In i remainingOrders -> (i < length allOrders)%nat) ->
  is_Some (bestInsertion route allOrders remainingOrders).
Proof.
  unfold bestInsertion. intros Hne Hvalid.
  assert (Hinner : forall order (orderIdx : nat) positions best,
             is_Some best \/ positions <> [] ->
             is_Some
               (fold_left
                  (fun best insertPos =>
                     let incrementalCost :=
                       calculateInsertionCost route order insertPos allOrders in
                     match best with
                     | None => Some (orderIdx, incrementalCost, insertPos)
                     | Some (_, bestIncrementalCost, _) =>
                         if Js.Qltb incrementalCost bestIncrementalCost
                         then Some (orderIdx, incrementalCost, insertPos)
                         else best
                     end) positions best)).
  { intros order orderIdx positions.
    induction positions as [|q positions IH]; intros best [Hs|Hp].
    - exact Hs.
    - congruence.
    - simpl. apply IH. left. destruct best as [[[i c] p]|].
      + destruct (Js.Qltb _ c); eexists; reflexivity.
      + destruct Hs as [x Hx]. discriminate.
    - simpl. apply IH. left. destruct best as [[[i c] p]|].
      + destruct (Js.Qltb _ c); eexists; reflexivity.
      + eexists; reflexivity. }
  destruct remainingOrders as [|first rest]; [congruence|].
  simpl.
  destruct (nth_error allOrders first) as [order|] eqn:E.
  - apply fold_left_keeps.
    + intros best orderIdx _ Hbest.
      destruct (nth_error allOrders orderIdx); [|exact Hbest].
      apply Hinner. now left.
    + apply Hinner. right. rewrite Nat.add_1_r. discriminate.
  - apply nth_error_None in E.
    specialize (Hvalid first (or_introl eq_refl)). lia.
Qed.

(** One round of the insertion loop. *)
Lemma insertAll_round (allOrders : list Order.t) (k : nat)
    (route : PartialRoute) (remainingOrders : list nat)
    (idx : nat) (c : Q) (pos : nat) (order : Order.t) :
  remainingOrders <> [] ->
  bestInsertion route allOrders remainingOrders = Some (idx, c, pos) ->
  nth_error allOrders idx = Some order ->
  insertAll (S k) allOrders route remainingOrders
  = insertAll k allOrders
      {| orders := spliceIn pos (Order.orderId order) (orders route);
         duration :=
           estimateRouteDuration
             (omap (fun orderId => findOrder orderId allOrders)
                   (spliceIn pos (Order.orderId order) (orders route)));
         distance := distance route |}
      (List.filter (fun i => negb (i =? idx)%nat) remainingOrders).
Proof.
  intros Hne Hbest En.
  destruct remainingOrders as [|first rest]; [congruence|].
  cbn [insertAll]. rewrite Hbest, En. reflexivity.
Qed.

Lemma insertAll_length (allOrders : list Order.t) (rounds : nat) :
  forall (route : PartialRoute) (remainingOrders : list nat),
    List.NoDup remainingOrders ->
    (forall i, In i remainingOrders -> (i < length allOrders)%nat) ->
    (length remainingOrders <= rounds)%nat ->
    length (orders (insertAll rounds allOrders route remainingOrders))
    = (length (orders route) + length remainingOrders)%nat.
Proof.
  induction rounds as [|k IH]; intros route remainingOrders Hnd Hvalid Hle.
  - destruct remainingOrders; [simpl; lia|simpl in Hle; lia].
  - destruct (decide (remainingOrders = [])) as [->|Hne];
      [simpl; lia|].
    destruct (bestInsertion_Some route allOrders remainingOrders Hne Hvalid)
      as [[[idx c] pos] Hbest].
    pose proof (bestInsertion_In _ _ _ _ _ _ Hbest) as Hin.
    destruct (nth_error allOrders idx) as [order|] eqn:En.
    2:{ apply nth_error_None in En. specialize (Hvalid idx Hin). lia. }
    pose proof (remove_index_length idx remainingOrders Hnd Hin) as Hlen.
    rewrite (insertAll_round _ _ _ _ _ _ _ _ Hne Hbest En).
    rewrite IH.
    + simpl. rewrite spliceIn_length. lia.
    + apply List.NoDup_filter. exact Hnd.
    + intros i Hi. apply filter_In in Hi. apply Hvalid. tauto.
    + lia.
Qed.

Lemma findNearestOrder_lt (location : Location.t) (allOrders : list Order.t) :
  allOrders <> [] ->
  (findNearestOrder location allOrders < length allOrders)%nat.
Proof.
  intros Hne. unfold findNearestOrder.
  apply (fold_left_keeps
           (fun acc : nat * option Q => (fst acc < length allOrders)%nat)).
  - intros acc [i o] Hin Hacc.
    apply in_combine_l in Hin. apply in_seq in Hin.
    destruct (snd acc) as [m|]; [destruct (Js.Qltb _ m)|]; simpl; lia.
  - simpl. destruct allOrders; [congruence|simpl; lia].
Qed.

Lemma cheapestInsertionConstruction_length (rider : Rider.t)
    (allOrders : list Order.t) :
  allOrders <> [] ->
  exists route,
    cheapestInsertionConstruction rider allOrders = Some route
    /\ length (orders route) = length allOrders.
Proof.
  intros Hne. unfold cheapestInsertionConstruction.
  pose proof (findNearestOrder_lt (Rider.location rider) allOrders Hne) as Hlt.
  set (nearestIdx := findNearestOrder (Rider.location rider) allOrders) in *.
  destruct (nth_error allOrders nearestIdx) as [nearest|] eqn:En.
  2:{ apply nth_error_None in En. lia. }
  eexists. split; [reflexivity|].
  assert (Hin : In nearestIdx (seq 0 (length allOrders)))
    by (apply in_seq; lia).
  pose proof (remove_index_length nearestIdx _
                (List.seq_NoDup (length allOrders) 0) Hin) as Hlen.
  rewrite length_seq in Hlen.
  rewrite insertAll_length.
  - simpl. lia.
  - apply List.NoDup_filter. apply List.seq_NoDup.
  - intros i Hi. apply filter_In in Hi. destruct Hi as [Hi _].
    apply in_seq in Hi. lia.
  - lia.
Qed.
Lemma sweepPairs_bounds (len i j : nat) :
  In (i, j) (sweepPairs len) -> (i + 2 <= j < len)%nat.
Proof.
  unfold sweepPairs. rewrite in_flat_map.
  intros (i' & Hi' & Hin). apply in_map_iff in Hin as (j' & [= <- <-] & Hj').
  apply in_seq in Hi'. apply in_seq in Hj'. lia.
Qed.

Lemma sweep_length (sequence newRoute : list string) :
  sweep sequence = Some newRoute -> length newRoute = length sequence.
Proof.
  unfold sweep. destruct (sweepPairs (length sequence)) as [|[i j] rest] eqn:E;
    [discriminate|].
  intros [= <-].
  assert (Hb : (i + 2 <= j < length sequence)%nat).
  { apply sweepPairs_bounds. rewrite E. now left. }
  unfold slice. rewrite !length_app, length_rev, !length_take, !length_drop.
  lia.
Qed.

Lemma sweeps_length (iterations : nat) :
  forall sequence, length (sweeps iterations sequence) = length sequence.
Proof.
  induction iterations as [|k IH]; intros sequence; [reflexivity|].
  simpl. destruct (sweep sequence) as [newRoute|] eqn:E; [|reflexivity].
  rewrite IH. now apply sweep_length.
Qed.

(** Whatever the validation says, the returned sequence holds every
    order handed in. *)
Lemma optimizeBatch_keeps_every_order (rider : Rider.t)
    (allOrders : list Order.t) :
  length (ordersSequence (optimizeBatch config rider allOrders))
  = length allOrders.
Proof.
  unfold optimizeBatch.
  destruct (length allOrders =? 0)%nat eqn:E0.
  - apply Nat.eqb_eq in E0. simpl. lia.
  - assert (Hne : allOrders <> []).
    { intros ->. discriminate. }
    destruct (cheapestInsertionConstruction_length rider allOrders Hne)
      as (route & -> & Hlen).
    cbn [ordersSequence twoOptImprovement orders].
    rewrite sweeps_length. exact Hlen.
Qed.
End Lengths.

(** C4, at batches where the code departs from the claim.  With the
    default batch sizes (3 for a bike), five orders for one bike fail the
    validation, and so do two orders of 1000 kg for a bike that carries
    5 kg; in both cases [optimizeBatch] still returns a route with every
    order in it. *)
Theorem oversized_batch_not_rejected `{Platform} :
  let rider := bikeRider "rider_0" ∅ in
  let config := Config.DEFAULT_BATCHING_CONFIG in
  (validateBatchConstraints config rider fiveOrders = false
   /\ (BatchingConfig.maxBatchSize config (Vehicle.type (Rider.vehicle rider))
       < inject_Z (Z.of_nat (length fiveOrders)))%Q
   /\ length (ordersSequence (optimizeBatch config rider fiveOrders)) = 5%nat
   /\ length (stops (optimizeBatch config rider fiveOrders)) = 10%nat)
  /\ (validateBatchConstraints config rider heavyOrders = false
      /\ (Vehicle.maxWeightKg (Rider.vehicle rider)
          < fold_right Qplus 0
              (map (fun o => OrderPayload.weightKg (Order.payload o))
                   heavyOrders))%Q
      /\ length (ordersSequence (optimizeBatch config rider heavyOrders))
         = 2%nat).
Proof.
  intros rider config. repeat split; try reflexivity.
  - now rewrite optimizeBatch_keeps_every_order.
  - unfold optimizeBatch.
    destruct (cheapestInsertionConstruction_length rider fiveOrders)
      as (route & Hr & Hlen); [discriminate|].
    change (length fiveOrders =? 0)%nat with false. cbv iota.
    rewrite Hr. cbn [stops].
    unfold buildStopSequence.
    assert (Hl : length (orders (twoOptImprovement config route)) = 5%nat).
    { cbn [twoOptImprovement orders]. rewrite sweeps_length. exact Hlen. }
    destruct (orders (twoOptImprovement config route))
      as [|a [|b [|c [|d [|e [|f rest]]]]]]; try discriminate.
    reflexivity.
  - now rewrite optimizeBatch_keeps_every_order.
Qed.

Import Js JsFacts.

(** *** The route is a rearrangement of the batch *)

Lemma spliceIn_perm {A : Type} (pos : nat) (x : A) (xs : list A) :
  Permutation (spliceIn pos x xs) (x :: xs).
Proof.
  unfold spliceIn. rewrite <- Permutation_middle.
  now rewrite take_drop.
Qed.

Lemma remove_index_perm (i : nat) (l : list nat) :
  List.NoDup l -> In i l ->
  Permutation l (i :: List.filter (fun k => negb (k =? i)%nat) l).
Proof.
  induction l as [|k l IH]; intros Hnd Hin; [destruct Hin|].
  apply List.NoDup_cons_iff in Hnd as [Hk Hnd].
  simpl. destruct (k =? i)%nat eqn:E; simpl.
  - apply Nat.eqb_eq in E. subst k. constructor.
    assert (Hsame : List.filter (fun k => negb (k =? i)%nat) l = l).
    { clear IH Hin Hnd. induction l as [|k l IH]; [reflexivity|].
      simpl in *. destruct (k =? i)%nat eqn:E; simpl.
      - apply Nat.eqb_eq in E. tauto.
      - f_equal. apply IH. tauto. }
    now rewrite Hsame.
  - destruct Hin as [->|Hin]; [rewrite Nat.eqb_refl in E; discriminate|].
    rewrite (IH Hnd Hin) at 1. apply perm_swap.
Qed.

Lemma omap_cons {A B : Type} (f : A -> option B) (x : A) (l : list A) :
  omap f (x :: l)
  = match f x with Some y => y :: omap f l | None => omap f l end.
Proof. reflexivity. Qed.

Lemma ids_of_indices (allOrders pre : list Order.t) :
  omap (fun i => option_map Order.orderId (nth_error (pre ++ allOrders) i))
       (seq (length pre) (length allOrders))
  = map Order.orderId allOrders.
Proof.
  revert pre. induction allOrders as [|o l IH]; intros pre; [reflexivity|].
  specialize (IH (pre ++ [o])). rewrite <- app_assoc in IH.
  rewrite length_app in IH. cbn [length app] in IH.
  replace (length pre + 1)%nat with (S (length pre)) in IH by lia.
  assert (Hhead : nth_error (pre ++ o :: l) (length pre) = Some o).
  { rewrite nth_error_app2 by lia. now rewrite Nat.sub_diag. }
  cbn [length seq]. rewrite omap_cons, IH, Hhead. reflexivity.
Qed.

Lemma sweep_perm (sequence newRoute : list string) :
  sweep sequence = Some newRoute -> Permutation newRoute sequence.
Proof.
  unfold sweep. destruct (sweepPairs (length sequence)) as [|[i j] rest] eqn:E;
    [discriminate|].
  intros [= <-].
  assert (Hb : (i + 2 <= j < length sequence)%nat).
  { apply sweepPairs_bounds. rewrite E. now left. }
  unfold slice. rewrite Nat.sub_0_r. cbn [drop].
  rewrite <- Permutation_rev.
  replace (take (length sequence - (j + 1)) (drop (j + 1) sequence))
    with (drop (j + 1) sequence)
    by (symmetry; apply take_ge; rewrite length_drop; lia).
  replace (drop (j + 1) sequence)
    with (drop (j + 1 - (i + 1)) (drop (i + 1) sequence))
    by (rewrite drop_drop; f_equal; lia).
  rewrite take_drop. now rewrite take_drop.
Qed.

Lemma sweeps_perm (iterations : nat) :
  forall sequence, Permutation (sweeps iterations sequence) sequence.
Proof.
  induction iterations as [|k IH]; intros sequence; [reflexivity|].
  simpl. destruct (sweep sequence) as [newRoute|] eqn:E; [|reflexivity].
  rewrite IH. now apply sweep_perm.
Qed.

Lemma sum_perm {A : Type} (f : A -> Q) (l l' : list A) :
  Permutation l l' ->
  (fold_right Qplus 0 (map f l) == fold_right Qplus 0 (map f l'))%Q.
Proof.
  induction 1 as [|x l l' _ IH|x y l|l l' l'' _ IH1 _ IH2]; simpl.
  - reflexivity.
  - now rewrite IH.
  - ring.
  - now rewrite IH1.
Qed.

(** Looking an order up by its id finds that order when ids are not
    shared. *)
Lemma findOrder_own (allOrders : list Order.t) (o : Order.t) :
  List.NoDup (map Order.orderId allOrders) -> In o allOrders ->
  findOrder (Order.orderId o) allOrders = Some o.
Proof.
  unfold findOrder. induction allOrders as [|x l IH]; intros Hnd Hin;
    [destruct Hin|].
  simpl in Hnd. apply List.NoDup_cons_iff in Hnd as [Hx Hnd]. simpl.
  destruct (String.eqb (Order.orderId x) (Order.orderId o)) eqn:E.
  - destruct Hin as [->|Hin]; [reflexivity|].
    apply String.eqb_eq in E. exfalso. apply Hx. rewrite E.
    now apply in_map.
  - destruct Hin as [->|Hin]; [rewrite String.eqb_refl in E; discriminate|].
    now apply IH.
Qed.

Lemma findOrder_all (allOrders : list Order.t) :
  List.NoDup (map Order.orderId allOrders) ->
  omap (fun orderId => findOrder orderId allOrders)
       (map Order.orderId allOrders)
  = allOrders.
Proof.
  intros Hnd.
  assert (G : forall l, (forall o, In o l -> In o allOrders) ->
            omap (fun orderId => findOrder orderId allOrders)
                 (map Order.orderId l) = l).
  { induction l as [|o l IH]; intros Hsub; [reflexivity|].
    cbn [map]. rewrite omap_cons.
    rewrite findOrder_own; [|exact Hnd|apply Hsub; now left].
    f_equal. apply IH. intros o' Ho'. apply Hsub. now right. }
  apply G. auto.
Qed.

(** [estimateRouteDuration] in closed form: the waits at the pickups, 13
    minutes for every order and 10 minutes between two orders. *)
Lemma estimateRouteDuration_loop (n : nat) (l : list Order.t) :
  forall (a : nat) (acc : Q),
    (a + length l = n)%nat ->
    (fold_left
       (fun totalMinutes (io : nat * Order.t) =>
          let t := (totalMinutes
                    + OrderPickup.estimatedPickupWaitMinutes
                        (Order.pickup (snd io)) + 10 + 3)%Q in
          if (fst io <? n - 1)%nat then (t + 10)%Q else t)
       (combine (seq a (length l)) l) acc
     == acc
        + fold_right Qplus 0
            (map (fun o => OrderPickup.estimatedPickupWaitMinutes
                             (Order.pickup o)) l)
        + 13 * inject_Z (Z.of_nat (length l))
        + 10 * inject_Z (Z.of_nat (length l - 1)))%Q.
Proof.
  induction l as [|o l IH]; intros a acc Hlen.
  - simpl. ring.
  - cbn [length seq combine fold_left fst snd].
    rewrite (IH (S a)) by (simpl in Hlen; lia).
    simpl in Hlen. cbn [map fold_right].
    destruct (a <? n - 1)%nat eqn:E.
    + apply Nat.ltb_lt in E.
      replace (S (length l) - 1)%nat with (S (length l - 1)) by lia.
      rewrite !Nat2Z.inj_succ. unfold Z.succ. rewrite !inject_Z_plus. ring.
    + apply Nat.ltb_ge in E.
      replace (length l) with 0%nat by lia. simpl. ring.
Qed.

Lemma estimateRouteDuration_closed (l : list Order.t) :
  (estimateRouteDuration l
   == fold_right Qplus 0
        (map (fun o => OrderPickup.estimatedPickupWaitMinutes
                         (Order.pickup o)) l)
      + 13 * inject_Z (Z.of_nat (length l))
      + 10 * inject_Z (Z.of_nat (length l - 1)))%Q.
Proof.
  unfold estimateRouteDuration.
  rewrite (estimateRouteDuration_loop (length l) l 0 0 eq_refl). ring.
Qed.

Section Routes.
Context `{Platform}.
Variable config : BatchingConfig.t.

Lemma insertAll_perm (allOrders : list Order.t) (rounds : nat) :
  forall (route : PartialRoute) (remainingOrders : list nat),
    List.NoDup remainingOrders ->
    (forall i, In i remainingOrders -> (i < length allOrders)%nat) ->
    (length remainingOrders <= rounds)%nat ->
    Permutation
      (orders (insertAll rounds allOrders route remainingOrders))
      (omap (fun i => option_map Order.orderId (nth_error allOrders i))
            remainingOrders ++ orders route).
Proof.
  induction rounds as [|k IH]; intros route remainingOrders Hnd Hvalid Hle.
  - destruct remainingOrders; [reflexivity|simpl in Hle; lia].
  - destruct (decide (remainingOrders = [])) as [->|Hne]; [reflexivity|].
    destruct (bestInsertion_Some route allOrders remainingOrders Hne Hvalid)
      as [[[idx c] pos] Hbest].
    pose proof (bestInsertion_In _ _ _ _ _ _ Hbest) as Hin.
    destruct (nth_error allOrders idx) as [order|] eqn:En.
    2:{ apply nth_error_None in En. specialize (Hvalid idx Hin). lia. }
    pose proof (remove_index_length idx remainingOrders Hnd Hin) as Hlen.
    rewrite (insertAll_round _ _ _ _ _ _ _ _ Hne Hbest En).
    rewrite IH.
    + cbn [orders]. rewrite spliceIn_perm.
      rewrite (remove_index_perm idx remainingOrders Hnd Hin) at 2.
      rewrite omap_cons, En. simpl.
      now rewrite Permutation_middle.
    + apply List.NoDup_filter. exact Hnd.
    + intros i Hi. apply filter_In in Hi. apply Hvalid. tauto.
    + lia.
Qed.

(** The duration of a route is that of its orders, looked up by id. *)
Lemma insertAll_duration (allOrders : list Order.t) (rounds : nat) :
  forall (route : PartialRoute) (remainingOrders : list nat),
    duration route
    = estimateRouteDuration
        (omap (fun orderId => findOrder orderId allOrders) (orders route)) ->
    let final := insertAll rounds allOrders route remainingOrders in
    duration final
    = estimateRouteDuration
        (omap (fun orderId => findOrder orderId allOrders) (orders final)).
Proof.
  induction rounds as [|k IH]; intros route remainingOrders Hroute;
    [exact Hroute|].
  destruct remainingOrders as [|first rest]; [exact Hroute|].
  cbn [insertAll].
  destruct (bestInsertion route allOrders (first :: rest))
    as [[[idx c] pos]|]; [|exact Hroute].
  destruct (nth_error allOrders idx) as [order|]; [|exact Hroute].
  apply IH. reflexivity.
Qed.

Lemma cheapestInsertionConstruction_perm (rider : Rider.t)
    (allOrders : list Order.t) :
  allOrders <> [] ->
  exists route,
    cheapestInsertionConstruction rider allOrders = Some route
    /\ Permutation (orders route) (map Order.orderId allOrders)
    /\ (List.NoDup (map Order.orderId allOrders) ->
        duration route
        = estimateRouteDuration
            (omap (fun orderId => findOrder orderId allOrders)
                  (orders route))).
Proof.
  intros Hne. unfold cheapestInsertionConstruction.
  pose proof (findNearestOrder_lt (Rider.location rider) allOrders Hne) as Hlt.
  set (nearestIdx := findNearestOrder (Rider.location rider) allOrders) in *.
  destruct (nth_error allOrders nearestIdx) as [nearest|] eqn:En.
  2:{ apply nth_error_None in En. lia. }
  eexists. split; [reflexivity|].
  assert (Hin : In nearestIdx (seq 0 (length allOrders)))
    by (apply in_seq; lia).
  pose proof (remove_index_length nearestIdx _
                (List.seq_NoDup (length allOrders) 0) Hin) as Hlen.
  rewrite length_seq in Hlen. split.
  - rewrite insertAll_perm.
    + cbn [orders]. rewrite <- (ids_of_indices allOrders []).
      cbn [app length].
      rewrite (remove_index_perm nearestIdx (seq 0 (length allOrders))
                 (List.seq_NoDup _ _) Hin) at 2.
      rewrite omap_cons, En. simpl.
      now rewrite <- Permutation_middle, app_nil_r.
    + apply List.NoDup_filter. apply List.seq_NoDup.
    + intros i Hi. apply filter_In in Hi. destruct Hi as [Hi _].
      apply in_seq in Hi. lia.
    + lia.
  - intros Hnd. apply insertAll_duration. cbn [orders duration].
    rewrite omap_cons.
    rewrite findOrder_own; [reflexivity|exact Hnd|].
    eapply nth_error_In. exact En.
Qed.



(** X11.  The stops of a batch route come in pairs, the pickup of an
    order directly followed by its delivery, in the order of the
    sequence, and every stop carries its position as [sequenceIndex]. *)
Theorem stops_pair_pickup_with_delivery (rider : Rider.t)
    (allOrders : list Order.t) (k : nat) (id : string) :
  let route := optimizeBatch config rider allOrders in
  length (stops route) = (2 * length (ordersSequence route))%nat
  /\ (nth_error (ordersSequence route) k = Some id ->
      exists pickup delivery,
        nth_error (stops route) (2 * k) = Some pickup
        /\ nth_error (stops route) (2 * k + 1) = Some delivery
        /\ RouteStop.type pickup = StopType.pickup
        /\ RouteStop.type delivery = StopType.delivery
        /\ RouteStop.orderId pickup = id
        /\ RouteStop.orderId delivery = id
        /\ RouteStop.sequenceIndex pickup = (2 * k)%nat
        /\ RouteStop.sequenceIndex delivery = (2 * k + 1)%nat).
Proof.
  assert (G : forall (l : list string) (a : nat),
            let stops :=
              flat_map
                (fun (io : nat * string) =>
                   [ {| RouteStop.type := StopType.pickup;
                        RouteStop.orderId := snd io;
                        RouteStop.location :=
                          {| Location.lat := 0; Location.lng := 0 |};
                        RouteStop.sequenceIndex := 2 * fst io |};
                     {| RouteStop.type := StopType.delivery;
                        RouteStop.orderId := snd io;
                        RouteStop.location :=
                          {| Location.lat := 0; Location.lng := 0 |};
                        RouteStop.sequenceIndex := 2 * fst io + 1 |} ])
                (combine (seq a (length l)) l) in
            length stops = (2 * length l)%nat
            /\ forall k id, nth_error l k = Some id ->
                 exists pickup delivery,
                   nth_error stops (2 * k) = Some pickup
                   /\ nth_error stops (2 * k + 1) = Some delivery
                   /\ RouteStop.type pickup = StopType.pickup
                   /\ RouteStop.type delivery = StopType.delivery
                   /\ RouteStop.orderId pickup = id
                   /\ RouteStop.orderId delivery = id
                   /\ RouteStop.sequenceIndex pickup = (2 * (a + k))%nat
                   /\ RouteStop.sequenceIndex delivery
                      = (2 * (a + k) + 1)%nat).
  { induction l as [|x l IH]; intros a.
    - simpl. split; [reflexivity|]. intros [|k'] id'; discriminate.
    - destruct (IH (S a)) as [Hlen Hnth].
      cbn [length seq combine flat_map app fst snd]. split.
      + simpl. simpl in Hlen. rewrite Hlen. lia.
      + intros [|k'] id' Hk.
        * injection Hk as <-. do 2 eexists.
          split; [reflexivity|]. split; [reflexivity|].
          rewrite Nat.add_0_r. repeat split; reflexivity.
        * destruct (Hnth k' id' Hk)
            as (p & d & Hp & Hd & Ht1 & Ht2 & Hi1 & Hi2 & Hs1 & Hs2).
          exists p, d.
          replace (2 * S k')%nat with (S (S (2 * k'))) by lia.
          replace (S (S (2 * k')) + 1)%nat with (S (S (2 * k' + 1))) by lia.
          cbn [nth_error]. split; [exact Hp|]. split; [exact Hd|].
          replace (a + S k')%nat with (S a + k')%nat by lia.
          repeat split; assumption. }
  intros route. subst route. unfold optimizeBatch.
  destruct (length allOrders =? 0)%nat.
  { simpl. split; [reflexivity|]. destruct k; discriminate. }
  destruct (cheapestInsertionConstruction rider allOrders) as [route|].
  2:{ simpl. split; [reflexivity|]. destruct k; discriminate. }
  cbn [stops ordersSequence]. unfold buildStopSequence.
  destruct (G (orders (twoOptImprovement config route)) 0%nat) as [Hlen Hnth].
  split; [exact Hlen|]. intros Hk. exact (Hnth k id Hk).
Qed.

(** X12.  The reported distance of a batch route does not look at the
    orders: every stop is placed at latitude 0, longitude 0, so with a
    distance that is 0 between coincident points the total is 0. *)
Theorem batch_distance_is_zero (rider : Rider.t) (allOrders : list Order.t) :
  (haversineDistance {| Location.lat := 0; Location.lng := 0 |}
                     {| Location.lat := 0; Location.lng := 0 |} == 0)%Q ->
  (totalDistance (optimizeBatch config rider allOrders) == 0)%Q.
Proof.
  intros Hzero.
  set (origin := {| Location.lat := 0%Q; Location.lng := 0%Q |}) in *.
  assert (G : forall locations,
            Forall (fun loc => loc = origin) locations ->
            (Geo.calculateRouteTotalDistance locations == 0)%Q).
  { intros locations Hall. unfold Geo.calculateRouteTotalDistance.
    destruct locations as [|first rest]; [reflexivity|].
    rewrite fold_left_Qplus, Qplus_0_l.
    assert (Hpairs : Forall (fun ab : Location.t * Location.t =>
                                fst ab = origin /\ snd ab = origin)
                            (combine (first :: rest) rest)).
    { apply List.Forall_forall. intros [a b] Hin. rewrite List.Forall_forall in Hall.
      split; apply Hall.
      - eapply in_combine_l. exact Hin.
      - right. eapply in_combine_r. exact Hin. }
    induction Hpairs as [|[a b] pairs [Ha Hb] _ IH]; [reflexivity|].
    simpl in *. subst a b. rewrite Hzero, IH. ring. }
  unfold optimizeBatch.
  destruct (length allOrders =? 0)%nat; [reflexivity|].
  destruct (cheapestInsertionConstruction rider allOrders) as [route|];
    [|reflexivity].
  cbn [totalDistance]. apply G. apply List.Forall_forall.
  intros loc Hin. apply in_map_iff in Hin as (stop & <- & Hstop).
  unfold buildStopSequence in Hstop. apply in_flat_map in Hstop
    as (io & _ & [<-|[<-|[]]]); reflexivity.
Qed.

(** X13.  The improvement pass never compares distances: each sweep
    exchanges the second and the third order of a route of three or more
    orders, so the pass returns the route unchanged after an even number
    of sweeps and with those two orders exchanged after an odd number; a
    shorter route is returned as it is. *)
Theorem twoOpt_exchanges_second_and_third (route : PartialRoute) :
  let sweepCount :=
    Z.to_nat (Qceiling (BatchingConfig.twoOptIterationLimit config)) in
  orders (twoOptImprovement config route)
  = match orders route with
    | first :: second :: third :: rest =>
        if Nat.even sweepCount then first :: second :: third :: rest
        else first :: third :: second :: rest
    | short => short
    end
  /\ duration (twoOptImprovement config route) = duration route
  /\ distance (twoOptImprovement config route) = distance route.
Proof.
  intros sweepCount. split; [|split; reflexivity].
  unfold twoOptImprovement. cbn [orders]. fold sweepCount.
  generalize sweepCount. clear sweepCount. intros n.
  assert (Hsweep : forall a b c rest,
            sweep (a :: b :: c :: rest) = Some (a :: c :: b :: rest)).
  { intros a b c rest. unfold sweep, sweepPairs.
    cbn [length]. 
    replace (S (S (S (length rest))) - 1)%nat with (S (S (length rest)))
      by lia.
    cbn [seq flat_map].
    replace (S (S (S (length rest))) - (0 + 2))%nat with (S (length rest))
      by lia.
    cbn [seq map app]. unfold slice. simpl.
    rewrite Nat.sub_0_r, firstn_all. reflexivity. }
  destruct (orders route) as [|a [|b [|c rest]]].
  - now destruct n.
  - now destruct n.
  - now destruct n.
  - revert a b c. induction n as [|n IH]; intros a b c; [reflexivity|].
    cbn [sweeps]. rewrite Hsweep, IH.
    rewrite Nat.even_succ, <- Nat.negb_even.
    now destruct (Nat.even n).
Qed.

End Routes.


Lemma batch_distance_is_zero_witness :
  (totalDistance
     (optimizeBatch (H := gridPlatform) Config.DEFAULT_BATCHING_CONFIG
        (bikeRider "rider_0" ∅) fiveOrders)
   == 0)%Q.
Proof.
  apply (batch_distance_is_zero (H := gridPlatform)
           Config.DEFAULT_BATCHING_CONFIG (bikeRider "rider_0" ∅) fiveOrders).
  reflexivity.
Defined.

End BatchOptimizerFacts.


(** ** ETA model *)
Module ETAModelFacts.
Import ETAModel Scenarios.

(** C6, amended.  When the estimate is not served from the cache,
    [serviceTimeMinutes] is the configured value for a building type that
    is configured with a value other than 0, 0 when no building type (or
    an empty one) is given, and 3 for a building type that is neither
    configured nor the name of a property objects inherit (for such a
    name, [constructor] say, the code reads a function).  A type
    configured with the value 0 is left out: [0 || 3] gives it 3 minutes,
    a slip of the code rather than a rule. *)
Theorem serviceTime_when_not_cached `{Platform} (config : ETAConfig.t)
    (model : ETAModel.t) (clock : Z) (origin destination : Location.t)
    (departureTime : Z) (rider buildingType : option string) :
  cachedEstimate config model clock
    (generateCacheKey origin destination departureTime) = None ->
  let serviceTime :=
    ETAEstimate.serviceTimeMinutes
      (fst (estimateETA config model clock origin destination departureTime
              rider buildingType)) in
  (forall b minutes,
      buildingType = Some b -> b <> ""%string ->
      ETAConfig.serviceTimeDefaults config !! b = Some minutes ->
      ~ (minutes == 0)%Q -> serviceTime = minutes)
  /\ (buildingType = None \/ buildingType = Some ""%string ->
      serviceTime = 0%Q)
  /\ (forall b,
        buildingType = Some b -> b <> ""%string ->
        ETAConfig.serviceTimeDefaults config !! b = None ->
        Js.inherited b = false ->
        serviceTime = 3%Q).
Proof.
  intros Hmiss serviceTime. subst serviceTime.
  unfold estimateETA. rewrite Hmiss.
  destruct (match Js.truthy rider with
            | Some id => getRiderSpeedMultiplier model clock id
            | None => (1%Q, model)
            end) as [multiplier model'].
  cbn [fst ETAEstimate.serviceTimeMinutes]. unfold serviceTimeFor.
  split; [|split].
  - intros b minutes -> Hb Hlookup Hnz.
    destruct b; [congruence|]. cbn [Js.truthy]. rewrite Hlookup.
    unfold Js.orElse. destruct (Qeq_bool minutes 0) eqn:E; [|reflexivity].
    apply Qeq_bool_iff in E. contradiction.
  - intros [->| ->]; reflexivity.
  - intros b -> Hb Hlookup _.
    destruct b; [congruence|]. cbn [Js.truthy].
    now rewrite Hlookup.
Qed.

Lemma serviceTime_when_not_cached_witness :
  ETAEstimate.serviceTimeMinutes
    (fst (estimateETA (H := gridPlatform) Config.DEFAULT_ETA_CONFIG ETAModel.empty
            0 depot depot 0 None (Some "restaurant_pickup"%string)))
  = 5%Q
  /\ ETAEstimate.serviceTimeMinutes
       (fst (estimateETA (H := gridPlatform) Config.DEFAULT_ETA_CONFIG
               ETAModel.empty 0 depot depot 0 None (Some "office"%string)))
     = 3%Q
  /\ ETAEstimate.serviceTimeMinutes
       (fst (estimateETA (H := gridPlatform) Config.DEFAULT_ETA_CONFIG
               ETAModel.empty 0 depot depot 0 None None))
     = 0%Q.
Proof.
  split; [|split].
  - refine (proj1 (serviceTime_when_not_cached (H := gridPlatform)
                     Config.DEFAULT_ETA_CONFIG ETAModel.empty 0 depot depot 0
                     None (Some "restaurant_pickup"%string) _)
                  "restaurant_pickup"%string 5%Q _ _ _ _).
    + reflexivity.
    + reflexivity.
    + discriminate.
    + vm_compute. reflexivity.
    + discriminate.
  - refine (proj2 (proj2 (serviceTime_when_not_cached (H := gridPlatform)
                            Config.DEFAULT_ETA_CONFIG ETAModel.empty 0 depot
                            depot 0 None (Some "office"%string) _))
                  "office"%string _ _ _ _).
    + reflexivity.
    + reflexivity.
    + discriminate.
    + vm_compute. reflexivity.
    + reflexivity.
  - refine (proj1 (proj2 (serviceTime_when_not_cached (H := gridPlatform)
                            Config.DEFAULT_ETA_CONFIG ETAModel.empty 0 depot
                            depot 0 None None _)) _).
    + reflexivity.
    + now left.
Defined.

(** C6 as stated fails: a building type that is not configured gets a
    service time of 3 minutes, not 0. *)
Lemma unknown_building_type_gets_three :
  ETAConfig.serviceTimeDefaults Config.DEFAULT_ETA_CONFIG !! "office"%string
  = None
  /\ ~ (ETAEstimate.serviceTimeMinutes
          (fst (estimateETA (H := gridPlatform) Config.DEFAULT_ETA_CONFIG
                  ETAModel.empty 0 depot depot 0 None (Some "office"%string)))
        == 0)%Q.
Proof. split; [vm_compute; reflexivity|]. vm_compute. discriminate. Qed.

(** A second call for the same endpoints and minute is served from the
    cache, whatever building type it names. *)
Example cached_estimate_ignores_building_type :
  let first :=
    estimateETA (H := gridPlatform) Config.DEFAULT_ETA_CONFIG ETAModel.empty 0
                depot depot 0 None None in
  ETAEstimate.serviceTimeMinutes
    (fst (estimateETA (H := gridPlatform) Config.DEFAULT_ETA_CONFIG
            (snd first) 1000 depot depot 0 None
            (Some "restaurant_pickup"%string)))
  = 0%Q.
Proof. vm_compute. reflexivity. Qed.

Import Js JsFacts.

(** *** The cache of estimates *)

Lemma generateCacheKey_minute (origin destination : Location.t)
    (departureTime departureTime' : Z) :
  (departureTime' / 60000 = departureTime / 60000)%Z ->
  generateCacheKey origin destination departureTime'
  = generateCacheKey origin destination departureTime.
Proof. intros Hsame. unfold generateCacheKey. now rewrite Hsame. Qed.

(** What a call that misses the cache stores. *)
Lemma estimateETA_miss `{Platform} (config : ETAConfig.t) (model : ETAModel.t)
    (clock : Z) (origin destination : Location.t) (departureTime : Z)
    (rider buildingType : option string) :
  cachedEstimate config model clock
    (generateCacheKey origin destination departureTime) = None ->
  let '(estimate, model1) :=
    estimateETA config model clock origin destination departureTime rider
                buildingType in
  etaCache model1
  = Js.set (generateCacheKey origin destination departureTime)
           (estimate, clock) (etaCache model).
Proof.
  intros Hmiss. unfold estimateETA. rewrite Hmiss.
  destruct (match Js.truthy rider with
            | Some id => getRiderSpeedMultiplier model clock id
            | None => (1%Q, model)
            end) as [multiplier model'] eqn:Hm.
  cbn [etaCache].
  assert (Hcache : etaCache model' = etaCache model).
  { destruct (Js.truthy rider) as [id|]; [|now injection Hm as _ <-].
    unfold getRiderSpeedMultiplier in Hm.
    destruct (Js.get id (riderModelCache model));
      now injection Hm as _ <-. }
  now rewrite Hcache.
Qed.



Lemma get_filter_NoDup {V : Type} (keep : string * V -> bool)
    (m : list (string * V)) (k : string) :
  List.NoDup (keys m) ->
  get k (List.filter keep m)
  = match get k m with
    | Some v => if keep (k, v) then Some v else None
    | None => None
    end.
Proof.
  induction m as [|[k' v'] m IH]; intros Hnd; [reflexivity|].
  simpl in Hnd. apply List.NoDup_cons_iff in Hnd as [Hk Hnd].
  simpl. destruct (String.eqb k k') eqn:E.
  - apply String.eqb_eq in E. subst k'.
    destruct (keep (k, v')); simpl.
    + now rewrite String.eqb_refl.
    + rewrite (IH Hnd).
      apply get_None_keys in Hk. now rewrite Hk.
  - destruct (keep (k', v')); simpl; [rewrite E|]; now apply IH.
Qed.

Lemma estimateETA_keys `{Platform} (config : ETAConfig.t) (model : ETAModel.t)
    (clock : Z) (origin destination : Location.t) (departureTime : Z)
    (rider buildingType : option string) :
  List.NoDup (keys (etaCache model)) ->
  List.NoDup
    (keys (etaCache (snd (estimateETA config model clock origin destination
                            departureTime rider buildingType)))).
Proof.
  intros Hnd.
  destruct (cachedEstimate config model clock
              (generateCacheKey origin destination departureTime))
    as [estimate|] eqn:Hc.
  - unfold estimateETA. now rewrite Hc.
  - pose proof (estimateETA_miss config model clock origin destination
                  departureTime rider buildingType Hc) as Hstored.
    destruct (estimateETA _ _ _ _ _ _ _ _) as [estimate model1].
    cbn [snd]. rewrite Hstored. now apply NoDup_keys_set.
Qed.

(** X15.  Sweeping the expired entries out of the cache changes no
    estimate: a call made at the time of the sweep or later returns what
    it would have returned without the sweep.  The premise, one entry per
    key, holds for the empty model and is kept by [estimateETA] and by the
    sweep. *)
Theorem clearing_the_cache_changes_no_estimate `{Platform}
    (config : ETAConfig.t) (model : ETAModel.t) (clock clock' : Z)
    (origin destination : Location.t) (departureTime : Z)
    (rider buildingType : option string) :
  List.NoDup (keys (etaCache model)) ->
  (clock <= clock')%Z ->
  fst (estimateETA config (clearExpiredCache config model clock) clock'
         origin destination departureTime rider buildingType)
  = fst (estimateETA config model clock' origin destination departureTime
           rider buildingType)
  /\ List.NoDup (keys (etaCache (clearExpiredCache config model clock)))
  /\ List.NoDup
       (keys (etaCache (snd (estimateETA config model clock' origin
                               destination departureTime rider
                               buildingType)))).
Proof.
  intros Hnd Hle. split; [|split].
  - set (key := generateCacheKey origin destination departureTime).
    assert (Hsame : cachedEstimate config (clearExpiredCache config model clock)
                      clock' key
                    = cachedEstimate config model clock' key).
    { unfold cachedEstimate, clearExpiredCache. cbn [etaCache].
      rewrite (get_filter_NoDup _ _ _ Hnd).
      destruct (get key (etaCache model)) as [[estimate timestamp]|];
        [|reflexivity].
      cbn [snd].
      destruct (Qltb (ETAConfig.etaCacheMinutes config * 60 * 1000)
                     (inject_Z (clock - timestamp))) eqn:Eold; [|reflexivity].
      simpl. apply Qltb_lt in Eold.
      destruct (Qltb (inject_Z (clock' - timestamp)) _) eqn:Efresh;
        [|reflexivity].
      apply Qltb_lt in Efresh. exfalso.
      assert (inject_Z (clock - timestamp) <= inject_Z (clock' - timestamp))%Q
        by (rewrite <- Zle_Qle; lia).
      apply (Qlt_irrefl (inject_Z (clock - timestamp))).
      eapply Qle_lt_trans; [eassumption|].
      eapply Qlt_trans; eassumption. }
    unfold estimateETA. fold key. rewrite Hsame.
    destruct (cachedEstimate config model clock' key); [reflexivity|].
    assert (Hrider : forall id,
              fst (getRiderSpeedMultiplier (clearExpiredCache config model clock)
                                           clock' id)
              = fst (getRiderSpeedMultiplier model clock' id)
              /\ draws (snd (getRiderSpeedMultiplier
                               (clearExpiredCache config model clock) clock' id))
                 = draws (snd (getRiderSpeedMultiplier model clock' id))).
    { intros id. unfold getRiderSpeedMultiplier, clearExpiredCache.
      cbn [riderModelCache draws].
      destruct (get id (riderModelCache model)); split; reflexivity. }
    destruct (truthy rider) as [id|].
    + destruct (Hrider id) as [Hm Hd].
      destruct (getRiderSpeedMultiplier (clearExpiredCache config model clock)
                                        clock' id) as [m1 model1].
      destruct (getRiderSpeedMultiplier model clock' id) as [m2 model2].
      simpl in Hm, Hd. subst m2. cbn [fst]. now rewrite Hd.
    + reflexivity.
  - unfold clearExpiredCache. cbn [etaCache]. unfold keys.
    apply List.NoDup_map_inv with (f := fun x : string => x).
    rewrite map_id.
    assert (G : forall (m : list (string * (ETAEstimate.t * Z))) keep,
              List.NoDup (map fst m) ->
              List.NoDup (map fst (List.filter keep m))).
    { induction m as [|[k v] m IH]; intros keep Hm; [exact Hm|].
      simpl in Hm. apply List.NoDup_cons_iff in Hm as [Hk Hm].
      simpl. destruct (keep (k, v)); [|now apply IH].
      simpl. apply List.NoDup_cons; [|now apply IH].
      intros Hin. apply Hk. apply in_map_iff in Hin as (x & Hx & Hin).
      apply filter_In in Hin as [Hin _]. apply in_map_iff. now exists x. }
    apply G. exact Hnd.
  - now apply estimateETA_keys.
Qed.

Lemma clearing_the_cache_changes_no_estimate_witness :
  let model :=
    snd (estimateETA (H := gridPlatform) Config.DEFAULT_ETA_CONFIG
           ETAModel.empty 0 depot northOfDepot 0 None None) in
  fst (estimateETA (H := gridPlatform) Config.DEFAULT_ETA_CONFIG
         (clearExpiredCache Config.DEFAULT_ETA_CONFIG model 400000) 400000
         depot northOfDepot 0 None None)
  = fst (estimateETA (H := gridPlatform) Config.DEFAULT_ETA_CONFIG model 400000
           depot northOfDepot 0 None None).
Proof.
  intros model.
  apply (clearing_the_cache_changes_no_estimate (H := gridPlatform)
           Config.DEFAULT_ETA_CONFIG model 400000 400000 depot northOfDepot 0
           None None).
  - vm_compute. apply List.NoDup_cons; [simpl; tauto|apply List.NoDup_nil].
  - lia.
Defined.

(** *** The rider models *)

(** X17.  Feeding a delivery back moves the rider's multiplier one tenth
    of the way to the ratio of estimated to actual duration (the actual
    duration counted as at least one minute), starting from 1 for a
    rider without a model; the next estimate uses the new value without
    drawing a random number, and no other rider's model changes. *)
Theorem updateRiderModel_moves_the_multiplier `{Platform}
    (model : ETAModel.t) (clock clock' : Z) (rider : string)
    (actualDurationMinutes estimatedDurationMinutes : Q) (zone : string) :
  let previous :=
    match get rider (riderModelCache model) with
    | Some cached => speedMultiplier cached
    | None => 1%Q
    end in
  let model1 :=
    updateRiderModel model clock rider actualDurationMinutes
                     estimatedDurationMinutes zone in
  (fst (getRiderSpeedMultiplier model1 clock' rider)
   == (9 # 10) * previous
      + (1 # 10) * (estimatedDurationMinutes / Qmax actualDurationMinutes 1))%Q
  /\ snd (getRiderSpeedMultiplier model1 clock' rider) = model1
  /\ (forall other, other <> rider ->
        get other (riderModelCache model1) = get other (riderModelCache model))
  /\ etaCache model1 = etaCache model
  /\ draws model1 = draws model.
Proof.
  intros previous model1. subst previous model1.
  unfold updateRiderModel, getRiderSpeedMultiplier. cbn [riderModelCache].
  rewrite get_set_eq. cbn [fst snd speedMultiplier etaCache draws].
  split; [|split; [reflexivity|split; [|split; reflexivity]]].
  - destruct (get rider (riderModelCache model)); cbn [speedMultiplier]; ring.
  - intros other Hne. now apply get_set_ne.
Qed.

(** *** Routes *)

Lemma routeLegs_step `{Platform} (config : ETAConfig.t) (model : ETAModel.t)
    (clock : Z) (a b : Location.t) (rest : list Location.t)
    (currentTime : Z) (rider : option string) :
  routeLegs config model clock (a :: b :: rest) currentTime rider
  = let '(estimate, model1) :=
      estimateETA config model clock a b currentTime rider None in
    let minutes := ETAEstimate.estimatedDurationMinutes estimate in
    let '(legs, model2) :=
      routeLegs config model1 clock (b :: rest)
        (toDate (inject_Z currentTime + minutes * 60 * 1000)%Q) rider in
    (minutes :: legs, model2).
Proof. reflexivity. Qed.

Lemma routeLegs_length `{Platform} (config : ETAConfig.t) (clock : Z)
    (rider : option string) (locations : list Location.t) :
  forall model currentTime,
    length (fst (routeLegs config model clock locations currentTime rider))
    = (length locations - 1)%nat.
Proof.
  induction locations as [|a [|b rest] IH]; intros model currentTime;
    [reflexivity|reflexivity|].
  rewrite routeLegs_step.
  destruct (estimateETA config model clock a b currentTime rider None)
    as [estimate model1].
  cbv zeta.
  specialize (IH model1
                (toDate (inject_Z currentTime
                         + ETAEstimate.estimatedDurationMinutes estimate
                           * 60 * 1000)%Q)).
  destruct (routeLegs config model1 clock (b :: rest) _ rider)
    as [breakdown model2].
  cbn [fst] in *. cbn [length]. cbn [length] in IH. lia.
Qed.

(** A route estimate has one leg per pair of consecutive
    locations, the first leg is the estimate from the first to the second
    location at the start time, and the total is the sum of the legs; with
    fewer than two locations there is no leg, the total is 0 and the model
    is not touched. *)
Theorem route_eta_has_one_leg_per_hop `{Platform} (config : ETAConfig.t)
    (model : ETAModel.t) (clock : Z) (locations : list Location.t)
    (startTime : Z) (rider : option string) :
  let answer :=
    estimateRouteETA config model clock locations startTime rider in
  length (breakdown (fst answer)) = (length locations - 1)%nat
  /\ (totalMinutes (fst answer)
      == fold_right Qplus 0 (breakdown (fst answer)))%Q
  /\ (forall a b rest,
        locations = a :: b :: rest ->
        nth_error (breakdown (fst answer)) 0
        = Some (ETAEstimate.estimatedDurationMinutes
                  (fst (estimateETA config model clock a b startTime rider
                          None))))
  /\ ((length locations < 2)%nat ->
      answer = ({| totalMinutes := 0; breakdown := [] |}, model)).
Proof.
  intros answer. subst answer. unfold estimateRouteETA.
  destruct (length locations <? 2)%nat eqn:Eshort.
  - apply Nat.ltb_lt in Eshort. cbn [fst breakdown totalMinutes length].
    split; [lia|]. split; [reflexivity|]. split; [|reflexivity].
    intros a b rest ->. simpl in Eshort. lia.
  - apply Nat.ltb_ge in Eshort.
    pose proof (routeLegs_length config clock rider locations model startTime)
      as Hlen.
    destruct (routeLegs config model clock locations startTime rider)
      as [legs model1] eqn:Hlegs.
    cbn [fst breakdown totalMinutes] in *.
    split; [exact Hlen|]. split; [|split; [|lia]].
    + rewrite fold_left_Qplus. ring.
    + intros a b rest ->. rewrite routeLegs_step in Hlegs.
      destruct (estimateETA config model clock a b startTime rider None)
        as [estimate model2].
      cbv zeta in Hlegs.
      destruct (routeLegs config model2 clock (b :: rest) _ rider)
        as [rest_legs model3].
      injection Hlegs as <- _. reflexivity.
Qed.

(** *** A rider's model across calls *)

(** A rider that has a model keeps it through [getRiderSpeedMultiplier]
    and [estimateETA], whichever rider they are called for. *)
Lemma getRiderSpeedMultiplier_keeps `{Platform} (model : ETAModel.t)
    (clock : Z) (rider other : string) (entry : RiderETAModel) :
  get rider (riderModelCache model) = Some entry ->
  get rider (riderModelCache
               (snd (getRiderSpeedMultiplier model clock other)))
  = Some entry.
Proof.
  intros Hentry. unfold getRiderSpeedMultiplier.
  destruct (get other (riderModelCache model)) eqn:Hother; [exact Hentry|].
  cbn [snd riderModelCache]. rewrite get_set_ne; [exact Hentry|].
  intros ->. congruence.
Qed.

Lemma estimateETA_keeps `{Platform} (config : ETAConfig.t)
    (model : ETAModel.t) (clock : Z) (origin destination : Location.t)
    (departureTime : Z) (other buildingType : option string)
    (rider : string) (entry : RiderETAModel) :
  get rider (riderModelCache model) = Some entry ->
  get rider (riderModelCache
               (snd (estimateETA config model clock origin destination
                       departureTime other buildingType)))
  = Some entry.
Proof.
  intros Hentry. unfold estimateETA.
  destruct (cachedEstimate _ _ _ _); [exact Hentry|].
  destruct (truthy other) as [id|].
  - pose proof (getRiderSpeedMultiplier_keeps model clock rider id entry
                  Hentry) as Hkept.
    destruct (getRiderSpeedMultiplier model clock id) as [m model1].
    exact Hkept.
  - exact Hentry.
Qed.

Lemma routeLegs_keeps `{Platform} (config : ETAConfig.t) (clock : Z)
    (other : option string) (rider : string) (entry : RiderETAModel)
    (locations : list Location.t) :
  forall model currentTime,
    get rider (riderModelCache model) = Some entry ->
    get rider (riderModelCache
                 (snd (routeLegs config model clock locations currentTime
                         other)))
    = Some entry.
Proof.
  induction locations as [|from [|to rest] IH];
    intros model currentTime Hentry; [exact Hentry|exact Hentry|].
  rewrite routeLegs_step.
  pose proof (estimateETA_keeps config model clock from to currentTime other
                None rider entry Hentry) as Hkept.
  destruct (estimateETA config model clock from to currentTime other None)
    as [estimate model1].
  cbn [snd] in Hkept. cbv zeta.
  specialize (IH model1
                (toDate (inject_Z currentTime
                         + ETAEstimate.estimatedDurationMinutes estimate
                           * 60 * 1000)%Q) Hkept).
  destruct (routeLegs config model1 clock (to :: rest) _ other)
    as [breakdown model2].
  exact IH.
Qed.

Lemma runCall_keeps `{Platform} (config : ETAConfig.t) (model : ETAModel.t)
    (call : ETACall) (rider : string) (entry : RiderETAModel) :
  updatesRider rider call = false ->
  get rider (riderModelCache model) = Some entry ->
  get rider (riderModelCache (runCall config model call)) = Some entry.
Proof.
  intros Hcall Hentry. destruct call; cbn [runCall].
  - now apply estimateETA_keeps.
  - unfold estimateRouteETA. destruct (length locations <? 2)%nat;
      [exact Hentry|].
    pose proof (routeLegs_keeps config clock rider0 rider entry locations
                  model startTime Hentry) as Hkept.
    destruct (routeLegs config model clock locations startTime rider0)
      as [breakdown model1].
    exact Hkept.
  - cbn [updatesRider] in Hcall. apply String.eqb_neq in Hcall.
    unfold updateRiderModel. cbn [riderModelCache].
    rewrite get_set_ne; [exact Hentry|congruence].
  - exact Hentry.
Qed.

Lemma runCalls_keep `{Platform} (config : ETAConfig.t) (rider : string)
    (entry : RiderETAModel) (calls : list ETACall) :
  forall model,
    List.Forall (fun call => updatesRider rider call = false) calls ->
    get rider (riderModelCache model) = Some entry ->
    get rider (riderModelCache (fold_left (runCall config) calls model))
    = Some entry.
Proof.
  induction calls as [|call calls IH]; intros model Hcalls Hentry;
    [exact Hentry|].
  inversion Hcalls as [|? ? Hcall Hrest]; subst. cbn [fold_left].
  apply IH; [exact Hrest|]. now apply runCall_keeps.
Qed.

(** X16.  A rider's speed multiplier is drawn at most once, and only
    [updateRiderModel] for that rider changes it afterwards: after a call
    of [getRiderSpeedMultiplier], and whatever calls of [estimateETA],
    [estimateRouteETA], [clearExpiredCache] and of [updateRiderModel] for
    other riders follow, a later call for the rider returns the same
    value, draws no random number and leaves the model as it is, and a
    later estimate computed for the rider uses that value.  The first call
    draws at most one number and does not touch the cache of
    estimates. *)
Theorem rider_multiplier_is_drawn_once `{Platform} (config : ETAConfig.t)
    (model : ETAModel.t) (clock clock' : Z) (rider : string)
    (calls : list ETACall) :
  List.Forall (fun call => updatesRider rider call = false) calls ->
  let first := getRiderSpeedMultiplier model clock rider in
  let later := fold_left (runCall config) calls (snd first) in
  getRiderSpeedMultiplier later clock' rider = (fst first, later)
  /\ (draws (snd first) <= S (draws model))%nat
  /\ etaCache (snd first) = etaCache model
  /\ (forall origin destination departureTime buildingType,
        rider <> ""%string ->
        cachedEstimate config later clock'
          (generateCacheKey origin destination departureTime) = None ->
        ETAEstimate.riderSpeedMultiplier
          (fst (estimateETA config later clock' origin destination
                  departureTime (Some rider) buildingType))
        = fst first).
Proof.
  intros Hcalls first later.
  assert (Hentry : exists entry,
             get rider (riderModelCache (snd first)) = Some entry
             /\ speedMultiplier entry = fst first).
  { subst first. unfold getRiderSpeedMultiplier.
    destruct (get rider (riderModelCache model)) as [cached|] eqn:Hget.
    - exists cached. split; [exact Hget|reflexivity].
    - cbn [snd fst riderModelCache]. rewrite get_set_eq. eauto. }
  destruct Hentry as (entry & Hentry & Hvalue).
  pose proof (runCalls_keep config rider entry calls (snd first) Hcalls
                Hentry) as Hlater.
  fold later in Hlater.
  assert (Hcall : getRiderSpeedMultiplier later clock' rider
                  = (fst first, later)).
  { unfold getRiderSpeedMultiplier. rewrite Hlater. now rewrite Hvalue. }
  split; [exact Hcall|].
  split; [|split].
  - subst first. unfold getRiderSpeedMultiplier.
    destruct (get rider (riderModelCache model)); cbn [snd draws]; lia.
  - subst first. unfold getRiderSpeedMultiplier.
    destruct (get rider (riderModelCache model)); reflexivity.
  - intros origin destination departureTime buildingType Hname Hmiss.
    unfold estimateETA. rewrite Hmiss.
    destruct rider as [|c r]; [congruence|]. cbn [truthy].
    rewrite Hcall. reflexivity.
Qed.

Lemma rider_multiplier_is_drawn_once_witness :
  let calls :=
    [ callEstimateETA 1000 depot northOfDepot 0 (Some "rider_1"%string) None;
      callUpdateRiderModel 2000 "rider_1" 30 20 "zone_25_155";
      callClearExpiredCache 3000;
      callEstimateRouteETA 4000 [depot; northOfDepot; depot] 0
        (Some "rider_0"%string);
      callEstimateETA 4500 northOfDepot depot 0 (Some "rider_0"%string)
        (Some "office"%string) ] in
  let first :=
    getRiderSpeedMultiplier (H := gridPlatform) ETAModel.empty 0 "rider_0" in
  fst (getRiderSpeedMultiplier (H := gridPlatform)
         (fold_left (runCall (H := gridPlatform) Config.DEFAULT_ETA_CONFIG)
                    calls (snd first))
         5000 "rider_0")
  = fst first.
Proof.
  intros calls first.
  pose proof (proj1 (rider_multiplier_is_drawn_once (H := gridPlatform)
                       Config.DEFAULT_ETA_CONFIG ETAModel.empty 0 5000
                       "rider_0" calls
                       ltac:(repeat constructor))) as Hlater.
  cbv zeta in Hlater. fold first in Hlater. now rewrite Hlater.
Defined.

End ETAModelFacts.

(** ** Scorer *)
Module ScorerFacts.
Import Scorer Scenarios.

(** C10.  When the rider has no familiarity score for the delivery zone
    of the order, or the stored score is 0, the affinity cost is
    -(0.5 * 0.5 + 0.3 * avgDeliverySuccessRate
      + 0.2 * max(0, avgSpeedMultiplier - 0.9)). *)
Theorem affinity_uses_half_when_score_missing_or_zero (order : Order.t)
    (rider : Rider.t) :
  let zone :=
    getDeliveryZone (OrderDelivery.location (Order.delivery order)) in
  let scores :=
    RiderPerformance.zoneFamiliarityScores (Rider.performance rider) in
  scores !! zone = None
  \/ (exists score, scores !! zone = Some score /\ (score == 0)%Q) ->
  (calculateAffinityCost order rider
   == - ((1 # 2) * (1 # 2)
         + (3 # 10)
           * RiderPerformance.avgDeliverySuccessRate (Rider.performance rider)
         + (2 # 10)
           * Js.Qmax 0 (RiderPerformance.avgSpeedMultiplier
                          (Rider.performance rider) - (9 # 10))))%Q.
Proof.
  intros zone scores Hscore. unfold calculateAffinityCost.
  fold zone. fold scores.
  assert (Hhalf : Js.orElse (scores !! zone) (1 # 2) = (1 # 2)%Q).
  { destruct Hscore as [->|(score & -> & Hz)]; [reflexivity|].
    unfold Js.orElse. apply Qeq_bool_iff in Hz. now rewrite Hz. }
  rewrite Hhalf.
  set (bonus := Js.Qmax 0 _).
  set (rate := RiderPerformance.avgDeliverySuccessRate _).
  field.
Qed.

Lemma affinity_uses_half_when_score_missing_or_zero_witness :
  (calculateAffinityCost
     (plainOrder "ord_0")
     (bikeRider "rider_0" {[ "zone_25_155"%string := 0%Q ]})
   == - (111 # 200))%Q.
Proof.
  rewrite (affinity_uses_half_when_score_missing_or_zero
             (plainOrder "ord_0")
             (bikeRider "rider_0" {[ "zone_25_155"%string := 0%Q ]})).
  - vm_compute. reflexivity.
  - right. exists 0%Q. split; [vm_compute; reflexivity|reflexivity].
Defined.

(** The zone key of the depot, and a stored score that is used as it is. *)
Example affinity_with_stored_score :
  getDeliveryZone depot = "zone_25_155"%string
  /\ (calculateAffinityCost
        (plainOrder "ord_0")
        (bikeRider "rider_0" {[ "zone_25_155"%string := (9 # 10)%Q ]})
      == - (151 # 200))%Q.
Proof. split; vm_compute; reflexivity. Qed.

Import Js JsFacts.

(** *** The range of the cost factors *)

(** The loop of [calculateBatchDisruptionCost] adds 0.2 per current
    assignment. *)
Lemma disruption_loop (assignments : list string) (total : Q) :
  (fold_left (fun total (_ : string) =>
                if Qltb 15 20 then (total + (2 # 10))%Q else total)
             assignments total
   == total + (2 # 10) * inject_Z (Z.of_nat (length assignments)))%Q.
Proof.
  revert total. induction assignments as [|a l IH]; intros total.
  - simpl. ring.
  - cbn [fold_left length]. rewrite IH.
    change (Qltb 15 20) with true. cbv iota.
    rewrite Nat2Z.inj_succ. unfold Z.succ. rewrite inject_Z_plus. ring.
Qed.

(** X18.  The batch disruption cost looks at nothing but counts: it is 0
    for a rider without a route, and otherwise a fifth of the number of
    current assignments, capped at 1 from five assignments on. *)
Theorem batch_disruption_counts_assignments (rider : Rider.t) :
  let count := inject_Z (Z.of_nat (length (Rider.currentAssignments rider))) in
  (Rider.currentRoute rider = [] ->
   calculateBatchDisruptionCost rider = 0%Q)
  /\ (Rider.currentRoute rider <> [] ->
      ((count <= 5)%Q -> (calculateBatchDisruptionCost rider == count / 5)%Q)
      /\ ((5 <= count)%Q -> (calculateBatchDisruptionCost rider == 1)%Q)).
Proof.
  intros count. unfold calculateBatchDisruptionCost. split.
  - intros ->. reflexivity.
  - intros Hroute. destruct (Rider.currentRoute rider) as [|s l]; [congruence|].
    cbn [length Nat.eqb].
    pose proof (disruption_loop (Rider.currentAssignments rider) 0) as Hsum.
    fold count in Hsum.
    set (total := fold_left _ _ _) in *.
    unfold Qmin. split; intros Hcount.
    + destruct (Qltb total 1) eqn:E.
      * rewrite Hsum. field.
      * apply Qltb_ge in E. rewrite Hsum in E.
        assert (Hfive : (count == 5)%Q) by lra. rewrite Hfive. reflexivity.
    + destruct (Qltb total 1) eqn:E; [|reflexivity].
      apply Qltb_lt in E. rewrite Hsum in E. lra.
Qed.

Lemma disruption_range (rider : Rider.t) :
  (0 <= calculateBatchDisruptionCost rider <= 1)%Q.
Proof.
  unfold calculateBatchDisruptionCost.
  destruct (length (Rider.currentRoute rider) =? 0)%nat;
    [split; discriminate|].
  pose proof (disruption_loop (Rider.currentAssignments rider) 0) as Hsum.
  set (total := fold_left _ _ _) in *. split; [|apply Qmin_le_l].
  apply Qmin_glb; [discriminate|]. rewrite Hsum.
  assert (0 <= inject_Z (Z.of_nat (length (Rider.currentAssignments rider))))%Q
    by (change 0%Q with (inject_Z 0); rewrite <- Zle_Qle; lia).
  lra.
Qed.

Lemma workload_range (rider : Rider.t) :
  (0 <= calculateWorkloadImbalanceCost rider <= 1)%Q.
Proof.
  unfold calculateWorkloadImbalanceCost.
  set (loadScore := (_ + _)%Q).
  destruct (Qltb loadScore (7 # 10)) eqn:E; [split; discriminate|].
  apply Qltb_ge in E. split; [|apply Qmin_le_l].
  apply Qmin_glb; [discriminate|].
  apply Qle_shift_div_l; [reflexivity|]. lra.
Qed.

Section Factors.
Context `{Platform}.
Variable etaConfig : ETAConfig.t.
Variable weights : ScoringWeights.t.
Variable slaRiskSigmoidScale : Q.

Lemma slaRisk_range (model : ETAModel.t) (clock : Z) (order : Order.t)
    (rider : Rider.t) (now : Z) :
  (0 <= fst (calculateSLARiskCost etaConfig slaRiskSigmoidScale model clock
               order rider now) <= 1)%Q.
Proof.
  unfold calculateSLARiskCost.
  destruct (ETAModel.estimateETA _ _ _ _ _ _ _ _) as [eta model1].
  cbn [fst]. split; [apply Qmax_le_l|].
  apply Qmax_lub; [discriminate|apply Qmin_le_l].
Qed.

Lemma deltaTime_le_1 (model : ETAModel.t) (clock : Z) (order : Order.t)
    (rider : Rider.t) (now : Z) :
  (fst (calculateDeltaTimeCost etaConfig model clock order rider now) <= 1)%Q.
Proof.
  unfold calculateDeltaTimeCost.
  destruct (length (Rider.currentAssignments rider) =? 0)%nat.
  - destruct (ETAModel.estimateETA _ _ _ _ _ _ _ _) as [etaPickup model1].
    destruct (ETAModel.estimateETA _ _ _ _ _ _ _ _) as [etaDelivery model2].
    apply Qmin_le_l.
  - apply Qmin_le_l.
Qed.

(** Whatever the platform, the model and the inputs are, as long as
    the divisors (the sigmoid scale and the two capacities of the vehicle)
    are not 0, no cost factor exceeds 1, and the SLA risk, the batch
    disruption and the workload imbalance are never negative. *)
Theorem cost_factors_are_bounded (model : ETAModel.t) (clock : Z)
    (order : Order.t) (rider : Rider.t) (now : Z) :
  ~ (slaRiskSigmoidScale == 0)%Q ->
  ~ (Vehicle.maxWeightKg (Rider.vehicle rider) == 0)%Q ->
  ~ (Vehicle.maxItems (Rider.vehicle rider) == 0)%Q ->
  (fst (calculateDeltaTimeCost etaConfig model clock order rider now) <= 1)%Q
  /\ (0 <= fst (calculateSLARiskCost etaConfig slaRiskSigmoidScale model clock
                  order rider now) <= 1)%Q
  /\ (calculateDistanceCost order rider <= 1)%Q
  /\ (0 <= calculateBatchDisruptionCost rider <= 1)%Q
  /\ (0 <= calculateWorkloadImbalanceCost rider <= 1)%Q.
Proof.
  intros _ _ _.
  split; [apply deltaTime_le_1|]. split; [apply slaRisk_range|].
  split; [apply Qmin_le_l|]. split; [apply disruption_range|].
  apply workload_range.
Qed.

Lemma affinity_not_positive (order : Order.t) (rider : Rider.t) :
  (0 <= RiderPerformance.avgDeliverySuccessRate (Rider.performance rider))%Q ->
  (forall zone score,
     RiderPerformance.zoneFamiliarityScores (Rider.performance rider) !! zone
     = Some score -> (0 <= score)%Q) ->
  (calculateAffinityCost order rider <= 0)%Q.
Proof.
  intros Hrate Hscores. unfold calculateAffinityCost.
  set (zone := getDeliveryZone _).
  assert (Hzf : (0 <= orElse (RiderPerformance.zoneFamiliarityScores
                                (Rider.performance rider) !! zone) (1 # 2))%Q).
  { unfold orElse.
    destruct (RiderPerformance.zoneFamiliarityScores _ !! zone)
      as [score|] eqn:E; [|discriminate].
    destruct (Qeq_bool score 0); [discriminate|]. now apply (Hscores zone). }
  pose proof (Qmax_le_l 0 (RiderPerformance.avgSpeedMultiplier
                             (Rider.performance rider) - (9 # 10))) as Hbonus.
  set (zf := orElse _ _) in *. set (bonus := Qmax 0 _) in *.
  set (rate := RiderPerformance.avgDeliverySuccessRate _) in *.
  assert (0 <= zf * (1 # 2))%Q by (apply Qmult_le_0_compat; [assumption|discriminate]).
  assert (0 <= rate * (3 # 10))%Q by (apply Qmult_le_0_compat; [assumption|discriminate]).
  assert (0 <= bonus * (2 # 10))%Q by (apply Qmult_le_0_compat; [assumption|discriminate]).
  assert (Hdiv : forall x : Q, (x / 1 == x)%Q) by (intros x; field).
  rewrite Hdiv. lra.
Qed.

Lemma weighted_le (w c : Q) : (0 <= w)%Q -> (c <= 1)%Q -> (w * c <= w)%Q.
Proof.
  intros Hw Hc. rewrite <- (Qmult_1_r w) at 2.
  rewrite (Qmult_comm w c), (Qmult_comm w 1).
  now apply Qmult_le_compat_r.
Qed.


End Factors.


End ScorerFacts.

(** ** Configuration builder *)
Module ConfigFacts.
Import Config Config.ConfigurationBuilder Scenarios.

(** C7, amended.  [build] checks the sum of the six weights and nothing
    else.  For weights of magnitude at most 1 it returns the configuration
    when the sum is within 0.01 of 1 and throws when it is further away,
    a sum within the rounding margin of 0.99 or 1.01 apart (there the
    double-precision sum of the code can fall on either side).  What it
    returns is the configuration it was given, and two configurations
    with the same weights are both accepted or both refused, whatever
    their other parameters are. *)
Theorem build_checks_the_weight_sum_only (c : AssignmentEngineConfig.t) :
  let w := AssignmentEngineConfig.weights c in
  weightsWithinUnit w ->
  ((Qabs (weightSum w - 1) <= (1 # 100) - roundingMargin)%Q ->
   build c = Some c)
  /\ (((1 # 100) + roundingMargin <= Qabs (weightSum w - 1))%Q ->
      build c = None)
  /\ (forall built, build c = Some built -> built = c)
  /\ (forall c',
        AssignmentEngineConfig.weights c' = w ->
        (build c' = None <-> build c = None)).
Proof.
  intros w _. subst w. unfold build, roundingMargin.
  split; [|split; [|split]].
  - intros Hnear.
    destruct (Js.Qltb _ _) eqn:E; [|reflexivity].
    apply JsFacts.Qltb_lt in E. lra.
  - intros Hfar.
    destruct (Js.Qltb _ _) eqn:E; [reflexivity|].
    apply JsFacts.Qltb_ge in E. lra.
  - intros built. destruct (Js.Qltb _ _); [discriminate|].
    now intros [= <-].
  - intros c' ->. destruct (Js.Qltb _ _); [tauto|].
    split; discriminate.
Qed.

Lemma build_checks_the_weight_sum_only_witness :
  build DEFAULT_ENGINE_CONFIG = Some DEFAULT_ENGINE_CONFIG
  /\ build (setWeight w1_time 1 DEFAULT_ENGINE_CONFIG) = None.
Proof.
  split.
  - refine (proj1 (build_checks_the_weight_sum_only DEFAULT_ENGINE_CONFIG _) _).
    + intros []; vm_compute; discriminate.
    + vm_compute. discriminate.
  - refine (proj1 (proj2 (build_checks_the_weight_sum_only
                            (setWeight w1_time 1 DEFAULT_ENGINE_CONFIG) _)) _).
    + intros []; vm_compute; discriminate.
    + vm_compute. discriminate.
Defined.

(** C7 as stated fails: surge ratios and radii that decrease and a
    negative cycle interval are accepted, the weights being the default
    ones. *)
Lemma build_accepts_disordered_parameters :
  let c :=
    setCycleInterval (-30)
      (setSurgeRatios 2 (15 # 10) (12 # 10)
         (ConfigurationBuilder.new
            {| cycleIntervalSeconds := None; maxOrdersPerCycle := None;
               maxRidersPerAssignment := None;
               optimizerTimeoutSeconds := None; hungarianThreshold := None;
               weights := None;
               candidateGeneration :=
                 Some {| CandidateGenerationConfig.initialRadiusKm := 20;
                         CandidateGenerationConfig.expandedRadiusKm := 10;
                         CandidateGenerationConfig.maxRadiusKm := 5;
                         CandidateGenerationConfig.radiusExpansionMinutesThreshold
                           := 20 |};
               batching := None; reassignment := None; surge := None;
               eta := None; fatigue := None; sla := None |})) in
  (SurgeConfig.hardSurgeRatio (AssignmentEngineConfig.surge c)
   < SurgeConfig.softSurgeRatio (AssignmentEngineConfig.surge c))%Q
  /\ (CandidateGenerationConfig.expandedRadiusKm
        (AssignmentEngineConfig.candidateGeneration c)
      < CandidateGenerationConfig.initialRadiusKm
          (AssignmentEngineConfig.candidateGeneration c))%Q
  /\ (AssignmentEngineConfig.cycleIntervalSeconds c < 0)%Q
  /\ build c = Some c.
Proof. repeat split. Qed.

(** The default weights are accepted, and a sum of 2 is refused. *)
Example build_default_and_refused :
  createDefaultConfig = Some DEFAULT_ENGINE_CONFIG
  /\ build (setWeight w1_time 1 (setWeight w2_slaRisk 1
              (ConfigurationBuilder.new noOverrides))) = None.
Proof. split; reflexivity. Qed.


(** *** The setters *)

(** X20.  [setWeight] writes the weight it names and nothing else: the
    weight reads back, the other five weights and every other section of
    the configuration are as before, a second write to the same key
    replaces the first, and the write commutes with the setters of the
    other sections.  [setWeights] does the same for every key it gives a
    value to and leaves the others alone. *)
Theorem setWeight_writes_one_weight (key : WeightKey) (value value' : Q)
    (ws : WeightKey -> option Q) (c : AssignmentEngineConfig.t) :
  weightOf key (AssignmentEngineConfig.weights (setWeight key value c)) = value
  /\ (forall other,
        other <> key ->
        weightOf other (AssignmentEngineConfig.weights (setWeight key value c))
        = weightOf other (AssignmentEngineConfig.weights c))
  /\ withWeights (setWeight key value c) (AssignmentEngineConfig.weights c) = c
  /\ setWeight key value' (setWeight key value c) = setWeight key value' c
  /\ (forall k,
        weightOf k (AssignmentEngineConfig.weights (setWeights ws c))
        = default (weightOf k (AssignmentEngineConfig.weights c)) (ws k))
  /\ withWeights (setWeights ws c) (AssignmentEngineConfig.weights c) = c
  /\ (forall seconds,
        setCycleInterval seconds (setWeight key value c)
        = setWeight key value (setCycleInterval seconds c))
  /\ (forall scale,
        setSLARiskScale scale (setWeight key value c)
        = setWeight key value (setSLARiskScale scale c))
  /\ (forall soft hard crisis,
        setSurgeRatios soft hard crisis (setWeight key value c)
        = setWeight key value (setSurgeRatios soft hard crisis c))
  /\ (forall batchSizes,
        setMaxBatchSizes batchSizes (setWeight key value c)
        = setWeight key value (setMaxBatchSizes batchSizes c)).
Proof.
  destruct c as [c1 c2 c3 c4 c5 [w1 w2 w3 w4 w5 w6] c7 c8 c9 c10 c11 c12 c13].
  split; [destruct key; reflexivity|].
  split; [intros other Hne; destruct key, other; try reflexivity; congruence|].
  split; [destruct key; reflexivity|].
  split; [destruct key; reflexivity|].
  split; [intros k; destruct k; reflexivity|].
  split; [reflexivity|].
  repeat split; intros; destruct key; reflexivity.
Qed.

(** Every preset of [MARKET_CONFIGS] is accepted by [build], with weights
    that sum to 1 and surge thresholds in increasing order. *)
Example market_presets_are_accepted :
  Forall (fun preset : option AssignmentEngineConfig.t =>
            exists c,
              preset = Some c
              /\ (weightSum (AssignmentEngineConfig.weights c) == 1)%Q
              /\ (SurgeConfig.softSurgeRatio (AssignmentEngineConfig.surge c)
                  < SurgeConfig.hardSurgeRatio (AssignmentEngineConfig.surge c))%Q
              /\ (SurgeConfig.hardSurgeRatio (AssignmentEngineConfig.surge c)
                  < SurgeConfig.crisisRatio (AssignmentEngineConfig.surge c))%Q)
         [ MARKET_CONFIGS.bangalore_default; MARKET_CONFIGS.high_sla_priority;
           MARKET_CONFIGS.surge_optimized; MARKET_CONFIGS.cost_optimized ].
Proof.
  repeat constructor; eexists; (split; [reflexivity|]);
    repeat split; reflexivity.
Qed.

End ConfigFacts.

(** ** Reassignment triggers *)
Module ReassignmentEngineFacts.
Import ReassignmentEngine Scenarios.

Lemma priority_eqb_eq (a b : OrderPriority.t) :
  OrderPriority.eqb a b = true <-> a = b.
Proof. destruct a, b; simpl; split; intros; congruence. Qed.

Lemma has_false {V : Type} (k : string) (m : list (string * V)) :
  Js.has k m = false <-> Js.get k m = None.
Proof. unfold Js.has. destruct (Js.get k m); split; congruence. Qed.

Section HighPriority.
Context `{Platform}.
Variable config : ReassignmentConfig.t.
Variable orders : list (string * Order.t).
Variable assignments : list (string * Assignment.t).
Variable riders : list (string * Rider.t).
Variable now : Z.

Lemma urgent_iff (order : Order.t) :
  urgent config assignments now order
  <-> isPriorityOrder assignments order = true
      /\ dueSoon config now order = true.
Proof.
  unfold urgent, isPriorityOrder, dueSoon.
  rewrite orb_true_iff, andb_true_iff, negb_true_iff, !priority_eqb_eq,
    has_false, Z.leb_le.
  tauto.
Qed.

(** One step of the inner loop: the priority order is flagged when the
    assignment is disturbed by it, and nothing changes otherwise. *)
Lemma flagNearby_step (order : Order.t) (acc : list string * list string)
    (a : Assignment.t) :
  (disturbedBy orders riders order a
   /\ fst (flagNearby orders riders order acc a)
      = Js.add (Order.orderId order) (fst acc))
  \/ (~ disturbedBy orders riders order a
      /\ flagNearby orders riders order acc a = acc).
Proof.
  unfold flagNearby, disturbedBy.
  destruct (Js.get (Assignment.orderId a) orders) as [assignedOrder|] eqn:Eo.
  2:{ right. split; [|reflexivity]. intros (o & r & Ho & _). discriminate. }
  destruct (Js.get (Assignment.riderId a) riders) as [rider|] eqn:Er.
  2:{ right. split; [|reflexivity].
      intros (o & r & _ & _ & Hr & _). discriminate. }
  destruct (OrderPriority.eqb (Order.priority assignedOrder)
                              OrderPriority.normal) eqn:Ep.
  2:{ right. split; [|reflexivity].
      intros (o & r & [= <-] & Hp & _). apply priority_eqb_eq in Hp.
      congruence. }
  apply priority_eqb_eq in Ep.
  destruct (Js.Qltb _ 3) eqn:Ed.
  - left. apply JsFacts.Qltb_lt in Ed. split; [|reflexivity].
    exists assignedOrder, rider. tauto.
  - right. apply JsFacts.Qltb_ge in Ed. split; [|reflexivity].
    intros (o & r & _ & _ & [= <-] & Hd). apply (Qlt_not_le _ _ Hd Ed).
Qed.

Lemma flagNearby_loop (order : Order.t) (id : string)
    (l : list Assignment.t) :
  forall acc,
    In id (fst (fold_left (flagNearby orders riders order) l acc))
    <-> In id (fst acc)
        \/ id = Order.orderId order
           /\ exists a, In a l /\ disturbedBy orders riders order a.
Proof.
  induction l as [|a l IH]; intros acc.
  - simpl. split; [tauto|]. intros [Hin|(_ & a & [] & _)]. exact Hin.
  - simpl. rewrite IH.
    destruct (flagNearby_step order acc a) as [(Hd & ->)|(Hn & ->)].
    + rewrite JsFacts.In_add. split.
      * intros [[->|Hin]|(-> & a' & Hin & Hd')]; eauto 8.
      * intros [Hin|(-> & a' & [<-|Hin] & Hd')]; eauto 8.
    + split.
      * intros [Hin|(-> & a' & Hin & Hd')]; eauto 8.
      * intros [Hin|(-> & a' & [<-|Hin] & Hd')]; eauto 8. contradiction.
Qed.

Lemma scan_loop (id : string) (l : list Order.t) :
  forall acc,
    In id
       (fst (fold_left
               (fun acc order =>
                  if dueSoon config now order
                  then fold_left (flagNearby orders riders order)
                                 (Js.values assignments) acc
                  else acc) l acc))
    <-> In id (fst acc)
        \/ exists order a,
             In order l /\ Order.orderId order = id
             /\ dueSoon config now order = true
             /\ In a (Js.values assignments)
             /\ disturbedBy orders riders order a.
Proof.
  induction l as [|order l IH]; intros acc.
  - simpl. split; [tauto|]. intros [Hin|(o & a & [] & _)]. exact Hin.
  - simpl. rewrite IH. destruct (dueSoon config now order) eqn:Ed.
    + rewrite flagNearby_loop. split.
      * intros [[Hin|(-> & a & Hin & Hd)]|(o & a & Hin & Hrest)];
          [tauto| |]; right.
        -- exists order, a. tauto.
        -- exists o, a. tauto.
      * intros [Hin|(o & a & [<-|Hin] & Hid & Hdue & Ha & Hd)]; [tauto| |].
        -- left. right. split; [congruence|]. eauto.
        -- right. exists o, a. tauto.
    + split.
      * intros [Hin|(o & a & Hin & Hrest)]; [tauto|].
        right. exists o, a. tauto.
      * intros [Hin|(o & a & [<-|Hin] & Hid & Hdue & Hrest)]; [tauto| |].
        -- congruence.
        -- right. exists o, a. tauto.
Qed.

Lemma highPriorityScan_flags (id : string) :
  In id (fst (highPriorityScan config orders assignments riders now))
  <-> urgentOrderWithNeighbour config orders assignments riders now id.
Proof.
  unfold highPriorityScan, urgentOrderWithNeighbour. rewrite scan_loop.
  simpl. split.
  - intros [[]|(order & a & Hin & Hid & Hdue & Ha & Hd)].
    apply filter_In in Hin as [Hin Hp].
    exists order, a. rewrite urgent_iff. tauto.
  - intros (order & a & Hin & Hid & Hu & Ha & Hd).
    apply urgent_iff in Hu as [Hp Hdue].
    right. exists order, a. rewrite filter_In. tauto.
Qed.

(** What [detectHighPriorityArrivals] computes, in general: the trigger
    is raised when some urgent order (critical, or high-priority without
    assignment, due at most the cutoff from now) has an assignment of a
    known normal-priority order whose known rider is less than 3 km from
    its pickup, and its [affectedOrderIds] are the ids of those urgent
    orders, never those of the normal orders nearby. *)
Theorem high_priority_trigger_flags_the_urgent_orders :
  exists affected,
    (forall id,
        In id affected
        <-> urgentOrderWithNeighbour config orders assignments riders now id)
    /\ map ReassignmentTrigger.affectedOrderIds
           (detectHighPriorityArrivals config orders assignments riders now)
       = match affected with [] => [] | _ => [affected] end
    /\ Forall (fun trigger =>
                 ReassignmentTrigger.type trigger
                 = TriggerType.high_priority_arrival)
              (detectHighPriorityArrivals config orders assignments
                                          riders now).
Proof.
  exists (fst (highPriorityScan config orders assignments riders now)).
  split; [exact highPriorityScan_flags|].
  unfold detectHighPriorityArrivals.
  destruct (highPriorityScan config orders assignments riders now)
    as [affectedOrders affectedRiders].
  destruct affectedOrders as [|id rest]; simpl.
  - split; constructor.
  - split; [reflexivity|]. repeat constructor.
Qed.
End HighPriority.

(** C9.  The code departs from the claim: with a critical order due in
    ten minutes and a normal order whose rider stands at its pickup, the
    trigger names the critical order; the normal order, which is the one
    to be reassigned to make room, is not among the affected ids. *)
Lemma high_priority_trigger_names_the_critical_order :
  let '(orders, assignments, riders) := urgentState in
  exists trigger,
    detectHighPriorityArrivals (H := gridPlatform)
      Config.DEFAULT_REASSIGNMENT_CONFIG orders assignments riders 0
    = [trigger]
    /\ ReassignmentTrigger.affectedOrderIds trigger = ["critical_1"%string]
    /\ nearbyNormalOrder (H := gridPlatform)
         Config.DEFAULT_REASSIGNMENT_CONFIG orders assignments riders 0
         "normal_1"
    /\ ~ In "normal_1"%string (ReassignmentTrigger.affectedOrderIds trigger).
Proof.
  simpl. eexists. split; [vm_compute; reflexivity|].
  split; [reflexivity|]. split.
  - eexists _, _. split; [left; reflexivity|]. split; [reflexivity|].
    split; [left; reflexivity|]. split.
    + split; [left; reflexivity|]. vm_compute. discriminate.
    + eexists _, _. split; [reflexivity|]. split; [reflexivity|].
      split; [reflexivity|]. vm_compute. reflexivity.
  - simpl. intros [E|[]]. discriminate.
Qed.

(** What the engine then does with that trigger
    ([handleReassignmentTrigger]): the normal order keeps its rider, and
    the critical order, which had none, is put back in the queue and
    counted as reassigned once. *)
Example handling_the_trigger_keeps_the_normal_order :
  let '(orders, assignments, riders) := urgentState in
  let cfg := Config.DEFAULT_REASSIGNMENT_CONFIG in
  let '(orders', counters') :=
    fold_left (AssignmentEngine.handleReassignmentTrigger (H := gridPlatform)
                 cfg 0 riders)
              (detectHighPriorityArrivals (H := gridPlatform) cfg orders
                 assignments riders 0)
              (orders, noCounters) in
  option_map Order.status (Js.get "normal_1"%string orders')
  = Some OrderStatus.assigned
  /\ option_map Order.status (Js.get "critical_1"%string orders')
     = Some OrderStatus.pending_assignment
  /\ Js.get "critical_1"%string (reassignmentCounts counters') = Some 1%Q
  /\ Js.get "normal_1"%string (reassignmentCounts counters') = None.
Proof. vm_compute. repeat split. Qed.

Import Js JsFacts.

(** *** Limits on reassignment *)

Lemma orElse_zero (x : option Q) :
  (orElse x 0 == match x with Some v => v | None => 0 end)%Q.
Proof.
  destruct x as [v|]; [|reflexivity]. unfold orElse.
  destruct (Qeq_bool v 0) eqn:E; [|reflexivity].
  apply Qeq_bool_iff in E. now rewrite E.
Qed.

Lemma recordReassignment_other (counters : Counters) (clock : Z)
    (orderId other : string) :
  other <> orderId ->
  get other (reassignmentCounts (recordReassignment counters clock orderId))
  = get other (reassignmentCounts counters)
  /\ get other (lastReassignmentTime
                  (recordReassignment counters clock orderId))
     = get other (lastReassignmentTime counters).
Proof.
  intros Hne. unfold recordReassignment. cbn.
  split; now apply get_set_ne.
Qed.

Lemma recordAll_count (clocks : list Z) (orderId : string) :
  forall counters,
    (orElse (get orderId (reassignmentCounts (recordAll counters clocks orderId)))
            0
     == orElse (get orderId (reassignmentCounts counters)) 0
        + inject_Z (Z.of_nat (length clocks)))%Q.
Proof.
  unfold recordAll. induction clocks as [|c clocks IH]; intros counters.
  - simpl. ring.
  - cbn [fold_left length]. rewrite IH.
    unfold recordReassignment. cbn [reassignmentCounts].
    rewrite get_set_eq, (orElse_zero (Some _)).
    rewrite Nat2Z.inj_succ. unfold Z.succ. rewrite inject_Z_plus. ring.
Qed.

Lemma recordAll_other (clocks : list Z) (orderId other : string) :
  other <> orderId ->
  forall counters,
    get other (reassignmentCounts (recordAll counters clocks orderId))
    = get other (reassignmentCounts counters)
    /\ get other (lastReassignmentTime (recordAll counters clocks orderId))
       = get other (lastReassignmentTime counters).
Proof.
  intros Hne. unfold recordAll.
  induction clocks as [|c clocks IH]; intros counters; [now split|].
  cbn [fold_left]. destruct (IH (recordReassignment counters c orderId))
    as [Hc Ht].
  destruct (recordReassignment_other counters c orderId other Hne)
    as [Hc' Ht'].
  split; congruence.
Qed.

(** An order that was just reassigned cannot be reassigned again
    before 30 seconds have passed, whatever its count is. *)
Theorem reassignment_waits_thirty_seconds (config : ReassignmentConfig.t)
    (counters : Counters) (clock clock' : Z) (orderId : string) :
  (clock' - clock < 30000)%Z ->
  canReassign config (recordReassignment counters clock orderId) clock' orderId
  = false.
Proof.
  intros Hsoon. unfold canReassign.
  destruct (Qle_bool _ _); [reflexivity|].
  unfold recordReassignment. cbn [lastReassignmentTime].
  rewrite get_set_eq.
  apply Z.ltb_lt in Hsoon. now rewrite Hsoon.
Qed.

Lemma reassignment_waits_thirty_seconds_witness :
  canReassign Config.DEFAULT_REASSIGNMENT_CONFIG
    (recordReassignment noCounters 1000 "ord_0") 30999 "ord_0"
  = false.
Proof.
  apply (reassignment_waits_thirty_seconds Config.DEFAULT_REASSIGNMENT_CONFIG
           noCounters 1000 30999 "ord_0").
  reflexivity.
Defined.

(** X21.  Once an order has been reassigned [maxReassignmentAttempts]
    times it can never be reassigned again, however long one waits; and
    recording reassignments of one order changes nothing for any other
    order. *)
Theorem reassignment_stops_at_the_cap (config : ReassignmentConfig.t)
    (counters : Counters) (clocks : list Z) (orderId : string) :
  get orderId (reassignmentCounts counters) = None ->
  (ReassignmentConfig.maxReassignmentAttempts config
   <= inject_Z (Z.of_nat (length clocks)))%Q ->
  (forall clock,
     canReassign config (recordAll counters clocks orderId) clock orderId
     = false)
  /\ (forall other clock,
        other <> orderId ->
        canReassign config (recordAll counters clocks orderId) clock other
        = canReassign config counters clock other).
Proof.
  intros Hnew Hcap. split.
  - intros clock. unfold canReassign.
    pose proof (recordAll_count clocks orderId counters) as Hcount.
    rewrite Hnew in Hcount. cbn [orElse] in Hcount.
    rewrite Qplus_0_l in Hcount.
    assert (Hle : Qle_bool (ReassignmentConfig.maxReassignmentAttempts config)
                    (orElse (get orderId
                               (reassignmentCounts
                                  (recordAll counters clocks orderId))) 0)
                  = true).
    { apply Qle_bool_iff. now rewrite Hcount. }
    now rewrite Hle.
  - intros other clock Hne. unfold canReassign.
    destruct (recordAll_other clocks orderId other Hne counters) as [-> ->].
    reflexivity.
Qed.

Lemma reassignment_stops_at_the_cap_witness :
  canReassign Config.DEFAULT_REASSIGNMENT_CONFIG
    (recordAll noCounters [0; 60000; 120000]%Z "ord_0") 86400000 "ord_0"
  = false.
Proof.
  apply (reassignment_stops_at_the_cap Config.DEFAULT_REASSIGNMENT_CONFIG
           noCounters [0; 60000; 120000]%Z "ord_0").
  - reflexivity.
  - discriminate.
Defined.

(** *** The trigger for riders that went offline *)

Lemma status_eqb_eq (a b : RiderStatus.t) :
  RiderStatus.eqb a b = true <-> a = b.
Proof. destruct a, b; simpl; split; intros; congruence. Qed.

Lemma offline_loop (riders : list (string * Rider.t))
    (l : list Assignment.t) (id : string) :
  forall acc,
    In id (fold_left
             (fun acc (assignment : Assignment.t) =>
                match get (Assignment.riderId assignment) riders with
                | None => add (Assignment.orderId assignment) acc
                | Some rider =>
                    if RiderStatus.eqb (Rider.status rider) RiderStatus.offline
                    then add (Assignment.orderId assignment) acc else acc
                end) l acc)
    <-> In id acc
        \/ exists a, In a l /\ riderGone riders a /\ Assignment.orderId a = id.
Proof.
  induction l as [|a l IH]; intros acc.
  - simpl. split; [tauto|]. intros [Hin|(a & [] & _)]. exact Hin.
  - cbn [fold_left]. rewrite IH. clear IH. unfold riderGone at 2.
    destruct (get (Assignment.riderId a) riders) as [rider|] eqn:Hget.
    + destruct (RiderStatus.eqb (Rider.status rider) RiderStatus.offline)
        eqn:E.
      * apply status_eqb_eq in E. rewrite In_add. split.
        -- intros [[->|Hin]|(a' & Hin & Hgone & Hid)].
           ++ right. exists a. split; [now left|]. split; [|reflexivity].
              unfold riderGone. now rewrite Hget.
           ++ now left.
           ++ right. exists a'. split; [now right|]. now split.
        -- intros [Hin|(a' & [<-|Hin] & Hgone & Hid)].
           ++ left. now right.
           ++ left. now left.
           ++ right. exists a'. now split.
      * split.
        -- intros [Hin|(a' & Hin & Hgone & Hid)]; [now left|].
           right. exists a'. split; [now right|]. now split.
        -- intros [Hin|(a' & [<-|Hin] & Hgone & Hid)]; [now left| |].
           ++ unfold riderGone in Hgone. rewrite Hget in Hgone.
              apply status_eqb_eq in Hgone. congruence.
           ++ right. exists a'. now split.
    + rewrite In_add. split.
      * intros [[->|Hin]|(a' & Hin & Hgone & Hid)].
        -- right. exists a. split; [now left|]. split; [|reflexivity].
           unfold riderGone. now rewrite Hget.
        -- now left.
        -- right. exists a'. split; [now right|]. now split.
      * intros [Hin|(a' & [<-|Hin] & Hgone & Hid)].
        -- left. now right.
        -- left. now left.
        -- right. exists a'. now split.
Qed.

(** X22.  [detectOfflineRiders] raises at most one trigger; it raises one
    exactly when some assignment names a rider that is unknown or
    offline, and the trigger then lists exactly the orders of such
    assignments. *)
Theorem offline_trigger_lists_the_stranded_orders
    (riders : list (string * Rider.t))
    (assignments : list (string * Assignment.t)) (now : Z) :
  (detectOfflineRiders riders assignments now = []
   <-> forall a, In a (values assignments) -> ~ riderGone riders a)
  /\ forall trigger,
       In trigger (detectOfflineRiders riders assignments now) ->
       detectOfflineRiders riders assignments now = [trigger]
       /\ ReassignmentTrigger.type trigger = TriggerType.rider_offline
       /\ ReassignmentTrigger.timestamp trigger = now
       /\ forall id,
            In id (ReassignmentTrigger.affectedOrderIds trigger)
            <-> exists a, In a (values assignments)
                  /\ riderGone riders a /\ Assignment.orderId a = id.
Proof.
  unfold detectOfflineRiders.
  pose proof (fun id => offline_loop riders (values assignments) id [])
    as Hloop.
  set (affected := fold_left _ (values assignments) []) in *.
  assert (Hmem : forall id,
            In id affected
            <-> exists a, In a (values assignments)
                  /\ riderGone riders a /\ Assignment.orderId a = id).
  { intros id. rewrite Hloop. simpl. tauto. }
  destruct affected as [|first rest] eqn:Haff.
  - simpl. split; [|intros trigger []].
    split; [|reflexivity]. intros _ a Hin Hgone.
    apply (proj2 (Hmem (Assignment.orderId a))). now exists a.
  - cbn [length Nat.ltb Nat.leb]. split.
    + split; [discriminate|]. intros Hnone. exfalso.
      destruct (proj1 (Hmem first) (or_introl eq_refl)) as (a & Hin & Hgone & _).
      exact (Hnone a Hin Hgone).
    + intros trigger [<-|[]]. cbn. split; [reflexivity|].
      split; [reflexivity|]. split; [reflexivity|]. exact Hmem.
Qed.

End ReassignmentEngineFacts.

(** ** Surge handling *)
Module SurgeHandlerFacts.
Import Js JsFacts SurgeHandler Scenarios.

(** *** The surge level *)

Lemma ratio_monotone (p1 p2 capacity : Q) :
  (p1 <= p2)%Q ->
  (p1 / Qmax capacity 1 <= p2 / Qmax capacity 1)%Q.
Proof.
  intros Hle. unfold Qdiv. apply Qmult_le_compat_r; [exact Hle|].
  apply Qlt_le_weak. apply Qinv_lt_0_compat.
  apply Qlt_le_trans with 1%Q; [reflexivity|apply Qmax_le_r].
Qed.

(** X23.  With thresholds in increasing order, the surge level is the
    band the demand-supply ratio falls in, a threshold belonging to the
    band above it; the handler remembers the level it returned, actions
    are recommended exactly when the level is not normal, and with a
    capacity of at most one (no rider at all, say) the ratio is the
    number of pending orders. *)
Theorem surge_level_is_the_band_of_the_ratio (config : SurgeConfig.t)
    (pendingOrders availableRiders activeBatchCapacity : Q) :
  (SurgeConfig.softSurgeRatio config <= SurgeConfig.hardSurgeRatio config)%Q ->
  (SurgeConfig.hardSurgeRatio config <= SurgeConfig.crisisRatio config)%Q ->
  let answer :=
    detectSurge config pendingOrders availableRiders activeBatchCapacity in
  let ratio := SurgeState.demandSupplyRatio (fst answer) in
  let level := SurgeState.level (fst answer) in
  (level = SurgeLevel.normal
   <-> (ratio < SurgeConfig.softSurgeRatio config)%Q)
  /\ (level = SurgeLevel.soft_surge
      <-> (SurgeConfig.softSurgeRatio config <= ratio)%Q
          /\ (ratio < SurgeConfig.hardSurgeRatio config)%Q)
  /\ (level = SurgeLevel.hard_surge
      <-> (SurgeConfig.hardSurgeRatio config <= ratio)%Q
          /\ (ratio < SurgeConfig.crisisRatio config)%Q)
  /\ (level = SurgeLevel.crisis
      <-> (SurgeConfig.crisisRatio config <= ratio)%Q)
  /\ getCurrentLevel (snd answer) = level
  /\ (SurgeState.recommendedActions (fst answer) = []
      <-> level = SurgeLevel.normal)
  /\ ((availableRiders * activeBatchCapacity <= 1)%Q ->
      (ratio == pendingOrders)%Q).
Proof.
  intros Hsh Hhc answer ratio level. subst answer ratio level.
  unfold detectSurge.
  set (ratio := (pendingOrders / Qmax (availableRiders * activeBatchCapacity) 1)%Q).
  assert (Hcap : (availableRiders * activeBatchCapacity <= 1)%Q ->
                 (ratio == pendingOrders)%Q).
  { intros Hsmall. unfold ratio, Qmax.
    destruct (Qltb (availableRiders * activeBatchCapacity) 1) eqn:E.
    - field.
    - apply Qltb_ge in E.
      assert (Hone : (availableRiders * activeBatchCapacity == 1)%Q)
        by (apply Qle_antisym; assumption).
      rewrite Hone. field. }
  destruct (Qle_bool (SurgeConfig.crisisRatio config) ratio) eqn:Ec.
  { apply Qle_bool_iff in Ec.
    cbn [fst snd SurgeState.level SurgeState.demandSupplyRatio
         SurgeState.recommendedActions getCurrentLevel currentLevel].
    repeat split; try discriminate; try tauto; intros; try lra.
    all: exfalso; lra. }
  assert (Hc : (ratio < SurgeConfig.crisisRatio config)%Q).
  { apply Qnot_le_lt. intros Hle. apply Qle_bool_iff in Hle. congruence. }
  destruct (Qle_bool (SurgeConfig.hardSurgeRatio config) ratio) eqn:Eh.
  { apply Qle_bool_iff in Eh.
    cbn [fst snd SurgeState.level SurgeState.demandSupplyRatio
         SurgeState.recommendedActions getCurrentLevel currentLevel].
    repeat split; try discriminate; try tauto; intros; try lra.
    all: exfalso; lra. }
  assert (Hh : (ratio < SurgeConfig.hardSurgeRatio config)%Q).
  { apply Qnot_le_lt. intros Hle. apply Qle_bool_iff in Hle. congruence. }
  destruct (Qle_bool (SurgeConfig.softSurgeRatio config) ratio) eqn:Es.
  { apply Qle_bool_iff in Es.
    cbn [fst snd SurgeState.level SurgeState.demandSupplyRatio
         SurgeState.recommendedActions getCurrentLevel currentLevel].
    repeat split; try discriminate; try tauto; intros; try lra.
    all: exfalso; lra. }
  assert (Hs : (ratio < SurgeConfig.softSurgeRatio config)%Q).
  { apply Qnot_le_lt. intros Hle. apply Qle_bool_iff in Hle. congruence. }
  cbn [fst snd SurgeState.level SurgeState.demandSupplyRatio
       SurgeState.recommendedActions getCurrentLevel currentLevel].
  repeat split; try discriminate; try tauto; intros; try lra.
  all: exfalso; lra.
Qed.

Lemma surge_level_is_the_band_of_the_ratio_witness :
  SurgeState.level
    (fst (detectSurge Config.DEFAULT_SURGE_CONFIG 175 20 5))
  = SurgeLevel.hard_surge.
Proof.
  pose proof (surge_level_is_the_band_of_the_ratio
                Config.DEFAULT_SURGE_CONFIG 175 20 5
                ltac:(discriminate) ltac:(discriminate))
    as (_ & _ & Hhard & _).
  apply Hhard. split; [discriminate|reflexivity].
Defined.

Lemma level_rank (config : SurgeConfig.t)
    (pendingOrders availableRiders activeBatchCapacity : Q) :
  let ratio :=
    (pendingOrders / Qmax (availableRiders * activeBatchCapacity) 1)%Q in
  surgeRank (SurgeState.level
               (fst (detectSurge config pendingOrders availableRiders
                                 activeBatchCapacity)))
  = if Qle_bool (SurgeConfig.crisisRatio config) ratio then 3%nat
    else if Qle_bool (SurgeConfig.hardSurgeRatio config) ratio then 2%nat
    else if Qle_bool (SurgeConfig.softSurgeRatio config) ratio then 1%nat
    else 0%nat.
Proof.
  intros ratio. unfold detectSurge. fold ratio.
  destruct (Qle_bool (SurgeConfig.crisisRatio config) ratio); [reflexivity|].
  destruct (Qle_bool (SurgeConfig.hardSurgeRatio config) ratio); [reflexivity|].
  destruct (Qle_bool (SurgeConfig.softSurgeRatio config) ratio); reflexivity.
Qed.

(** X24.  More pending orders never lower the surge level, whatever the
    thresholds are, in whatever order. *)
Theorem more_demand_never_lowers_the_level (config : SurgeConfig.t)
    (pending1 pending2 availableRiders activeBatchCapacity : Q) :
  (pending1 <= pending2)%Q ->
  (surgeRank (SurgeState.level
                (fst (detectSurge config pending1 availableRiders
                                  activeBatchCapacity)))
   <= surgeRank (SurgeState.level
                   (fst (detectSurge config pending2 availableRiders
                                     activeBatchCapacity))))%nat.
Proof.
  intros Hle. rewrite !level_rank. cbv zeta.
  pose proof (ratio_monotone _ _ (availableRiders * activeBatchCapacity) Hle)
    as Hratio.
  set (r1 := (pending1 / _)%Q) in *. set (r2 := (pending2 / _)%Q) in *.
  assert (Hup : forall threshold,
            Qle_bool threshold r1 = true -> Qle_bool threshold r2 = true).
  { intros threshold H1. apply Qle_bool_iff in H1. apply Qle_bool_iff.
    now apply Qle_trans with r1. }
  destruct (Qle_bool (SurgeConfig.crisisRatio config) r1) eqn:C1,
           (Qle_bool (SurgeConfig.crisisRatio config) r2) eqn:C2,
           (Qle_bool (SurgeConfig.hardSurgeRatio config) r1) eqn:H1,
           (Qle_bool (SurgeConfig.hardSurgeRatio config) r2) eqn:H2,
           (Qle_bool (SurgeConfig.softSurgeRatio config) r1) eqn:S1,
           (Qle_bool (SurgeConfig.softSurgeRatio config) r2) eqn:S2;
    try lia.
  all: try (rewrite (Hup _ C1) in C2; discriminate).
  all: try (rewrite (Hup _ H1) in H2; discriminate).
  all: try (rewrite (Hup _ S1) in S2; discriminate).
Qed.

Lemma more_demand_never_lowers_the_level_witness :
  (surgeRank (SurgeState.level
                (fst (detectSurge Config.DEFAULT_SURGE_CONFIG 150 20 5)))
   <= surgeRank (SurgeState.level
                   (fst (detectSurge Config.DEFAULT_SURGE_CONFIG 250 20 5))))%nat.
Proof.
  apply (more_demand_never_lowers_the_level Config.DEFAULT_SURGE_CONFIG
           150 250 20 5).
  discriminate.
Defined.

(** *** The modifications *)

Lemma raiseBatchSizes_lookup (increment : Q) (baseBatchSizes : gmap string Q)
    (vType : string) :
  raiseBatchSizes increment baseBatchSizes !! vType
  = (fun size => (size + increment)%Q) <$> baseBatchSizes !! vType.
Proof.
  unfold raiseBatchSizes. revert vType.
  apply (map_fold_weak_ind
           (fun (r : gmap string Q) (m : gmap string Q) =>
              forall vType,
                r !! vType = (fun size => (size + increment)%Q) <$> m !! vType)).
  - intros vType. now rewrite !lookup_empty.
  - intros k size m r Hfresh IH vType.
    destruct (decide (vType = k)) as [->|Hne].
    + now rewrite !lookup_insert_eq.
    + rewrite !lookup_insert_ne by congruence. apply IH.
Qed.

(** Under surge every vehicle type keeps an entry in the batch
    sizes, raised by the increment under soft surge and by twice the
    increment under hard surge, and no type is added; soft surge leaves
    the time, distance, disruption and affinity weights alone, does not
    make the workload weight negative and caps the SLA weight at 1. *)
Theorem surge_raises_every_batch_size (config : SurgeConfig.t) (clock : Z)
    (baseWeights : ScoringWeights.t) (baseBatchSizes : gmap string Q)
    (baseRadiusKm : Q) (orders : list (string * Order.t))
    (riders : list (string * Rider.t)) (vType : string) :
  let soft :=
    applySoftSurgeModifications config baseWeights baseBatchSizes
                                baseRadiusKm in
  let hard :=
    applyHardSurgeModifications config clock baseWeights baseBatchSizes
                                baseRadiusKm orders riders in
  SoftSurgeModifications.batchSizes soft !! vType
  = (fun size => (size + SurgeConfig.batchSizeIncrement config)%Q)
      <$> baseBatchSizes !! vType
  /\ HardSurgeModifications.batchSizes hard !! vType
     = (fun size => (size + SurgeConfig.batchSizeIncrement config * 2)%Q)
         <$> baseBatchSizes !! vType
  /\ (0 <= ScoringWeights.w5_workload (SoftSurgeModifications.weights soft))%Q
  /\ (ScoringWeights.w2_slaRisk (SoftSurgeModifications.weights soft) <= 1)%Q
  /\ ScoringWeights.w1_time (SoftSurgeModifications.weights soft)
     = ScoringWeights.w1_time baseWeights
  /\ ScoringWeights.w3_distance (SoftSurgeModifications.weights soft)
     = ScoringWeights.w3_distance baseWeights
  /\ ScoringWeights.w4_batchDisruption (SoftSurgeModifications.weights soft)
     = ScoringWeights.w4_batchDisruption baseWeights
  /\ ScoringWeights.w6_affinity (SoftSurgeModifications.weights soft)
     = ScoringWeights.w6_affinity baseWeights.
Proof.
  intros soft hard. subst soft hard.
  unfold applySoftSurgeModifications, applyHardSurgeModifications. cbn.
  split; [apply raiseBatchSizes_lookup|].
  split; [apply raiseBatchSizes_lookup|].
  split; [apply Qmax_le_l|]. split; [apply Qmin_le_l|].
  repeat split.
Qed.

(** *** Prepositioning *)

Lemma insertByCount_length (entry : string * ZoneCentroid)
    (sorted : list (string * ZoneCentroid)) :
  length (insertByCount entry sorted) = S (length sorted).
Proof.
  induction sorted as [|other rest IH]; [reflexivity|].
  simpl. destruct (orderCount (snd other) <? orderCount (snd entry))%nat;
    simpl; [reflexivity|now rewrite IH].
Qed.

Lemma sortByCount_length (entries : list (string * ZoneCentroid)) :
  length (sortByCount entries) = length entries.
Proof.
  unfold sortByCount.
  assert (G : forall acc,
            length (fold_left (fun sorted entry => insertByCount entry sorted)
                              entries acc)
            = (length acc + length entries)%nat).
  { induction entries as [|e l IH]; intros acc; simpl; [lia|].
    rewrite IH, insertByCount_length. lia. }
  now rewrite G.
Qed.

(** Writing one entry per key of a map with distinct keys yields a map
    with the same keys. *)
Lemma keys_rewritten {V W : Type} (g : string * V -> W)
    (m : list (string * V)) :
  forall acc : list (string * W),
    List.NoDup (keys acc ++ keys m) ->
    keys (fold_left (fun acc kv => set (fst kv) (g kv) acc) m acc)
    = keys acc ++ keys m.
Proof.
  induction m as [|[k v] m IH]; intros acc Hnd; simpl.
  - now rewrite app_nil_r.
  - assert (Hfresh : ~ In k (keys acc)).
    { intros Hin. apply List.NoDup_remove_2 in Hnd. apply Hnd.
      apply in_app_iff. now left. }
    rewrite IH; rewrite keys_set_absent by exact Hfresh.
    + now rewrite <- app_assoc.
    + rewrite <- app_assoc. exact Hnd.
Qed.

Lemma groupOrdersByZone_keys (orders : list (string * Order.t)) :
  List.NoDup (keys (groupOrdersByZone orders)).
Proof.
  unfold groupOrdersByZone.
  apply (fold_left_preserves
           (fun zones : list (string * list Order.t) =>
              List.NoDup (keys zones))).
  - intros zones order _ Hnd. apply NoDup_keys_set.
    destruct (negb (has _ zones)); [now apply NoDup_keys_set|exact Hnd].
  - apply List.NoDup_nil.
Qed.

Lemma groupOrdersByZone_length (orders : list (string * Order.t)) :
  (length (groupOrdersByZone orders) <= length orders)%nat.
Proof.
  unfold groupOrdersByZone, values. rewrite <- (length_map snd orders).
  generalize (map snd orders). intros l.
  assert (G : forall acc : list (string * list Order.t),
            (length
               (fold_left
                  (fun zones order =>
                     let zone :=
                       getOrderZone
                         (OrderDelivery.location (Order.delivery order)) in
                     let zones :=
                       if negb (has zone zones) then set zone [] zones
                       else zones in
                     set zone (default [] (get zone zones) ++ [order]) zones)
                  l acc)
             <= length acc + length l)%nat).
  { induction l as [|o l IH]; intros acc; simpl; [lia|].
    eapply Nat.le_trans; [apply IH|].
    set (zone := getOrderZone _).
    assert (Hset : forall (v : list Order.t) zones,
              In zone (keys zones) -> length (set zone v zones) = length zones).
    { intros v zones Hin. rewrite <- !(length_map fst).
      change (map fst (set zone v zones)) with (keys (set zone v zones)).
      now rewrite keys_set_present. }
    destruct (has zone acc) eqn:Ehas; simpl.
    - rewrite Hset; [lia|].
      destruct (in_dec String.string_dec zone (keys acc)) as [Hin|Hnot];
        [exact Hin|].
      apply get_None_keys in Hnot. unfold has in Ehas.
      rewrite Hnot in Ehas. discriminate.
    - rewrite Hset by (apply In_keys_set; now left).
      pose proof (length_set_le zone [] acc). lia. }
  specialize (G []). simpl in G. exact G.
Qed.

(** X25.  Prepositioning hands out one target per idle rider and per
    delivery zone with orders, until either runs out: the targets go to
    the first idle riders in the order of the rider map, one each, never
    to a rider who is busy or not active, and there are never more
    targets than orders. *)
Theorem prepositioning_targets_go_to_idle_riders
    (orders : list (string * Order.t)) (riders : list (string * Rider.t)) :
  let targets := calculatePrepositioningTargets orders riders in
  let zones := groupOrdersByZone orders in
  length targets = Nat.min (length (idleRiders riders)) (length zones)
  /\ map PrepositioningTarget.riderId targets
     = take (length targets) (map Rider.riderId (idleRiders riders))
  /\ (length targets <= length orders)%nat.
Proof.
  intros targets zones. subst targets zones.
  unfold calculatePrepositioningTargets. fold (idleRiders riders).
  destruct (length (idleRiders riders) =? 0)%nat eqn:Hidle.
  { apply Nat.eqb_eq in Hidle. rewrite Hidle. simpl.
    repeat split. lia. }
  assert (Hzones : length (sortByCount (calculateZoneCentroids
                                          (groupOrdersByZone orders)))
                   = length (groupOrdersByZone orders)).
  { rewrite sortByCount_length. unfold calculateZoneCentroids.
    rewrite <- !(length_map fst).
    change (map fst ?m) with (keys m).
    rewrite keys_rewritten; [reflexivity|].
    simpl. apply groupOrdersByZone_keys. }
  set (sorted := sortByCount _) in *.
  assert (Hlen : length (map (fun rz : Rider.t * (string * ZoneCentroid) =>
                                {| PrepositioningTarget.riderId :=
                                     Rider.riderId (fst rz);
                                   PrepositioningTarget.targetLocation :=
                                     centroid (snd (snd rz)) |})
                             (combine (idleRiders riders) sorted))
                 = Nat.min (length (idleRiders riders))
                           (length (groupOrdersByZone orders))).
  { now rewrite length_map, length_combine, Hzones. }
  split; [exact Hlen|]. split.
  - rewrite Hlen, <- Hzones. rewrite map_map. cbn [PrepositioningTarget.riderId].
    generalize (idleRiders riders) sorted. clear.
    induction l as [|r l IH]; intros [|z zs]; simpl; try reflexivity.
    f_equal. apply IH.
  - rewrite Hlen. pose proof (groupOrdersByZone_length orders). lia.
Qed.

(** Of three orders, two are delivered in the zone of the depot and one,
    the first of the map, a degree north of it; of two riders one is idle.
    The idle rider is sent to the centroid of the zone with two orders,
    and 45 minutes into the hour the order held back is the one due in
    two hours. *)
Example prepositioning_prefers_the_busiest_zone :
  match calculatePrepositioningTargets threeOrders twoRiders with
  | [target] =>
      PrepositioningTarget.riderId target = "rider_0"%string
      /\ (Location.lat (PrepositioningTarget.targetLocation target)
          == Location.lat depot)%Q
      /\ (Location.lng (PrepositioningTarget.targetLocation target)
          == Location.lng depot)%Q
  | _ => False
  end
  /\ HardSurgeModifications.heldOrders
       (applyHardSurgeModifications Config.DEFAULT_SURGE_CONFIG 2700000
          Config.DEFAULT_SCORING_WEIGHTS ∅ 5 threeOrders twoRiders)
     = ["ord_1"%string].
Proof. vm_compute. repeat split. Qed.

End SurgeHandlerFacts.

(** ** Cycle orchestrator *)
Module AssignmentEngineFacts.
Import AssignmentEngine Scenarios.

(** The result of a cycle that found pending orders, field by field. *)
Lemma executeCycle_result `{Platform} (fuel : nat) (clock : Z)
    (engine : AssignmentEngine.t) (result : AssignmentCycleResult.t)
    (engine' : AssignmentEngine.t) :
  executeCycle fuel clock engine = Some (result, engine') ->
  let pending := List.filter isPending (Js.values (orders (state engine))) in
  AssignmentCycleResult.successCount result
  = Z.of_nat (length (AssignmentCycleResult.decisions result))
  /\ AssignmentCycleResult.failureCount result
     = (Z.of_nat (length pending)
        - Z.of_nat (length (AssignmentCycleResult.decisions result)))%Z
  /\ Metrics.avgCost (AssignmentCycleResult.metrics result)
     = calculateAverageCost (AssignmentCycleResult.decisions result).
Proof.
  intros Hrun pending. unfold executeCycle in Hrun. fold pending in Hrun.
  destruct (length pending =? 0)%nat eqn:E0.
  - injection Hrun as <- _. apply Nat.eqb_eq in E0. rewrite E0.
    repeat split.
  - destruct (stage2Scoring _ _ _ _ _) as [scores model].
    destruct (stage3GlobalOptimization _ _ _) as [assigned|]; [|discriminate].
    destruct (createAssignmentDecisions _ _ _) as [[decisions os] rs].
    destruct (fold_left _ _ (os, counters engine)) as [os' cs].
    injection Hrun as <- _. repeat split.
Qed.

(** A cycle that has returned returns the same with more fuel. *)
Lemma executeCycle_fuel `{Platform} (fuel fuel' : nat) (clock : Z)
    (engine : AssignmentEngine.t) (out : AssignmentCycleResult.t * AssignmentEngine.t) :
  executeCycle fuel clock engine = Some out -> (fuel <= fuel')%nat ->
  executeCycle fuel' clock engine = Some out.
Proof.
  unfold executeCycle. intros Hrun Hle.
  destruct (length _ =? 0)%nat; [exact Hrun|].
  destruct (stage2Scoring _ _ _ _ _) as [scores model].
  unfold stage3GlobalOptimization in *.
  destruct (Optimizers.AdaptiveOptimizer.optimize fuel _ _) as [r|] eqn:E;
    [|discriminate].
  rewrite (OptimizersFacts.AdaptiveOptimizer_fuel _ _ _ _ _ E Hle).
  exact Hrun.
Qed.

(** With no pending order the cycle returns at once, with empty counts. *)
Lemma executeCycle_nothing_pending `{Platform} (fuel : nat) (clock : Z)
    (engine : AssignmentEngine.t) :
  List.filter isPending (Js.values (orders (state engine))) = [] ->
  exists result,
    executeCycle fuel clock engine = Some (result, engine)
    /\ AssignmentCycleResult.decisions result = []
    /\ AssignmentCycleResult.successCount result = 0%Z
    /\ AssignmentCycleResult.failureCount result = 0%Z.
Proof.
  intros Hnone. unfold executeCycle. rewrite Hnone. simpl.
  eexists. split; [reflexivity|]. repeat split.
Qed.

(** C8.  The success and failure counts of a cycle add up to the number
    of orders that were pending when it started, the success count being
    the number of decisions. *)
Theorem counts_add_up_to_pending `{Platform} (fuel : nat) (clock : Z)
    (engine : AssignmentEngine.t) (result : AssignmentCycleResult.t)
    (engine' : AssignmentEngine.t) :
  executeCycle fuel clock engine = Some (result, engine') ->
  (AssignmentCycleResult.successCount result
   + AssignmentCycleResult.failureCount result)%Z
  = Z.of_nat
      (length (List.filter
                 (fun o => OrderStatus.eqb (Order.status o)
                                           OrderStatus.pending_assignment)
                 (Js.values (orders (state engine)))))
  /\ AssignmentCycleResult.successCount result
     = Z.of_nat (length (AssignmentCycleResult.decisions result)).
Proof.
  intros Hrun.
  destruct (executeCycle_result _ _ _ _ _ Hrun) as (Hs & Hf & _).
  rewrite Hs, Hf. split; [|reflexivity]. unfold isPending. lia.
Qed.

Lemma counts_add_up_to_pending_witness :
  exists result engine',
    executeCycle (H := gridPlatform) 5 0 sampleEngine = Some (result, engine')
    /\ AssignmentCycleResult.successCount result = 1%Z
    /\ (AssignmentCycleResult.successCount result
        + AssignmentCycleResult.failureCount result)%Z = 2%Z.
Proof.
  destruct (executeCycle (H := gridPlatform) 5 0 sampleEngine)
    as [[result engine']|] eqn:Hrun.
  - exists result, engine'. split; [reflexivity|].
    destruct (counts_add_up_to_pending (H := gridPlatform) _ _ _ _ _ Hrun)
      as [Hsum Hsuccess].
    split; [|exact Hsum].
    vm_compute in Hrun. injection Hrun as <- _. reflexivity.
  - vm_compute in Hrun. discriminate.
Defined.

(** C5, where the code departs from the claim.  Whenever a cycle emits a
    decision, the reported average cost is the constant 0.5, whatever the
    scorer costs of the chosen pairs are. *)
Theorem avgCost_is_one_half `{Platform} (fuel : nat) (clock : Z)
    (engine : AssignmentEngine.t) (result : AssignmentCycleResult.t)
    (engine' : AssignmentEngine.t) :
  executeCycle fuel clock engine = Some (result, engine') ->
  AssignmentCycleResult.decisions result <> [] ->
  Metrics.avgCost (AssignmentCycleResult.metrics result) = (1 # 2)%Q.
Proof.
  intros Hrun Hne.
  destruct (executeCycle_result _ _ _ _ _ Hrun) as (_ & _ & ->).
  unfold calculateAverageCost.
  destruct (AssignmentCycleResult.decisions result); [congruence|reflexivity].
Qed.

(** On the sample cycle one pair is chosen; its scorer cost is negative,
    and the reported average is 0.5. *)
Lemma avgCost_is_one_half_witness :
  exists result engine',
    executeCycle (H := gridPlatform) 5 0 sampleEngine = Some (result, engine')
    /\ Metrics.avgCost (AssignmentCycleResult.metrics result) = (1 # 2)%Q
    /\ (mean (chosenCosts sampleScores
                (AssignmentCycleResult.decisions result))
        == - (829 # 260000))%Q.
Proof.
  destruct (executeCycle (H := gridPlatform) 5 0 sampleEngine)
    as [[result engine']|] eqn:Hrun.
  - exists result, engine'. split; [reflexivity|]. split.
    + apply (avgCost_is_one_half (H := gridPlatform) _ _ _ _ _ Hrun).
      vm_compute in Hrun. injection Hrun as <- _. discriminate.
    + vm_compute in Hrun. injection Hrun as <- _. vm_compute. reflexivity.
  - vm_compute in Hrun. discriminate.
Defined.

(** The sentinel pairs reach the cycle: on [crowdedEngine] the order
    ord_2, of 4 kg, has rider_1 as its only candidate, yet the cycle
    assigns it to rider_2, whose car carries 1 kg and fails the capacity
    check for it. *)
Example cycle_assigns_a_rider_that_failed_a_check :
  exists result engine',
    executeCycle (H := gridPlatform) 5 0 crowdedEngine = Some (result, engine')
    /\ map (fun d => (AssignmentDecision.orderId d, AssignmentDecision.riderId d))
           (AssignmentCycleResult.decisions result)
       = [ ("ord_1", "rider_1"); ("ord_2", "rider_2"); ("ord_3", "rider_3") ]%string
    /\ Js.get "ord_2"
         (stage1CandidateGeneration (H := gridPlatform) crowdedEngine
            (List.filter isPending (Js.values (orders (state crowdedEngine)))) 0)
       = Some ["rider_1"%string]
    /\ (forall order rider,
          Js.get "ord_2" (orders (state crowdedEngine)) = Some order ->
          Js.get "rider_2" (riders (state crowdedEngine)) = Some rider ->
          CandidateGenerator.capacityCheck order rider = false).
Proof.
  destruct (executeCycle (H := gridPlatform) 5 0 crowdedEngine)
    as [[result engine']|] eqn:Hrun; [|vm_compute in Hrun; discriminate].
  exists result, engine'. split; [reflexivity|].
  vm_compute in Hrun. injection Hrun as <- _.
  split; [reflexivity|]. split; [vm_compute; reflexivity|].
  intros order rider [= <-] [= <-]. vm_compute. reflexivity.
Qed.

Import Js JsFacts.

(** *** Decisions *)

Lemma has_keys {V : Type} (k : string) (m : list (string * V)) :
  has k m = true <-> In k (keys m).
Proof.
  unfold has. destruct (get k m) as [v|] eqn:E.
  - split; [|reflexivity]. intros _.
    destruct (in_dec String.string_dec k (keys m)) as [Hin|Hnot];
      [exact Hin|].
    apply get_None_keys in Hnot. congruence.
  - split; [discriminate|]. intros Hin. apply get_None_keys in E. tauto.
Qed.

Lemma has_same_keys {V W : Type} (k : string) (m : list (string * V))
    (m' : list (string * W)) :
  keys m' = keys m -> has k m' = has k m.
Proof.
  intros Hkeys. destruct (has k m) eqn:E.
  - apply has_keys. rewrite Hkeys. now apply has_keys.
  - destruct (has k m') eqn:E'; [|reflexivity].
    apply has_keys in E'. rewrite Hkeys in E'. apply has_keys in E'.
    congruence.
Qed.

Lemma keys_set_known {V : Type} (k : string) (v v' : V)
    (m : list (string * V)) :
  get k m = Some v -> keys (set k v' m) = keys m.
Proof.
  intros Hget. apply keys_set_present.
  destruct (in_dec String.string_dec k (keys m)) as [Hin|Hnot]; [exact Hin|].
  apply get_None_keys in Hnot. congruence.
Qed.

Lemma decide1_step (decisions : list AssignmentDecision.t)
    (os : list (string * Order.t)) (rs : list (string * Rider.t))
    (o r : string) :
  decide1 (decisions, os, rs) (o, r)
  = match get o os, get r rs with
    | Some order, Some rider =>
        (decisions
           ++ [ {| AssignmentDecision.orderId := o;
                   AssignmentDecision.riderId := r;
                   AssignmentDecision.sequenceIndex :=
                     length (Rider.currentAssignments rider) |} ],
         set o (assignOrder r order) os,
         set r (pushAssignment o rider) rs)
    | _, _ => (decisions, os, rs)
    end.
Proof. reflexivity. Qed.

(** The loop of [createAssignmentDecisions], from any state. *)
Lemma decisions_loop (assigned : list (string * string)) :
  forall decisions os rs,
    let out := fold_left decide1 assigned (decisions, os, rs) in
    keys (snd (fst out)) = keys os
    /\ keys (snd out) = keys rs
    /\ map decisionPair (fst (fst out))
       = map decisionPair decisions ++ List.filter (knownPair os rs) assigned
    /\ ((forall d, In d decisions -> queuedAsDecided rs d) ->
        forall d, In d (fst (fst out)) -> queuedAsDecided (snd out) d)
    /\ (List.NoDup (keys assigned) ->
        (forall d, In d decisions ->
           ~ In (AssignmentDecision.orderId d) (keys assigned)) ->
        (forall d, In d decisions -> assignedAsDecided os d) ->
        forall d, In d (fst (fst out)) -> assignedAsDecided (snd (fst out)) d).
Proof.
  induction assigned as [|[o r] assigned IH]; intros decisions os rs.
  - simpl. rewrite app_nil_r. repeat split; auto.
  - cbn [fold_left]. rewrite decide1_step. cbn [List.filter].
    assert (Hknown : knownPair os rs (o, r)
                     = match get o os, get r rs with
                       | Some _, Some _ => true
                       | _, _ => false
                       end).
    { unfold knownPair, has. cbn [fst snd].
      destruct (get o os); [|reflexivity]. now destruct (get r rs). }
    rewrite Hknown. clear Hknown.
    destruct (get o os) as [order|] eqn:Ho;
      [destruct (get r rs) as [rider|] eqn:Hr|].
    + set (d0 := {| AssignmentDecision.orderId := o;
                    AssignmentDecision.riderId := r;
                    AssignmentDecision.sequenceIndex :=
                      length (Rider.currentAssignments rider) |}).
      set (os1 := set o (assignOrder r order) os).
      set (rs1 := set r (pushAssignment o rider) rs).
      assert (Hkos : keys os1 = keys os) by (eapply keys_set_known; eassumption).
      assert (Hkrs : keys rs1 = keys rs) by (eapply keys_set_known; eassumption).
      destruct (IH (decisions ++ [d0]) os1 rs1)
        as (Hos & Hrs & Hpairs & Hqueued & Hassigned).
      split; [congruence|]. split; [congruence|]. split; [|split].
      * rewrite Hpairs, map_app, <- app_assoc. cbn [map app].
        f_equal. f_equal. apply filter_ext. intros [o' r'].
        unfold knownPair. cbn [fst snd].
        now rewrite (has_same_keys o' os os1 Hkos),
                    (has_same_keys r' rs rs1 Hkrs).
      * intros Hold. apply Hqueued. intros d Hd.
        apply in_app_iff in Hd as [Hd|[<-|[]]].
        -- destruct (Hold d Hd) as (rider' & Hget & Hnth).
           unfold queuedAsDecided, rs1.
           destruct (String.eqb (AssignmentDecision.riderId d) r) eqn:E.
           ++ apply String.eqb_eq in E. rewrite E in *.
              rewrite get_set_eq. eexists. split; [reflexivity|].
              cbn [pushAssignment Rider.currentAssignments].
              assert (rider' = rider) by congruence. subst rider'.
              rewrite nth_error_app1; [exact Hnth|].
              apply nth_error_Some. congruence.
           ++ apply String.eqb_neq in E. rewrite get_set_ne by exact E.
              now exists rider'.
        -- unfold queuedAsDecided, rs1, d0.
           cbn [AssignmentDecision.riderId AssignmentDecision.orderId
                AssignmentDecision.sequenceIndex].
           rewrite get_set_eq. eexists. split; [reflexivity|].
           cbn [pushAssignment Rider.currentAssignments].
           rewrite nth_error_app2 by lia. now rewrite Nat.sub_diag.
      * intros Hnd Hfresh Hold. cbn [keys map fst] in Hnd.
        apply List.NoDup_cons_iff in Hnd as [Ho' Hnd].
        apply Hassigned; [exact Hnd| |].
        -- intros d Hd. apply in_app_iff in Hd as [Hd|[<-|[]]].
           ++ intros Hin. apply (Hfresh d Hd). now right.
           ++ exact Ho'.
        -- intros d Hd. apply in_app_iff in Hd as [Hd|[<-|[]]].
           ++ destruct (Hold d Hd) as (order' & Hget & Hstatus & Hrider).
              unfold assignedAsDecided, os1.
              assert (Hne : AssignmentDecision.orderId d <> o).
              { intros Heq. apply (Hfresh d Hd). left. now symmetry. }
              rewrite get_set_ne by exact Hne. now exists order'.
           ++ unfold assignedAsDecided, os1, d0.
              cbn [AssignmentDecision.riderId AssignmentDecision.orderId].
              rewrite get_set_eq. eexists. split; [reflexivity|].
              split; reflexivity.
    + destruct (IH decisions os rs)
        as (Hos & Hrs & Hpairs & Hqueued & Hassigned).
      repeat split; try assumption.
      intros Hnd Hfresh Hold. cbn [keys map fst] in Hnd.
      apply List.NoDup_cons_iff in Hnd as [_ Hnd].
      apply Hassigned; [exact Hnd| |exact Hold].
      intros d Hd Hin. apply (Hfresh d Hd). now right.
    + destruct (IH decisions os rs)
        as (Hos & Hrs & Hpairs & Hqueued & Hassigned).
      repeat split; try assumption.
      intros Hnd Hfresh Hold. cbn [keys map fst] in Hnd.
      apply List.NoDup_cons_iff in Hnd as [_ Hnd].
      apply Hassigned; [exact Hnd| |exact Hold].
      intros d Hd Hin. apply (Hfresh d Hd). now right.
Qed.

(** X26.  The decisions of a cycle are, in order, the pairs of the
    solver's answer whose order and rider are both known; no order and no
    rider is added to or dropped from the maps; and the [sequenceIndex] of
    every decision is the position at which its order stands in the
    rider's list of current assignments afterwards. *)
Theorem decisions_record_the_position_in_the_queue
    (os : list (string * Order.t)) (rs : list (string * Rider.t))
    (assigned : list (string * string)) :
  let out := createAssignmentDecisions os rs assigned in
  map decisionPair (fst (fst out)) = List.filter (knownPair os rs) assigned
  /\ keys (snd (fst out)) = keys os
  /\ keys (snd out) = keys rs
  /\ forall d, In d (fst (fst out)) -> queuedAsDecided (snd out) d.
Proof.
  intros out. subst out. unfold createAssignmentDecisions.
  destruct (decisions_loop assigned [] os rs)
    as (Hos & Hrs & Hpairs & Hqueued & _).
  split; [exact Hpairs|]. split; [exact Hos|]. split; [exact Hrs|].
  apply Hqueued. intros d [].
Qed.

(** *** The cost matrix *)

Lemma cell_insert (cm : list (list Q)) (i j i' j' : nat) (c : Q) :
  (i < length cm)%nat -> (j < length (nth i cm []))%nat ->
  Optimizers.cell (<[i := <[j := c]> (nth i cm [])]> cm) i' j'
  = if (i' =? i)%nat && (j' =? j)%nat then Some c
    else Optimizers.cell cm i' j'.
Proof.
  intros Hi Hj. unfold Optimizers.cell. rewrite !nth_error_lookup.
  destruct (i' =? i)%nat eqn:Ei.
  - apply Nat.eqb_eq in Ei. subst i'.
    rewrite list_lookup_insert_eq by exact Hi.
    rewrite nth_error_lookup.
    destruct (j' =? j)%nat eqn:Ej; cbn [andb].
    + apply Nat.eqb_eq in Ej. subst j'. now rewrite list_lookup_insert_eq.
    + apply Nat.eqb_neq in Ej. rewrite list_lookup_insert_ne by congruence.
      destruct (cm !! i) as [row|] eqn:Hrow.
      * rewrite <- nth_error_lookup in Hrow.
        rewrite (nth_error_nth _ _ [] Hrow). now rewrite nth_error_lookup.
      * apply lookup_ge_None in Hrow. lia.
  - apply Nat.eqb_neq in Ei. cbn [andb].
    now rewrite list_lookup_insert_ne by congruence.
Qed.


(** *** What a cycle changes *)

Lemma release1_keys (cfg : ReassignmentConfig.t) `{Platform} (clock : Z)
    (rs : list (string * Rider.t))
    (acc : list (string * Order.t) * ReassignmentEngine.Counters)
    (orderId : string) :
  keys (fst (release1 cfg clock rs acc orderId)) = keys (fst acc).
Proof.
  destruct acc as [os cs]. unfold release1.
  destruct (get orderId os) as [order|] eqn:Hget; [|reflexivity].
  destruct (negb (ReassignmentEngine.canReassign cfg cs clock orderId));
    [reflexivity|].
  destruct (match get (default ""%string (Order.assignedRiderId order)) rs with
            | Some currentRider =>
                ReassignmentEngine.isReassignmentSuppressed cfg currentRider
                  (OrderPickup.location (Order.pickup order))
            | None => false
            end); [reflexivity|].
  cbn [fst]. eapply keys_set_known. exact Hget.
Qed.

Lemma triggers_keys `{Platform} (cfg : ReassignmentConfig.t) (clock : Z)
    (rs : list (string * Rider.t)) (triggers : list ReassignmentTrigger.t) :
  forall acc,
    keys (fst (fold_left (handleReassignmentTrigger cfg clock rs) triggers acc))
    = keys (fst acc).
Proof.
  induction triggers as [|trigger triggers IH]; intros acc; [reflexivity|].
  cbn [fold_left]. rewrite IH. unfold handleReassignmentTrigger.
  generalize (ReassignmentTrigger.affectedOrderIds trigger). intros ids.
  revert acc. induction ids as [|id ids IHi]; intros acc; [reflexivity|].
  cbn [fold_left]. rewrite IHi. apply release1_keys.
Qed.

(** X28.  A cycle never adds or drops an order or a rider, and never
    touches the configuration, the rider locations or the map of
    assignments; its id is made of the clock reading and the cycle
    counter.  With no pending order the orders, the riders, the ETA model
    and the reassignment counters are as they were, the counter is not
    advanced and the (empty) result is not added to the history;
    otherwise the counter advances by one and the result is appended to
    the history.  (The surge state, which the engine refreshes on every
    call, is not among the fields this speaks of.) *)
Theorem cycle_keeps_every_order_and_rider `{Platform} (fuel : nat)
    (clock : Z) (engine : AssignmentEngine.t)
    (result : AssignmentCycleResult.t) (engine' : AssignmentEngine.t) :
  executeCycle fuel clock engine = Some (result, engine') ->
  let pending := List.filter isPending (values (orders (state engine))) in
  keys (orders (state engine')) = keys (orders (state engine))
  /\ keys (riders (state engine')) = keys (riders (state engine))
  /\ config engine' = config engine
  /\ riderLocations engine' = riderLocations engine
  /\ assignments (state engine') = assignments (state engine)
  /\ AssignmentCycleResult.cycleId result = (clock, cycleCount engine)
  /\ AssignmentCycleResult.timestamp result = clock
  /\ (pending = [] ->
      orders (state engine') = orders (state engine)
      /\ riders (state engine') = riders (state engine)
      /\ etaModel engine' = etaModel engine
      /\ counters engine' = counters engine
      /\ cycleCount engine' = cycleCount engine
      /\ cycleHistory (state engine') = cycleHistory (state engine))
  /\ (pending <> [] ->
      cycleCount engine' = (cycleCount engine + 1)%Z
      /\ cycleHistory (state engine')
         = cycleHistory (state engine) ++ [result]).
Proof.
  intros Hrun pending. unfold executeCycle in Hrun. fold pending in Hrun.
  destruct (length pending =? 0)%nat eqn:E0.
  - injection Hrun as <- <-. apply Nat.eqb_eq in E0.
    repeat split; try reflexivity.
    all: destruct pending; [congruence|discriminate].
  - destruct (stage2Scoring _ _ _ _ _) as [scores model].
    destruct (stage3GlobalOptimization _ _ _) as [assigned|]; [|discriminate].
    pose proof (decisions_loop assigned [] (orders (state engine))
                  (riders (state engine))) as (Hos & Hrs & _).
    fold (createAssignmentDecisions (orders (state engine))
            (riders (state engine)) assigned) in Hos, Hrs.
    destruct (createAssignmentDecisions _ _ _) as [[decisions os] rs].
    cbn [fst snd] in Hos, Hrs.
    pose proof (triggers_keys
                  (AssignmentEngineConfig.reassignment (config engine)) clock rs
                  (ReassignmentEngine.detectTriggers
                     (AssignmentEngineConfig.reassignment (config engine))
                     os rs (assignments (state engine)) clock)
                  (os, counters engine)) as Hkeys.
    destruct (fold_left _ _ (os, counters engine)) as [os' cs].
    cbn [fst] in Hkeys. injection Hrun as <- <-.
    cbn [state orders riders config riderLocations assignments cycleCount
         cycleHistory AssignmentCycleResult.cycleId
         AssignmentCycleResult.timestamp].
    split; [congruence|]. split; [exact Hrs|].
    repeat split; try reflexivity.
    all: match goal with
         | Hnone : _ = [] |- _ => rewrite Hnone in E0; discriminate
         end.
Qed.

Lemma cycle_keeps_every_order_and_rider_witness :
  exists result engine',
    executeCycle (H := gridPlatform) 5 0 crowdedEngine = Some (result, engine')
    /\ keys (orders (state engine')) = ["ord_1"; "ord_2"; "ord_3"]%string
    /\ keys (riders (state engine'))
       = ["rider_1"; "rider_2"; "rider_3"]%string.
Proof.
  destruct (executeCycle (H := gridPlatform) 5 0 crowdedEngine)
    as [[result engine']|] eqn:Hrun; [|vm_compute in Hrun; discriminate].
  exists result, engine'. split; [reflexivity|].
  destruct (cycle_keeps_every_order_and_rider (H := gridPlatform) _ _ _ _ _
              Hrun) as (Hos & Hrs & _).
  rewrite Hos, Hrs. split; reflexivity.
Defined.

(** *** The counts of a cycle *)

Lemma scoreAssignment_ids `{Platform} (etaConfig : ETAConfig.t)
    (weights : ScoringWeights.t) (scale : Q) (model : ETAModel.t) (clock : Z)
    (order : Order.t) (rider : Rider.t) (now : Z) :
  ScoringResult.orderId
    (fst (Scorer.scoreAssignment etaConfig weights scale model clock order
                                 rider now))
  = Order.orderId order.
Proof.
  unfold Scorer.scoreAssignment.
  destruct (Scorer.calculateDeltaTimeCost _ _ _ _ _ _) as [delta model1].
  destruct (Scorer.calculateSLARiskCost _ _ _ _ _ _ _) as [risk model2].
  reflexivity.
Qed.

(** Every score of stage 2 is for a pending order. *)
Lemma stage2Scoring_ids `{Platform} (engine : AssignmentEngine.t) (clock : Z)
    (pending : list Order.t) (candidates : list (string * list string))
    (now : Z) (score : ScoringResult.t) :
  In score (fst (stage2Scoring engine clock pending candidates now)) ->
  In (ScoringResult.orderId score) (map Order.orderId pending).
Proof.
  unfold stage2Scoring.
  set (P := fun (seen : list Order.t) (acc : list ScoringResult.t * ETAModel.t) =>
              forall s, In s (fst acc) ->
                        In (ScoringResult.orderId s) (map Order.orderId seen)).
  assert (Hloop : forall l seen acc,
            P seen acc ->
            P (seen ++ l)
              (fold_left
                 (fun acc order =>
                    let candidateRiders :=
                      default [] (get (Order.orderId order) candidates) in
                    fold_left
                      (fun (acc : list ScoringResult.t * ETAModel.t) riderId =>
                         match get riderId (riders (state engine)) with
                         | None => acc
                         | Some rider =>
                             let '(score, model) :=
                               Scorer.scoreAssignment
                                 (AssignmentEngineConfig.eta (config engine))
                                 (AssignmentEngineConfig.weights (config engine))
                                 (SLAConfig.slaRiskSigmoidScale
                                    (AssignmentEngineConfig.sla (config engine)))
                                 (snd acc) clock order rider now in
                             (fst acc ++ [score], model)
                         end)
                      candidateRiders acc) l acc)).
  { induction l as [|order l IH]; intros seen acc Hacc.
    - simpl. now rewrite app_nil_r.
    - cbn [fold_left].
      replace (seen ++ order :: l) with ((seen ++ [order]) ++ l)
        by now rewrite <- app_assoc.
      apply IH. cbv zeta.
      apply (fold_left_preserves (P (seen ++ [order]))).
      + intros acc' riderId _ Hacc'.
        destruct (get riderId (riders (state engine))) as [rider|];
          [|exact Hacc'].
        pose proof (scoreAssignment_ids
                      (AssignmentEngineConfig.eta (config engine))
                      (AssignmentEngineConfig.weights (config engine))
                      (SLAConfig.slaRiskSigmoidScale
                         (AssignmentEngineConfig.sla (config engine)))
                      (snd acc') clock order rider now) as Hid.
        destruct (Scorer.scoreAssignment _ _ _ _ _ _ _ _) as [sc model].
        cbn [fst] in Hid. intros s Hs. cbn [fst] in Hs.
        apply in_app_iff in Hs as [Hs|[<-|[]]]; [now apply Hacc'|].
        rewrite Hid, map_app. apply in_app_iff. right. now left.
      + intros s Hs. rewrite map_app. apply in_app_iff. left.
        now apply Hacc. }
  intros Hin.
  apply (Hloop pending [] ([], etaModel engine)); [intros s []|exact Hin].
Qed.

(** X29.  A cycle never reports more successes than there were pending
    orders: the failure count is not negative. *)
Theorem failure_count_is_not_negative `{Platform} (fuel : nat) (clock : Z)
    (engine : AssignmentEngine.t) (result : AssignmentCycleResult.t)
    (engine' : AssignmentEngine.t) :
  executeCycle fuel clock engine = Some (result, engine') ->
  (0 <= AssignmentCycleResult.failureCount result)%Z
  /\ (AssignmentCycleResult.successCount result
      <= Z.of_nat
           (length (List.filter isPending (values (orders (state engine))))))%Z.
Proof.
  intros Hrun.
  assert (Hle : (length (AssignmentCycleResult.decisions result)
                 <= length (List.filter isPending
                              (values (orders (state engine)))))%nat).
  { unfold executeCycle in Hrun.
    set (pending := List.filter isPending (values (orders (state engine))))
      in *.
    destruct (length pending =? 0)%nat.
    { injection Hrun as <- _. simpl. lia. }
    pose proof (stage2Scoring_ids engine clock pending
                  (stage1CandidateGeneration engine pending clock) clock)
      as Hids.
    destruct (stage2Scoring _ _ _ _ _) as [scores model]. cbn [fst] in Hids.
    unfold stage3GlobalOptimization in Hrun.
    destruct (Optimizers.AdaptiveOptimizer.optimize fuel (buildMatrix scores) _)
      as [r|] eqn:Hsolve; [|discriminate].
    cbn [option_map] in Hrun.
    pose proof (OptimizersFacts.adaptive_within _ _ _ _ Hsolve)
      as (_ & Hsize & _).
    pose proof (decisions_loop (Optimizers.assignments r) []
                  (orders (state engine)) (riders (state engine)))
      as (_ & _ & Hpairs & _).
    fold (createAssignmentDecisions (orders (state engine))
            (riders (state engine)) (Optimizers.assignments r)) in Hpairs.
    destruct (createAssignmentDecisions _ _ _) as [[decisions os] rs].
    cbn [fst snd map app] in Hpairs.
    destruct (fold_left _ _ (os, counters engine)) as [os' cs].
    injection Hrun as <- _. cbn [AssignmentCycleResult.decisions].
    assert (Hd : (length decisions <= length (Optimizers.assignments r))%nat).
    { rewrite <- (length_map decisionPair), Hpairs. apply filter_length_le. }
    assert (Hn : (length (Optimizers.orders (buildMatrix scores))
                  <= length pending)%nat).
    { unfold buildMatrix. cbn [Optimizers.orders].
      rewrite <- (length_map Order.orderId pending).
      apply List.NoDup_incl_length; [apply dedup_spec|].
      intros id Hid. apply (proj1 (proj2 (dedup_spec _) id)) in Hid.
      apply in_map_iff in Hid as (s & <- & Hs). now apply Hids. }
    lia. }
  destruct (executeCycle_result _ _ _ _ _ Hrun) as (Hs & Hf & _).
  rewrite Hs, Hf. lia.
Qed.

Lemma failure_count_is_not_negative_witness :
  exists result engine',
    executeCycle (H := gridPlatform) 5 0 crowdedEngine = Some (result, engine')
    /\ (0 <= AssignmentCycleResult.failureCount result)%Z.
Proof.
  destruct (executeCycle (H := gridPlatform) 5 0 crowdedEngine)
    as [[result engine']|] eqn:Hrun; [|vm_compute in Hrun; discriminate].
  exists result, engine'. split; [reflexivity|].
  apply (failure_count_is_not_negative (H := gridPlatform) _ _ _ _ _ Hrun).
Defined.

(** *** Cycles of an engine that holds no assignment *)

Lemma no_assignment_no_trigger `{Platform} (cfg : ReassignmentConfig.t)
    (os : list (string * Order.t)) (rs : list (string * Rider.t)) (now : Z) :
  ReassignmentEngine.detectTriggers cfg os rs [] now
  = ReassignmentEngine.detectNewRidersInDemandZones rs now.
Proof.
  unfold ReassignmentEngine.detectTriggers.
  assert (Hscan : ReassignmentEngine.highPriorityScan cfg os [] rs now
                  = ([], [])).
  { unfold ReassignmentEngine.highPriorityScan. cbn [values map].
    generalize (List.filter (ReassignmentEngine.isPriorityOrder [])
                            (values os)).
    intros l. generalize (@nil string, @nil string).
    induction l as [|o l IH]; intros acc; [reflexivity|].
    cbn [fold_left].
    destruct (ReassignmentEngine.dueSoon cfg now o); apply IH. }
  unfold ReassignmentEngine.detectHighPriorityArrivals. rewrite Hscan.
  reflexivity.
Qed.

Lemma new_rider_triggers_release_nothing `{Platform}
    (cfg : ReassignmentConfig.t) (clock : Z) (rs rs' : list (string * Rider.t))
    (now : Z) (acc : list (string * Order.t) * ReassignmentEngine.Counters) :
  fold_left (handleReassignmentTrigger cfg clock rs)
            (ReassignmentEngine.detectNewRidersInDemandZones rs' now) acc
  = acc.
Proof.
  unfold ReassignmentEngine.detectNewRidersInDemandZones.
  destruct (0 <? length _)%nat; reflexivity.
Qed.

(** An engine holds no assignment when it is created, and [updateState]
    records none. *)
Lemma fresh_engine_holds_no_assignment `{Platform}
    (cfg : AssignmentEngineConfig.t) (os : list (string * Order.t))
    (rs : list (string * Rider.t)) :
  assignments (state (AssignmentEngine.new cfg)) = []
  /\ forall engine,
       assignments (state (updateState engine os rs))
       = assignments (state engine).
Proof. split; reflexivity. Qed.

(** X30.  In a cycle of an engine that holds no assignment, no order is
    released again: the reassignment counters stay as they were, the
    engine still holds no assignment afterwards, and when the cycle ends
    every decided order is assigned to the rider of its decision and
    stands in that rider's queue at the decided position. *)
Theorem decided_orders_end_the_cycle_assigned `{Platform} (fuel : nat)
    (clock : Z) (engine : AssignmentEngine.t)
    (result : AssignmentCycleResult.t) (engine' : AssignmentEngine.t) :
  assignments (state engine) = [] ->
  executeCycle fuel clock engine = Some (result, engine') ->
  assignments (state engine') = []
  /\ counters engine' = counters engine
  /\ forall d,
       In d (AssignmentCycleResult.decisions result) ->
       assignedAsDecided (orders (state engine')) d
       /\ queuedAsDecided (riders (state engine')) d.
Proof.
  intros Hempty Hrun. unfold executeCycle in Hrun.
  destruct (length _ =? 0)%nat.
  { injection Hrun as <- <-. repeat split; try assumption.
    all: match goal with Hd : In _ _ |- _ => destruct Hd end. }
  destruct (stage2Scoring _ _ _ _ _) as [scores model].
  unfold stage3GlobalOptimization in Hrun.
  destruct (Optimizers.AdaptiveOptimizer.optimize fuel (buildMatrix scores) _)
    as [r|] eqn:Hsolve; [|discriminate].
  cbn [option_map] in Hrun.
  pose proof (OptimizersFacts.adaptive_within _ _ _ _ Hsolve) as (Hnd & _).
  pose proof (decisions_loop (Optimizers.assignments r) []
                (orders (state engine)) (riders (state engine)))
    as (_ & _ & _ & Hqueued & Hassigned).
  fold (createAssignmentDecisions (orders (state engine))
          (riders (state engine)) (Optimizers.assignments r))
    in Hqueued, Hassigned.
  destruct (createAssignmentDecisions _ _ _) as [[decisions os] rs].
  cbn [fst snd] in Hqueued, Hassigned.
  rewrite Hempty, no_assignment_no_trigger,
    new_rider_triggers_release_nothing in Hrun.
  injection Hrun as <- <-.
  cbn [state orders riders assignments counters
       AssignmentCycleResult.decisions].
  split; [reflexivity|]. split; [reflexivity|].
  intros d Hd. split.
  - apply Hassigned; [exact Hnd| | |exact Hd]; intros d' [].
  - apply Hqueued; [|exact Hd]. intros d' [].
Qed.

Lemma decided_orders_end_the_cycle_assigned_witness :
  exists result engine',
    executeCycle (H := gridPlatform) 5 0 sampleEngine = Some (result, engine')
    /\ counters engine' = counters sampleEngine.
Proof.
  destruct (executeCycle (H := gridPlatform) 5 0 sampleEngine)
    as [[result engine']|] eqn:Hrun; [|vm_compute in Hrun; discriminate].
  exists result, engine'. split; [reflexivity|].
  apply (decided_orders_end_the_cycle_assigned (H := gridPlatform) 5 0
           sampleEngine result engine' eq_refl Hrun).
Defined.

End AssignmentEngineFacts.
